(** * Cascadia order utilities: a shallow embedding of
    [orders/utils/cascadia.py] and the properties of its order
    resolution engine.

    The Python module works on pandas data frames.  A frame is modelled
    as an ordered list of columns and an ordered list of rows; a row
    carries its index label and a finite map from column names to
    cells.  Exceptions are modelled with an error monad, the logger with
    a writer layered on top of it.

    The record filter, the age labels and the row search of the
    dashboard script [update_dashboards/tpchd.py] are embedded on the
    same frames. *)

From Stdlib Require Import ZArith List String Ascii Lia Bool Sorted.
From stdpp Require Import base gmap strings list pretty.
From Equations Require Import Equations.
Import ListNotations.

Local Open Scope string_scope.
Local Open Scope Z_scope.
Local Open Scope list_scope.

(** ** Python values *)

(** A Python [str] is a sequence of Unicode code points. *)
Abbreviation pystr := (list N).

Definition py (s : string) : pystr :=
  map N_of_ascii (list_ascii_of_string s).

(** The content of one cell of a frame.  [NaN] stands for every missing
    value ([None], [nan], [NaT]); numeric cells are integral. *)
Inductive cell :=
| NaN
| Int (z : Z)
| Str (s : pystr)
| Bool (b : bool)
| Stamp (t : Z).

#[global] Instance cell_eq_dec : EqDecision cell.
Proof. solve_decision. Defined.

#[global] Instance Str_inj : Inj eq eq Str.
Proof. by intros ?? [=]. Qed.

(** One level of an index: a number or a string. *)
Inductive key :=
| KInt (z : Z)
| KStr (s : pystr).

#[global] Instance key_eq_dec : EqDecision key.
Proof. solve_decision. Defined.

(** A row label: a flat index entry or an entry of a two-level
    MultiIndex (household key, event key). *)
Inductive label :=
| Flat (k : key)
| Multi (k1 k2 : key).

#[global] Instance label_eq_dec : EqDecision label.
Proof. solve_decision. Defined.

Record row := Row { name : label; cells : gmap string cell }.

Record DataFrame := DF { columns : list string; rows : list row }.

(** A pandas Series taken out of a frame: the labels with the values. *)
Abbreviation Series := (list (label * cell)).

(** ** Exceptions and logging *)

(** [Diverges] is not a Python exception: it marks a loop of the model
    that ran out of fuel. *)
Inductive exn := KeyError | IndexError | ValueError | TypeError | NameError | Diverges.

Inductive result (A : Type) :=
| Ok (a : A)
| Raise (e : exn).
Arguments Ok {A} a.
Arguments Raise {A} e.

Inductive level := DEBUG | INFO | WARNING.

(** One constructor for each message the module logs. *)
Inductive message :=
| AssigningSublocations
| FilteringOrders (n : nat)
| NoValidAddress (household : key)
| SplittingResupply (household : key)
| SplittingWelcome (household : key)
| AppendingOrder (quantity sku : Z) (household : key)
| SelectingRecentAddress (house_id : key)
| SurveyAddressFound
| NoSurveyAddress
| FetchingEnrollmentAddress (idx : Z) (house_id : key)
| SettingRegionZipcode
| GeneratedOrderId (order_id : pystr)
| UsingPreferredName
| UsingLegalName
| NoHeadOfHousehold (house_id : key) (idx : Z)
| FoundHeadOfHousehold (idx : Z) (house_id : key).

Definition log_record : Type := level * message.

(** Computations that may raise and that log: the records are kept in
    emission order. *)
Definition M (A : Type) : Type := result (A * list log_record).

Definition ret {A} (a : A) : M A := Ok (a, []).

Definition bind {A B} (m : M A) (f : A -> M B) : M B :=
  match m with
  | Raise e => Raise e
  | Ok (a, l1) =>
      match f a with
      | Raise e => Raise e
      | Ok (b, l2) => Ok (b, l1 ++ l2)
      end
  end.

Definition lift {A} (r : result A) : M A :=
  match r with
  | Ok a => Ok (a, [])
  | Raise e => Raise e
  end.

Definition LOG (lv : level) (msg : message) : M unit := Ok (tt, [(lv, msg)]).

Notation "'do' x <- m 'in' k" := (bind m (fun x => k))
  (at level 10, x name, m at level 100, k at level 200).
Notation "'run' m 'in' k" := (bind m (fun _ => k))
  (at level 10, m at level 100, k at level 200).

(** ** Data frame operations *)

Definition has_column (df : DataFrame) (c : string) : bool :=
  bool_decide (c ∈ columns df).

(** A cell that is absent from a row's map reads as missing. *)
Definition cell_of (r : row) (c : string) : cell :=
  default NaN (cells r !! c).

(** [df[c]]: the column as a Series, [KeyError] when there is none. *)
Definition getitem (df : DataFrame) (c : string) : result Series :=
  if has_column df c
  then Ok (map (fun r => (name r, cell_of r c)) (rows df))
  else Raise KeyError.

(** [df[c].values] *)
Definition values (df : DataFrame) (c : string) : result (list cell) :=
  if has_column df c
  then Ok (map (fun r => cell_of r c) (rows df))
  else Raise KeyError.

Definition isna (v : cell) : bool :=
  match v with NaN => true | _ => false end.

Definition notna (v : cell) : bool := negb (isna v).

Definition set_cell (c : string) (v : cell) (r : row) : row :=
  Row (name r) (<[c := v]> (cells r)).

Definition add_column (cols : list string) (c : string) : list string :=
  if bool_decide (c ∈ cols) then cols else cols ++ [c].

(** [df[c] = v] for a scalar [v]: broadcast to every row; a new column
    goes last. *)
Definition setitem_scalar (df : DataFrame) (c : string) (v : cell) : DataFrame :=
  DF (add_column (columns df) c) (map (set_cell c v) (rows df)).

(** [df[c] = vs] for values already in the frame's row order. *)
Definition setitem_values (df : DataFrame) (c : string) (vs : list cell) : DataFrame :=
  DF (add_column (columns df) c)
     (zip_with (fun r v => set_cell c v r) (rows df) vs).

Definition series_lookup (s : Series) (l : label) : cell :=
  match find (fun p => bool_decide (fst p = l)) s with
  | Some p => snd p
  | None => NaN
  end.

(** [df[c] = s] for a Series [s]: pandas aligns [s] on the index of the
    frame.  Equal indexes take the values as they are; otherwise the
    Series is reindexed by label, which raises on a Series whose index
    has duplicates and yields a missing value for a label the Series
    does not have. *)
Definition setitem_series (df : DataFrame) (c : string) (s : Series) : result DataFrame :=
  if bool_decide (map fst s = map name (rows df))
  then Ok (setitem_values df c (map snd s))
  else if bool_decide (NoDup (map fst s))
  then Ok (setitem_values df c (map (fun r => series_lookup s (name r)) (rows df)))
  else Raise ValueError.

Definition restrict (cols : list string) (r : row) : row :=
  Row (name r) (filter (fun kv => fst kv ∈ cols) (cells r)).

Definition relabel (i : nat) (r : row) : row :=
  Row (Flat (KInt (Z.of_nat i))) (cells r).

(** [pd.concat([a, b], join='inner', ignore_index=True)]: the columns the
    two frames share, in the order of [a]; the rows of [a], then those
    of [b]; a fresh index 0, 1, 2, ... *)
Definition concat_inner (a b : DataFrame) : DataFrame :=
  let cols := filter (fun c => c ∈ columns b) (columns a) in
  DF cols (imap relabel (map (restrict cols) (rows a ++ rows b))).

(** ** Strings *)

(** [str.isalpha] on one character.  On ASCII the letters are A-Z and
    a-z; above ASCII the Unicode tables decide, and they are a parameter
    of the model ([isalpha_unicode]), except that the last code point,
    U+10FFFF, is a noncharacter and no letter. *)
Definition max_code_point : N := 1114111.

Definition isalpha (isalpha_unicode : N -> bool) (c : N) : bool :=
  if (c <? 128)%N
  then ((65 <=? c)%N && (c <=? 90)%N) || ((97 <=? c)%N && (c <=? 122)%N)
  else (c <? max_code_point)%N && isalpha_unicode c.

(** [chr(n)] raises [ValueError] beyond the last code point. *)
Definition chr (n : N) : result N :=
  if (n <=? max_code_point)%N then Ok n else Raise ValueError.

(** [f'{k}'] *)
Definition format_key (k : key) : pystr :=
  match k with
  | KInt z => py (pretty z)
  | KStr s => s
  end.

(** [label[0]]: the first level of a MultiIndex entry, the first
    character of a string label; a number has no items. *)
Definition label_item0 (l : label) : result key :=
  match l with
  | Multi k1 _ => Ok k1
  | Flat (KStr []) => Raise IndexError
  | Flat (KStr (c :: _)) => Ok (KStr [c])
  | Flat (KInt _) => Raise TypeError
  end.

(** The calendar date read from the clock. *)
Record date := Date { year : N; month : N; day : N }.

Definition two_digits (n : N) : pystr :=
  [(48 + (n mod 100) / 10)%N; (48 + n mod 10)%N].

(** [strftime("%y%m%d")] *)
Definition strftime_ymd (d : date) : pystr :=
  two_digits (year d) ++ two_digits (month d) ++ two_digits (day d).

Definition cell_of_key (k : key) : cell :=
  match k with
  | KInt z => Int z
  | KStr s => Str s
  end.

Section Cascadia.

#[local] Set Default Proof Using "Type".

(** The Unicode letter table above ASCII, and the date the clock shows
    during the run. *)
Variable isalpha_unicode : N -> bool.
Variable now : date.

(** ** Order numbers *)

(** One turn of the loop body of [generate_order_number]: the next
    candidate after a collision. *)
Definition next_order_id (order_id : pystr) : result pystr :=
  match order_id !! (length order_id - 1)%nat with
  | None => Raise IndexError
  | Some c =>
      if negb (isalpha isalpha_unicode c)
      then Ok (order_id ++ py "a")
      else
        match chr (c + 1)%N with
        | Ok c' => Ok (<[(length order_id - 1)%nat := c']> order_id)
        | Raise e => Raise e
        end
  end.

(** [while order_id in orders['OrderID'].values: ...] *)
Fixpoint generate_order_number_loop
  (fuel : nat) (order_id : pystr) (ids : list cell) : result pystr :=
  match fuel with
  | O => Raise Diverges
  | S fuel' =>
      if bool_decide (Str order_id ∈ ids)
      then
        match next_order_id order_id with
        | Ok order_id' => generate_order_number_loop fuel' order_id' ids
        | Raise e => Raise e
        end
      else Ok order_id
  end.

Definition iloc0 (df : DataFrame) : result row :=
  match rows df with
  | [] => Raise IndexError
  | r :: _ => Ok r
  end.

(** The identifier the loop starts from: the date, then the first item
    of the first label of the address. *)
Definition base_order_id (address : DataFrame) : result pystr :=
  match iloc0 address with
  | Raise e => Raise e
  | Ok r =>
      match label_item0 (name r) with
      | Raise e => Raise e
      | Ok k => Ok (strftime_ymd now ++ format_key k)
      end
  end.

Definition generate_order_number (address orders : DataFrame) : M pystr :=
  do order_id <- lift (base_order_id address) in
  do ids <- lift (values orders "OrderID") in
  do order_id <- lift (generate_order_number_loop (S (length ids)) order_id ids) in
  run LOG DEBUG (GeneratedOrderId order_id) in
  ret order_id.

(** ** Appending orders *)

Definition any_isna (df : DataFrame) (c : string) : result bool :=
  match values df c with
  | Ok vs => Ok (existsb isna vs)
  | Raise e => Raise e
  end.

(** The guard of [append_order]; [and] evaluates its right operand only
    when the left one holds. *)
Definition no_valid_address (address : DataFrame) : result bool :=
  match any_isna address "Street Address" with
  | Ok true =>
      match any_isna address "City" with
      | Ok true => any_isna address "State"
      | other => other
      end
  | other => other
  end.

(** The last four assignments and the concatenation of [append_order]. *)
Definition stamp_and_concat
  (orders : DataFrame) (household : key) (sku quantity : Z) (address : DataFrame)
  : M (DataFrame * DataFrame) :=
  let address := setitem_scalar address "SKU" (Int sku) in
  let address := setitem_scalar address "Quantity" (Int quantity) in
  do order_id <- generate_order_number address orders in
  let address := setitem_scalar address "OrderID" (Str order_id) in
  let address := setitem_scalar address "Household ID" (cell_of_key household) in
  run LOG INFO (AppendingOrder quantity sku household) in
  ret (concat_inner orders address, address).

(** [append_order] returns the sheet; the address frame is mutated in
    place, so the model returns it as well. *)
Equations? append_order
  (orders : DataFrame) (household : key) (sku quantity : Z) (address : DataFrame)
  : M (DataFrame * DataFrame) by wf (Z.to_nat quantity) lt :=
append_order orders household sku quantity address :=
  do invalid <- lift (no_valid_address address) in
  if (invalid : bool)
  then
    run LOG WARNING (NoValidAddress household) in
    ret (orders, address)
  else
    match decide (quantity > 20 /\ sku = 1) with
    | left _ =>
        run LOG DEBUG (SplittingResupply household) in
        do split <- append_order orders household sku (quantity - 20) address in
        stamp_and_concat (fst split) household sku 20 (snd split)
    | right _ =>
        match decide (quantity > 4 /\ sku = 3) with
        | left _ =>
            run LOG DEBUG (SplittingWelcome household) in
            do split <- append_order orders household sku (quantity - 4) address in
            stamp_and_concat (fst split) household sku 4 (snd split)
        | right _ =>
            stamp_and_concat orders household sku quantity address
        end
    end.
Proof. all: lia. Qed.

(** ** Head of household *)

(** What [int(s)] gives on a string, and what [astype('datetime64')]
    makes of a cell ([None] is NaT): both belong to the Python runtime
    and to pandas, and are parameters of the model. *)
Variable int_of_str : pystr -> result Z.
Variable to_datetime64 : cell -> result (option Z).

(** The export columns of [orders/utils/common.py], and its
    [use_best_address], which builds the Series that replaces a selected
    survey row: its labels in order, and its values. *)
Variable USPS_EXPORT_COLS : list string.
Variable use_best_address : DataFrame -> row -> M (list string * gmap string cell).

(** [tauto] without the parameters of the model in its context. *)
Ltac tauto_closed :=
  try clear use_best_address; try clear USPS_EXPORT_COLS;
  try clear to_datetime64; try clear int_of_str;
  try clear now; try clear isalpha_unicode;
  tauto.

(** [int(v)] *)
Definition int (v : cell) : result Z :=
  match v with
  | NaN => Raise ValueError
  | Int z => Ok z
  | Str s => int_of_str s
  | Bool b => Ok (Z.b2z b)
  | Stamp _ => Raise TypeError
  end.

(** [v == n] for an integer literal [n]. *)
Definition eq_int (v : cell) (n : Z) : bool :=
  match v with
  | Int z => bool_decide (z = n)
  | Bool b => bool_decide (Z.b2z b = n)
  | _ => false
  end.

(** [v == s] and [v != s] for a string literal [s]. *)
Definition eq_str (v : cell) (s : string) : bool :=
  bool_decide (v = Str (py s)).

Definition ne_str (v : cell) (s : string) : bool := negb (eq_str v s).

(** [tmp.reset_index(level=0)]: a flat index becomes 0, 1, 2, ...; a
    MultiIndex keeps its second level.  (The column that pandas adds for
    the level taken out is never read.) *)
Definition reset_index_level0 (df : DataFrame) : DataFrame :=
  DF (columns df)
     (imap (fun i r =>
              match name r with
              | Flat _ => Row (Flat (KInt (Z.of_nat i))) (cells r)
              | Multi _ k2 => Row (Flat k2) (cells r)
              end) (rows df)).

(** [s.idxmax()] on a boolean Series: the label of the first [True], of
    the first row when there is none; no maximum in an empty Series. *)
Definition idxmax (s : list (label * bool)) : result label :=
  match s with
  | [] => Raise ValueError
  | first :: _ =>
      match find snd s with
      | Some hit => Ok (fst hit)
      | None => Ok (fst first)
      end
  end.

(** [df.iloc[l]] where [l] was taken from the index: a position, counted
    from the end when negative; a string is no position. *)
Definition iloc_label (df : DataFrame) (l : label) : result row :=
  match l with
  | Flat (KInt z) =>
      let n := Z.of_nat (length (rows df)) in
      let i := if z <? 0 then n + z else z in
      if (0 <=? i) && (i <? n)
      then match rows df !! Z.to_nat i with
           | Some r => Ok r
           | None => Raise IndexError
           end
      else Raise IndexError
  | _ => Raise TypeError
  end.

(** [r[c]] on a row taken out of [df]. *)
Definition row_item (df : DataFrame) (r : row) (c : string) : result cell :=
  if has_column df c then Ok (cell_of r c) else Raise KeyError.

Definition get_head_of_household (household_records : DataFrame) (house_id : key) : M Z :=
  let tmp := reset_index_level0 household_records in
  do reporter <- lift (getitem tmp "HH Reporter") in
  do pos <- lift (idxmax (map (fun p => (fst p, notna (snd p))) reporter)) in
  do r <- lift (iloc_label tmp pos) in
  do head_of_house_idx <- lift (row_item tmp r "HH Reporter") in
  if isna head_of_house_idx
  then
    run LOG WARNING (NoHeadOfHousehold house_id 0) in
    ret 0
  else
    do idx <- lift (int head_of_house_idx) in
    run LOG DEBUG (FoundHeadOfHousehold idx house_id) in
    ret idx.

(** ** Addresses *)

Definition get_best_first_name (enroll_address : DataFrame) : M cell :=
  do r <- lift (iloc0 enroll_address) in
  do pref_first_name <- lift (row_item enroll_address r "Pref First Name") in
  if negb (isna pref_first_name)
  then
    run LOG DEBUG UsingPreferredName in
    ret pref_first_name
  else
    run LOG DEBUG UsingLegalName in
    lift (row_item enroll_address r "First Name").

(** [df.loc[[l]]]: every row labelled [l], [KeyError] when there is
    none. *)
Definition loc_list (df : DataFrame) (l : label) : result DataFrame :=
  match filter (fun r => name r = l) (rows df) with
  | [] => Raise KeyError
  | rs => Ok (DF (columns df) rs)
  end.

(** [df.query('c.isna()')]: an unknown column is an undefined name. *)
Definition query_isna (df : DataFrame) (c : string) : result DataFrame :=
  if has_column df c
  then Ok (DF (columns df) (filter (fun r => isna (cell_of r c) = true) (rows df)))
  else Raise NameError.

(** [f'{idx}_arm_1'] *)
Definition event_name (idx : Z) : key := KStr (py (pretty idx) ++ py "_arm_1").

Definition get_enrollment_address (household_records : DataFrame) (house_id : key) : M DataFrame :=
  do head_of_house_idx <- get_head_of_household household_records house_id in
  run LOG DEBUG (FetchingEnrollmentAddress head_of_house_idx house_id) in
  do event <- lift (loc_list household_records (Flat (event_name head_of_house_idx))) in
  lift (query_isna event "redcap_repeat_instrument").

Fixpoint mapM {A B} (f : A -> result B) (l : list A) : result (list B) :=
  match l with
  | [] => Ok []
  | x :: l' =>
      match f x with
      | Raise e => Raise e
      | Ok y =>
          match mapM f l' with
          | Raise e => Raise e
          | Ok ys => Ok (y :: ys)
          end
      end
  end.

Definition cell_of_stamp (t : option Z) : cell :=
  match t with
  | Some t => Stamp t
  | None => NaN
  end.

Definition stamp_of (v : cell) : option Z :=
  match v with
  | Stamp t => Some t
  | _ => None
  end.

(** [a] is strictly more recent than [b]; NaT is older than any date. *)
Definition later (a b : option Z) : bool :=
  match a, b with
  | Some x, Some y => y <? x
  | Some _, None => true
  | None, _ => false
  end.

Fixpoint insert_desc (c : string) (x : row) (l : list row) : list row :=
  match l with
  | [] => [x]
  | y :: l' =>
      if later (stamp_of (cell_of y c)) (stamp_of (cell_of x c))
      then y :: insert_desc c x l'
      else x :: l
  end.

(** [df.sort_values(by=c, ascending=False)] on a column of dates: most
    recent first, NaT last.  pandas leaves the order of equal dates
    open; the model keeps them in their original order. *)
Definition sort_values_desc (c : string) (df : DataFrame) : result DataFrame :=
  if has_column df c
  then Ok (DF (columns df) (foldr (insert_desc c) [] (rows df)))
  else Raise KeyError.

(** [df[dst] = df[src]] *)
Definition copy_column (df : DataFrame) (dst src : string) : result DataFrame :=
  match getitem df src with
  | Ok s => setitem_series df dst s
  | Raise e => Raise e
  end.

(** The row mask [~(isna(Street Address 2) & isna(City 2) & isna(State 2))]. *)
Definition complete_address (r : row) : bool :=
  negb (isna (cell_of r "Street Address 2")
        && isna (cell_of r "City 2")
        && isna (cell_of r "State 2")).

Definition get_most_recent_address (household_records : DataFrame) (house_id : key)
  : M (option DataFrame) :=
  run LOG DEBUG (SelectingRecentAddress house_id) in
  do instrument <- lift (values household_records "redcap_repeat_instrument") in
  let symptom_surveys :=
    DF (columns household_records)
       (filter (fun r => eq_str (cell_of r "redcap_repeat_instrument") "symptom_survey" = true)
               (rows household_records)) in
  do dates <- lift (values symptom_surveys "ss_date_1") in
  do dates <- lift (mapM to_datetime64 dates) in
  let symptom_surveys := setitem_values symptom_surveys "ss_date_1" (map cell_of_stamp dates) in
  do symptom_surveys <- lift (sort_values_desc "ss_date_1" symptom_surveys) in
  do street <- lift (values symptom_surveys "Street Address 2") in
  do city <- lift (values symptom_surveys "City 2") in
  do state <- lift (values symptom_surveys "State 2") in
  let complete_addresses :=
    DF (columns symptom_surveys)
       (filter (fun r => complete_address r = true) (rows symptom_surveys)) in
  match rows complete_addresses with
  | first :: _ =>
      run LOG DEBUG SurveyAddressFound in
      do complete_addresses <- lift (copy_column complete_addresses "Street Address" "Street Address 2") in
      do complete_addresses <- lift (copy_column complete_addresses "Apt Number" "Apt Number 2") in
      do complete_addresses <- lift (copy_column complete_addresses "City" "City 2") in
      do complete_addresses <- lift (copy_column complete_addresses "State" "State 2") in
      do complete_addresses <- lift (copy_column complete_addresses "Zipcode" "Zipcode 2") in
      ret (Some (DF (columns complete_addresses) (take 1 (rows complete_addresses))))
  | [] =>
      run LOG DEBUG NoSurveyAddress in
      ret None
  end.

(** [household_records.loc[house_id]]: the rows of the household, under
    the second level of their labels. *)
Definition loc_level0 (df : DataFrame) (house_id : key) : result DataFrame :=
  match
    omap (fun r =>
            match name r with
            | Multi k1 k2 => if decide (k1 = house_id) then Some (Row (Flat k2) (cells r)) else None
            | Flat _ => None
            end) (rows df)
  with
  | [] => Raise KeyError
  | rs => Ok (DF (columns df) rs)
  end.

(** The truth value of a numpy array of booleans: that of its only
    element; an empty array is false, a longer one has none. *)
Definition truth_value (a : list bool) : result bool :=
  match a with
  | [] => Ok false
  | [b] => Ok b
  | _ => Raise ValueError
  end.

(** ['Cascadia_SEA' if address['Project Name'].values == 2 else 'Cascadia_PDX'] *)
Definition address_project_name (project : list cell) : result cell :=
  match truth_value (map (fun v => eq_int v 2) project) with
  | Ok true => Ok (Str (py "Cascadia_SEA"))
  | Ok false => Ok (Str (py "Cascadia_PDX"))
  | Raise e => Raise e
  end.

(** [s.astype(int)] *)
Definition astype_int (s : Series) : result Series :=
  mapM (fun p => match int (snd p) with
                 | Ok z => Ok (fst p, Int z)
                 | Raise e => Raise e
                 end) s.

(** [df[cols]] *)
Definition select_columns (df : DataFrame) (cols : list string) : DataFrame :=
  DF cols (map (restrict cols) (rows df)).

(** [address[c] = enroll_address[c]] *)
Definition take_from (enroll_address address : DataFrame) (c : string) : result DataFrame :=
  match getitem enroll_address c with
  | Ok s => setitem_series address c s
  | Raise e => Raise e
  end.

Definition get_household_address (household_records : DataFrame) (house_id : key) : M DataFrame :=
  do household <- lift (loc_level0 household_records house_id) in
  do enroll_address <- get_enrollment_address household house_id in
  do updated_address <- get_most_recent_address household house_id in
  (* without a survey address, [address] and [enroll_address] name one
     frame: an assignment to the first is seen through the second *)
  let address := match updated_address with None => enroll_address | Some a => a end in
  let enroll (address : DataFrame) :=
    match updated_address with None => address | Some _ => enroll_address end in
  do first_name <- get_best_first_name (enroll address) in
  let address := setitem_scalar address "Pref First Name" first_name in
  do address <- lift (take_from (enroll address) address "Last Name") in
  do address <- lift (take_from (enroll address) address "Email") in
  do address <- lift (take_from (enroll address) address "Phone") in
  do address <- lift (take_from (enroll address) address "Delivery Instructions") in
  run LOG DEBUG SettingRegionZipcode in
  do project <- lift (values address "Project Name") in
  do project_name <- lift (address_project_name project) in
  let address := setitem_scalar address "Project Name" project_name in
  do zipcode <- lift (values address "Zipcode") in
  do missing <- lift (truth_value (map isna zipcode)) in
  do address <-
    (if negb missing
     then
       do s <- lift (getitem address "Zipcode") in
       do s <- lift (astype_int s) in
       lift (setitem_series address "Zipcode" s)
     else ret (setitem_scalar address "Zipcode" (Str (py "")))) in
  ret (select_columns address (filter (fun c => c ∈ USPS_EXPORT_COLS) (columns address))).

(** ** Filtering orders *)

(** [lambda x: 'CASCADIA_SEA' if x['Project Name'] == 2 else 'CASCADIA_PDX'] *)
Definition sublocation (v : cell) : cell :=
  if eq_int v 2 then Str (py "CASCADIA_SEA") else Str (py "CASCADIA_PDX").

Definition assign_cascadia_location (orders : DataFrame) : M DataFrame :=
  run LOG DEBUG AssigningSublocations in
  do project <- lift (values orders "Project Name") in
  (* the labels are strings already: [astype(str)] changes nothing *)
  ret (setitem_values orders "Project Name" (map sublocation project)).

(** [df[cols]] for a list of columns: all of them must exist. *)
Definition getitem_list (df : DataFrame) (cols : list string) : result DataFrame :=
  if forallb (has_column df) cols
  then Ok (select_columns df cols)
  else Raise KeyError.

(** The builtin [any] applied to a frame: iterating a frame yields its
    column labels, and a label counts as true when it is not empty. *)
Definition py_any (df : DataFrame) : bool :=
  existsb (fun c => negb (String.eqb c "")) (columns df).

(** A column of integers: every cell holds an integer, none is
    missing. *)
Definition integer_column (column : list cell) : bool :=
  forallb (fun v => match v with Int _ => true | _ => false end) column.

(** A cell of the flag column under [&] with a boolean mask.  pandas
    goes by the type of the column.  On a column of integers
    ([integers]) the operation is bitwise, and the result is cast to a
    boolean: the flag counts by its lowest bit.  Any other column, one
    that holds a missing value, a boolean or a string, is first filled
    and cast to booleans: a missing value is false, and every other
    value counts by its truth value, a number when it is not 0, a
    string when it is not empty. *)
Definition mask_cell (integers : bool) (v : cell) : bool :=
  match v with
  | NaN => false
  | Int z => if integers then Z.odd z else negb (z =? 0)
  | Str s => match s with [] => false | _ :: _ => true end
  | Bool b => b
  | Stamp _ => true
  end.

(** The project name of the first event of the household of [x]:
    [enrollment_records.filter(items=[(x.name[0], '0_arm_1')], axis=0)
     ['Project Name'].values[0]].  (pandas refuses to filter a frame
    whose index has duplicates; the model reads the first match.) *)
Definition first_event_project (enrollment_records : DataFrame) (x : row) : result cell :=
  match label_item0 (name x) with
  | Raise e => Raise e
  | Ok k =>
      if has_column enrollment_records "Project Name"
      then
        match filter (fun r => name r = Multi k (KStr (py "0_arm_1"))) (rows enrollment_records) with
        | [] => Raise IndexError
        | r :: _ => Ok (cell_of r "Project Name")
        end
      else Raise KeyError
  end.

(** Lines 31 to 41: the enrollment records with the project name of the
    household on each of them. *)
Definition enrollment_records_of (orders : DataFrame) : result DataFrame :=
  match values orders "redcap_repeat_instrument" with
  | Raise e => Raise e
  | Ok _ =>
      let enrollment_records :=
        DF (columns orders)
           (filter (fun r => ne_str (cell_of r "redcap_repeat_instrument") "symptom_survey" = true)
                   (rows orders)) in
      match mapM (first_event_project enrollment_records) (rows enrollment_records) with
      | Raise e => Raise e
      | Ok project => Ok (setitem_values enrollment_records "Project Name" project)
      end
  end.

(** The row mask of lines 49 to 52; [any_pickup] is the value of
    [any(orders[['Pickup 1', 'Pickup 2']].notna())], and [integers]
    tells whether the flag column is a column of integers. *)
Definition pending (any_pickup integers : bool) (r : row) : bool :=
  eq_str (cell_of r "redcap_repeat_instrument") "symptom_survey"
  && isna (cell_of r "ss_return_tracking")
  && any_pickup
  && mask_cell integers (cell_of r "ss_trigger_swab").

(** [df.dropna(subset=[c])] *)
Definition dropna (df : DataFrame) (c : string) : result DataFrame :=
  if has_column df c
  then Ok (DF (columns df) (filter (fun r => notna (cell_of r c) = true) (rows df)))
  else Raise KeyError.

(** [df.query("~index.duplicated(keep='last')")]: a row stays when no
    later row carries its label. *)
Fixpoint drop_duplicated_keep_last (rs : list row) : list row :=
  match rs with
  | [] => []
  | r :: rs' =>
      if bool_decide (name r ∈ map name rs')
      then drop_duplicated_keep_last rs'
      else r :: drop_duplicated_keep_last rs'
  end.

(** Lines 48 to 54: the survey rows that need an order, one for each
    index entry. *)
Definition select_orders (orders : DataFrame) : result DataFrame :=
  match values orders "redcap_repeat_instrument" with
  | Raise e => Raise e
  | Ok _ =>
  match values orders "ss_return_tracking" with
  | Raise e => Raise e
  | Ok _ =>
  match getitem_list orders ["Pickup 1"; "Pickup 2"] with
  | Raise e => Raise e
  | Ok pickups =>
  match values orders "ss_trigger_swab" with
  | Raise e => Raise e
  | Ok trigger =>
      let selected :=
        DF (columns orders)
           (filter (fun r => pending (py_any pickups) (integer_column trigger) r = true)
                   (rows orders)) in
      match dropna selected "Order Date" with
      | Raise e => Raise e
      | Ok dated => Ok (DF (columns dated) (drop_duplicated_keep_last (rows dated)))
      end
  end end end end.

Fixpoint mapMM {A B} (f : A -> M B) (l : list A) : M (list B) :=
  match l with
  | [] => ret []
  | x :: l' =>
      do y <- f x in
      do ys <- mapMM f l' in
      ret (y :: ys)
  end.

(** [df.apply(f, axis=1)] for an [f] that returns a Series: the index
    stays, the values of each row are those of its Series, and the
    columns are the labels of the Series. *)
Definition apply_rows
  (f : row -> M (list string * gmap string cell)) (df : DataFrame) : M DataFrame :=
  do results <- mapMM f (rows df) in
  ret (DF (match results with
           | [] => columns df
           | first :: _ => fst first
           end)
          (zip_with (fun r s => Row (name r) (snd s)) (rows df) results)).

(** [lambda x: 0 if x['Pickup 1'] == 1 else 1] *)
Definition today_tomorrow (v : cell) : cell :=
  if eq_int v 1 then Int 0 else Int 1.

Definition filter_cascadia_orders (orders : DataFrame) : M DataFrame :=
  run LOG DEBUG (FilteringOrders (length (rows orders))) in
  do enrollment_records <- lift (enrollment_records_of orders) in
  do orders <- lift (select_orders orders) in
  do orders <- apply_rows (use_best_address enrollment_records) orders in
  do pickup <- lift (values orders "Pickup 1") in
  let orders := setitem_values orders "Today Tomorrow" (map today_tomorrow pickup) in
  let orders := setitem_scalar orders "Notification Pref" (Str (py "email")) in
  assign_cascadia_location orders.

(** [n] calls of the generator in a row for one household, as
    [append_order] makes them: each call sees the identifiers of the
    sheet and, after them, those handed out by the calls before it. *)
Fixpoint successive_order_numbers
  (n : nat) (order_id : pystr) (ids : list cell) : result (list pystr) :=
  match n with
  | O => Ok []
  | S n' =>
      match generate_order_number_loop (S (length ids)) order_id ids with
      | Raise e => Raise e
      | Ok new_id =>
          match successive_order_numbers n' order_id (ids ++ [Str new_id]) with
          | Raise e => Raise e
          | Ok l => Ok (new_id :: l)
          end
      end
  end.

(** The [i]-th lowercase letter, and the first [n] identifiers made of
    [order_id] and one lowercase letter: a, b, c, ... *)
Definition letter (i : nat) : N := (97 + N.of_nat i)%N.

Definition suffixed (order_id : pystr) (n : nat) : list pystr :=
  map (fun i => order_id ++ [letter i]) (seq 0 n).

(** The address frame after the four assignments of [append_order]. *)
Definition stamped
  (address : DataFrame) (household : key) (sku quantity : Z) (order_id : pystr) : DataFrame :=
  setitem_scalar
    (setitem_scalar
       (setitem_scalar
          (setitem_scalar address "SKU" (Int sku))
          "Quantity" (Int quantity))
       "OrderID" (Str order_id))
    "Household ID" (cell_of_key household).

Definition stamped_columns (cols : list string) : list string :=
  add_column (add_column (add_column (add_column cols "SKU") "Quantity") "OrderID") "Household ID".

(** The sheet after the order lines [lines], each a quantity with its
    identifier, were concatenated to it one after the other. *)
Definition sheet_after
  (orders address : DataFrame) (household : key) (sku : Z) (lines : list (Z * pystr))
  : DataFrame :=
  foldl (fun sheet line => concat_inner sheet (stamped address household sku (fst line) (snd line)))
        orders lines.

(** The shipment caps: 20 resupply kits (SKU 1), 4 welcome kits (SKU 3);
    other kits are not split. *)
Definition shipment_cap (sku : Z) : option Z :=
  if decide (sku = 1) then Some 20
  else if decide (sku = 3) then Some 4
  else None.

(** The rows that a call added to the sheet [orders]. *)
Definition appended (orders orders' : DataFrame) : list row :=
  drop (length (rows orders)) (rows orders').

(** The splitting of a request: the quantities of the lines of one
    call are the remainder, then the cap as often as it was taken off;
    a kit without a cap is not split. *)
Definition split_of (sku quantity : Z) (quantities : list Z) : Prop :=
  match shipment_cap sku with
  | Some cap =>
      exists rest n,
        quantities = rest :: replicate n cap
        /\ rest + Z.of_nat n * cap = quantity
        /\ rest <= cap
        /\ (n <> O -> 0 < rest)
  | None => quantities = [quantity]
  end.

(** What a call of [append_order] with a deliverable address leaves: the
    sheet with the lines of the call after it, each under an identifier
    that was new when it was generated, and the address frame as the
    last line stamped it. *)
Definition lines_appended
  (orders : DataFrame) (household : key) (sku quantity : Z) (address : DataFrame)
  (orders' address' : DataFrame) (lines : list (Z * pystr)) : Prop :=
  exists line (base : pystr) (ids : list cell),
    last lines = Some line
    /\ base_order_id address = Ok base
    /\ values orders "OrderID" = Ok ids
    /\ orders' = sheet_after orders address household sku lines
    /\ address' = stamped address household sku (fst line) (snd line)
    /\ split_of sku quantity (map fst lines)
    /\ NoDup (map snd lines)
    /\ Forall (fun order_id => Str order_id ∉ ids) (map snd lines).

(** An address bundle is deliverable unless its street, city and state
    are all missing. *)
Definition deliverable (r : row) : Prop :=
  ~ (cell_of r "Street Address" = NaN /\ cell_of r "City" = NaN /\ cell_of r "State" = NaN).

Definition has_address_columns (address : DataFrame) : Prop :=
  "Street Address" ∈ columns address /\ "City" ∈ columns address /\ "State" ∈ columns address.

(** The rows of [a] are still in [a'], at their places, with the values
    they had in every column that [a'] has. *)
Definition kept (a a' : DataFrame) : Prop :=
  forall i r, rows a !! i = Some r ->
    exists r', rows a' !! i = Some r' /\ forall c, c ∈ columns a' -> cell_of r' c = cell_of r c.

(** A frame with a flat index, as [df.loc[house_id]] returns it. *)
Definition flat_index (df : DataFrame) : Prop :=
  Forall (fun r => exists k, name r = Flat k) (rows df).

(** [str.upper] on one ASCII character. *)
Definition upper (c : N) : N :=
  if ((97 <=? c) && (c <=? 122))%N then (c - 32)%N else c.



(** The rows of a frame are labelled 0, 1, 2, ... by position. *)
Definition renumbered (df : DataFrame) : Prop :=
  forall i r, rows df !! i = Some r -> name r = Flat (KInt (Z.of_nat i)).

(** The first name of [get_best_first_name] on an enrollment record, and
    the zipcode as [get_household_address] normalizes it. *)
Definition best_first_name (e : row) : cell :=
  if notna (cell_of e "Pref First Name")
  then cell_of e "Pref First Name"
  else cell_of e "First Name".

Definition normal_zipcode (v : cell) : cell :=
  if isna v then Str (py "")
  else match int v with
       | Ok z => Int z
       | Raise _ => NaN
       end.

(** No symptom survey of the household carries a survey address. *)
Definition no_survey_address (household : DataFrame) : Prop :=
  Forall (fun r => eq_str (cell_of r "redcap_repeat_instrument") "symptom_survey" = true ->
                   complete_address r = false) (rows household).

(** ** Sample data

    Concrete frames and parameters, for the scenarios of the
    specification. *)

Definition mkrow (l : label) (kv : list (string * cell)) : row :=
  Row l (list_to_map kv).

(** No letter above ASCII; [int] reads no string; a date cell is its own
    timestamp; the export columns; a [use_best_address] that returns the
    record as it is. *)
Definition ex_isalpha (c : N) : bool := false.

Definition ex_now : date := Date 2026 11 4.

Definition ex_int_of_str (s : pystr) : result Z := Raise ValueError.

Definition ex_to_datetime64 (v : cell) : result (option Z) :=
  match v with
  | Stamp t => Ok (Some t)
  | Int z => Ok (Some z)
  | NaN => Ok None
  | _ => Raise ValueError
  end.

Definition ex_export_cols : list string :=
  ["Pref First Name"; "Last Name"; "Email"; "Phone"; "Delivery Instructions";
   "Street Address"; "Apt Number"; "City"; "State"; "Zipcode"; "Project Name"].

Definition ex_use_best_address (enrollment_records : DataFrame) (record : row)
  : M (list string * gmap string cell) :=
  ret (columns enrollment_records, cells record).

Definition ex_house : key := KInt 12.

(** An empty sheet, and the same sheet with one line from an earlier day. *)
Definition ex_sheet_columns : list string :=
  ["Household ID"; "SKU"; "Quantity"; "OrderID"; "Street Address"; "City"; "State"].

Definition ex_sheet : DataFrame := DF ex_sheet_columns [].

Definition ex_sheet_today : DataFrame :=
  DF ex_sheet_columns
     [mkrow (Flat (KInt 0))
        [("Household ID", Int 12); ("SKU", Int 3); ("Quantity", Int 1);
         ("OrderID", Str (py "26110412")); ("Street Address", Str (py "1 Main St"));
         ("City", Str (py "Seattle")); ("State", Str (py "WA"))]].

(** A sheet with a column that no address bundle has. *)
Definition ex_sheet_carrier : DataFrame :=
  DF (ex_sheet_columns ++ ["Carrier"])
     [mkrow (Flat (KInt 0))
        [("Household ID", Int 7); ("SKU", Int 1); ("Quantity", Int 2);
         ("OrderID", Str (py "2611037")); ("Street Address", Str (py "5 Pine St"));
         ("City", Str (py "Portland")); ("State", Str (py "OR"));
         ("Carrier", Str (py "UPS"))]].

Definition ex_address : DataFrame :=
  DF ["Street Address"; "City"; "State"]
     [mkrow (Multi ex_house (KStr (py "0_arm_1")))
        [("Street Address", Str (py "1 Main St")); ("City", Str (py "Seattle"));
         ("State", Str (py "WA"))]].

Definition ex_address_missing : DataFrame :=
  DF ["Street Address"; "City"; "State"]
     [mkrow (Multi ex_house (KStr (py "0_arm_1"))) []].

(** An address bundle whose household key ends in a letter. *)
Definition ex_address_letter : DataFrame :=
  DF ["Street Address"; "City"; "State"]
     [mkrow (Multi (KStr (py "7B")) (KStr (py "0_arm_1")))
        [("Street Address", Str (py "1 Main St")); ("City", Str (py "Seattle"));
         ("State", Str (py "WA"))]].

Definition ex_sheet_letter : DataFrame :=
  DF ex_sheet_columns [mkrow (Flat (KInt 0)) [("OrderID", Str (py "2611047B"))]].

(** The records of household 12: the head of household (participant 0),
    a second participant, and a symptom survey of the second participant
    with a new address. *)
Definition ex_record_columns : list string :=
  ["redcap_repeat_instrument"; "HH Reporter"; "First Name"; "Pref First Name";
   "Last Name"; "Email"; "Phone"; "Delivery Instructions"; "Street Address";
   "Apt Number"; "City"; "State"; "Zipcode"; "Project Name"; "ss_date_1";
   "Street Address 2"; "Apt Number 2"; "City 2"; "State 2"; "Zipcode 2";
   "ss_return_tracking"; "Pickup 1"; "Pickup 2"; "ss_trigger_swab"; "Order Date"].

Definition ex_head : row :=
  mkrow (Multi ex_house (KStr (py "0_arm_1")))
    [("HH Reporter", Int 0); ("First Name", Str (py "Ann")); ("Last Name", Str (py "Doe"));
     ("Email", Str (py "ann@example.org")); ("Phone", Str (py "555-0100"));
     ("Delivery Instructions", Str (py "Side door"));
     ("Street Address", Str (py "1 Main St")); ("City", Str (py "Seattle"));
     ("State", Str (py "WA")); ("Project Name", Int 2)].

Definition ex_second : row :=
  mkrow (Multi ex_house (KStr (py "1_arm_1")))
    [("First Name", Str (py "Bob")); ("Last Name", Str (py "Doe"))].

Definition ex_survey : row :=
  mkrow (Multi ex_house (KStr (py "1_arm_1")))
    [("redcap_repeat_instrument", Str (py "symptom_survey")); ("ss_date_1", Int 5);
     ("Street Address 2", Str (py "9 Oak Ave")); ("City 2", Str (py "Portland"));
     ("State 2", Str (py "OR")); ("Zipcode 2", Int 97201)].

Definition ex_records : DataFrame := DF ex_record_columns [ex_head; ex_second].

Definition ex_records_moved : DataFrame :=
  DF ex_record_columns [ex_head; ex_second; ex_survey].

(** A snapshot for the order filter: the enrollment record of the head
    of household, and symptom surveys of the two participants that ask
    for a swab; [ex_no_pickup] has no pickup time, [ex_no_date] no order
    date. *)
Definition survey_row (event : string) (fields : list (string * cell)) : row :=
  mkrow (Multi ex_house (KStr (py event)))
    ([("redcap_repeat_instrument", Str (py "symptom_survey"));
      ("ss_trigger_swab", Bool true)] ++ fields).

Definition ex_pickup_first : row :=
  survey_row "0_arm_1" [("Pickup 1", Int 1); ("Order Date", Int 100)].

Definition ex_pickup_second : row :=
  survey_row "1_arm_1" [("Pickup 1", Int 2); ("Order Date", Int 101)].

Definition ex_no_pickup : row :=
  survey_row "0_arm_1" [("Order Date", Int 102)].


Definition ex_snapshot (surveys : list row) : DataFrame :=
  DF ex_record_columns (ex_head :: surveys).

Definition ex_household : DataFrame :=
  DF ex_record_columns
     [Row (Flat (KStr (py "0_arm_1"))) (cells ex_head);
      Row (Flat (KStr (py "1_arm_1"))) (cells ex_second)].

Definition ex_order_id : pystr := py "26110412".

(** Candidates grow along the loop: longer, or as long with a greater
    last character. *)
Definition rank_lt (a b : pystr) : Prop :=
  (length a < length b)%nat \/
  (length a = length b /\ (default 0 (last a) < default 0 (last b))%N).

(** ** Further properties: definitions *)

(** The records of household 12 as [household_records.loc[12]] gives
    them, with two symptom surveys that carry an address; the second
    one is the more recent. *)
Definition ex_survey_later : row :=
  mkrow (Flat (KStr (py "0_arm_1")))
    [("redcap_repeat_instrument", Str (py "symptom_survey")); ("ss_date_1", Int 9);
     ("Street Address 2", Str (py "3 Elm St")); ("City 2", Str (py "Tacoma"));
     ("State 2", Str (py "WA")); ("Zipcode 2", Int 98402)].

Definition ex_household_surveys : DataFrame :=
  DF ex_record_columns
     (rows ex_household
      ++ [Row (Flat (KStr (py "1_arm_1"))) (cells ex_survey); ex_survey_later]).

(** The records of household 12 with the survey of the second
    participant, as [household_records.loc[12]] gives them. *)
Definition ex_household_moved : DataFrame :=
  DF ex_record_columns
     (rows ex_household ++ [Row (Flat (KStr (py "1_arm_1"))) (cells ex_survey)]).

(** A snapshot with the enrollment record of the second participant
    only: household 12 has no record under the first event. *)
Definition ex_no_first_event : DataFrame := DF ex_record_columns [ex_second].

(** Household 12 with a head-of-household pointer to a participant
    that has no record. *)
Definition ex_records_dangling : DataFrame :=
  DF ex_record_columns
     [mkrow (Multi ex_house (KStr (py "0_arm_1")))
        [("HH Reporter", Int 3); ("First Name", Str (py "Ann"))]].

Definition ex_household_dangling : DataFrame :=
  DF ex_record_columns
     [mkrow (Flat (KStr (py "0_arm_1")))
        [("HH Reporter", Int 3); ("First Name", Str (py "Ann"))]].

(** A symptom survey of the head of household with a pickup time, an
    order date and the swab flag [flag]. *)
Definition ex_flag (flag : cell) : row :=
  mkrow (Multi ex_house (KStr (py "0_arm_1")))
    [("redcap_repeat_instrument", Str (py "symptom_survey")); ("ss_trigger_swab", flag);
     ("Pickup 1", Int 1); ("Order Date", Int 100)].

(** The quantity of the last line of a call: the cap when the request is
    above it, the request otherwise. *)
Definition last_quantity (sku quantity : Z) : Z :=
  match shipment_cap sku with
  | Some cap => Z.min quantity cap
  | None => quantity
  end.

(** The number of lines of a call: the request divided by the cap,
    rounded up, and one line for a request that is not above the cap or
    a kit without a cap. *)
Definition line_count (sku quantity : Z) : nat :=
  match shipment_cap sku with
  | Some cap => if cap <? quantity then S (Z.to_nat ((quantity - 1) / cap)) else 1%nat
  | None => 1%nat
  end.

(** In a frame sorted by the dates of column [c], most recent first,
    a row [y] that stands after a row [x] is not more recent than [x]. *)
Definition not_later (c : string) (x y : row) : Prop :=
  later (stamp_of (cell_of y c)) (stamp_of (cell_of x c)) = false.

(** * The dashboard script [update_dashboards/tpchd.py]

    The script reads the REDCap records into a frame of strings, with
    [pd.NA] for the empty ones, and counts them by date. *)

(** [a < b] on strings: by code points, a proper prefix first. *)
Fixpoint lex_ltb (a b : pystr) : bool :=
  match a, b with
  | _, [] => false
  | [], _ :: _ => true
  | x :: a', y :: b' =>
      if (x <? y)%N then true
      else if (y <? x)%N then false
      else lex_ltb a' b'
  end.

(** [v > s] for a string literal [s], as pandas compares a column of
    objects with a scalar: a missing value gives False, a string is
    compared as Python does, any other value raises. *)
Definition gt_str (v : cell) (s : string) : result bool :=
  match v with
  | NaN => Ok false
  | Str t => Ok (lex_ltb (py s) t)
  | _ => Raise TypeError
  end.

(** [s.isin(items)] on one cell, for a list of strings. *)
Definition isin (v : cell) (items : list pystr) : bool :=
  match v with
  | Str s => bool_decide (s ∈ items)
  | _ => false
  end.

(** The row mask of lines 106 to 108. *)
Definition after_cutoff (r : row) : bool :=
  eq_str (cell_of r "home_zipcode_2") "98092"
  && match gt_str (cell_of r "illness_q_date") "2021-09-16" with
     | Ok b => b
     | Raise _ => false
     end
  || ne_str (cell_of r "home_zipcode_2") "98092".

(** [zipcode_county_map] is the JSON object of the configuration: a
    list of zipcodes, as strings, for each county. *)
Definition filter_pierce (data : DataFrame) (zipcode_county_map : gmap string (list pystr))
  : result DataFrame :=
  match values data "home_zipcode_2" with
  | Raise e => Raise e
  | Ok _ =>
  match zipcode_county_map !! "SCAN PIERCE" with
  | None => Raise KeyError
  | Some pierce =>
      let data :=
        DF (columns data)
           (filter (fun r => isin (cell_of r "home_zipcode_2") pierce = true) (rows data)) in
      match values data "illness_q_date" with
      | Raise e => Raise e
      | Ok dates =>
          match mapM (fun v => gt_str v "2021-09-16") dates with
          | Raise e => Raise e
          | Ok _ =>
              Ok (DF (columns data) (filter (fun r => after_cutoff r = true) (rows data)))
          end
      end
  end end.

Definition get_age_bucket (age : Z) : pystr :=
  if 80 <=? age then py "80+ years"
  else if 70 <=? age then py "70-79 years"
  else if 60 <=? age then py "60-69 years"
  else if 50 <=? age then py "50-59 years"
  else if 40 <=? age then py "40-49 years"
  else if 30 <=? age then py "30-39 years"
  else if 20 <=? age then py "20-29 years"
  else if 0 <=? age then py "0-19 years"
  else py "unknown".

(** [col_values] is [worksheet.col_values(1)], the cells of the first
    column as strings; [filter(None, ...)] keeps the ones that are not
    empty. *)
Definition next_available_row (col_values : list pystr) : nat :=
  (length (filter (fun s => s <> []) col_values) + 1)%nat.

(** ** Dates as REDCap writes them *)

Definition four_digits (n : N) : pystr :=
  [(48 + n / 1000 mod 10)%N; (48 + n / 100 mod 10)%N;
   (48 + n / 10 mod 10)%N; (48 + n mod 10)%N].

(** YYYY-MM-DD *)
Definition iso_date (y m d : N) : pystr :=
  four_digits y ++ py "-" ++ two_digits m ++ py "-" ++ two_digits d.

(** The day [y]-[m]-[d] comes after 16 September 2021. *)
Definition after_2021_09_16 (y m d : N) : bool :=
  ((2021 <? y) || (y =? 2021) && ((9 <? m) || (m =? 9) && (16 <? d)))%N.

(** The label of the ten years from [lo] on. *)
Definition decade_label (lo : Z) : pystr :=
  py (pretty lo) ++ py "-" ++ py (pretty (lo + 9)) ++ py " years".

(** Records of the dashboard: two enrollments under zipcode 98092, one
    before and one after the day it joined Pierce county, one in
    Tacoma, and one in Seattle. *)
Definition ex_zipcode_county_map : gmap string (list pystr) :=
  {[ "SCAN PIERCE" := [py "98092"; py "98402"]; "SCAN KING" := [py "98101"] ]}.

Definition ex_enrollment (i : Z) (zipcode date : string) : row :=
  mkrow (Flat (KInt i))
    [("record_id", Str (py (pretty i))); ("home_zipcode_2", Str (py zipcode));
     ("illness_q_date", Str (py date))].

Definition ex_data : DataFrame :=
  DF ["record_id"; "home_zipcode_2"; "illness_q_date"]
     [ex_enrollment 0 "98092" "2021-03-02"; ex_enrollment 1 "98092" "2021-10-01";
      ex_enrollment 2 "98402" "2020-12-24"; ex_enrollment 3 "98101" "2021-11-05"].

(** * Properties *)

(** ** The monad *)

Lemma bind_Ok {A B} (m : M A) (f : A -> M B) b l :
  bind m f = Ok (b, l) ->
  exists a l1 l2, m = Ok (a, l1) /\ f a = Ok (b, l2) /\ l = l1 ++ l2.
Proof.
  unfold bind. destruct m as [[a l1]|e]; [|discriminate].
  destruct (f a) as [[b' l2]|e] eqn:Hf; [|discriminate].
  intros [= <- <-]. exists a, l1, l2. auto.
Qed.

Lemma bind_ret {A B} (a : A) (f : A -> M B) : bind (ret a) f = f a.
Proof. unfold bind, ret. destruct (f a) as [[b l]|e]; reflexivity. Qed.

Lemma bind_lift_Ok {A B} (a : A) (f : A -> M B) : bind (lift (Ok a)) f = f a.
Proof. apply bind_ret. Qed.

Lemma bind_lift_Raise {A B} e (f : A -> M B) : bind (lift (Raise e)) f = Raise e.
Proof. reflexivity. Qed.

Lemma bind_Ok_l {A B} (a : A) l1 (f : A -> M B) b l2 :
  f a = Ok (b, l2) -> bind (Ok (a, l1)) f = Ok (b, l1 ++ l2).
Proof. intros Hf. unfold bind. rewrite Hf. reflexivity. Qed.

Lemma lift_Ok {A} (r : result A) a l : lift r = Ok (a, l) -> r = Ok a /\ l = [].
Proof. destruct r; simpl; [intros [= <- <-]; auto | discriminate]. Qed.

(** ** Order numbers *)

Lemma rank_lt_trans a b c : rank_lt a b -> rank_lt b c -> rank_lt a c.
Proof. unfold rank_lt. intros [?|[? ?]] [?|[? ?]]; try (left; lia). right. split; lia. Qed.

Lemma rank_lt_irrefl a : ~ rank_lt a a.
Proof. unfold rank_lt. intros [?|[? ?]]; lia. Qed.

Lemma isalpha_below_max c : isalpha isalpha_unicode c = true -> (c < max_code_point)%N.
Proof.
  unfold isalpha, max_code_point.
  destruct (N.ltb_spec c 128); [lia|].
  destruct (N.ltb_spec c 1114111); [lia|discriminate].
Qed.

Lemma last_char_lookup (s : pystr) : s !! (length s - 1)%nat = last s.
Proof. rewrite last_lookup. f_equal. lia. Qed.

Lemma next_order_id_spec (s : pystr) :
  s <> [] ->
  exists s', next_order_id s = Ok s' /\ s' <> [] /\ rank_lt s s'.
Proof.
  intros Hs. unfold next_order_id. rewrite last_char_lookup.
  destruct (last s) as [c|] eqn:Hlast; [|apply last_None in Hlast; done].
  destruct (isalpha isalpha_unicode c) eqn:Halpha; simpl.
  - apply isalpha_below_max in Halpha. unfold chr, max_code_point in *.
    destruct (N.leb_spec (c + 1) 1114111); [|lia].
    eexists. split; [reflexivity|].
    apply last_Some in Hlast as [s0 ->].
    rewrite length_app. simpl.
    replace (length s0 + 1 - 1)%nat with (length s0 + 0)%nat by lia.
    rewrite insert_app_r. simpl. split; [by destruct s0|].
    right. rewrite !length_app. simpl. split; [done|].
    rewrite !last_snoc. simpl. lia.
  - eexists. split; [reflexivity|]. split; [by destruct s|].
    left. rewrite length_app. simpl. lia.
Qed.

Lemma generate_order_number_loop_spec fuel (s : pystr) (ids : list cell) (seen : list pystr) :
  s <> [] ->
  NoDup seen ->
  (forall x, x ∈ seen -> Str x ∈ ids /\ rank_lt x s) ->
  (length ids < fuel + length seen)%nat ->
  exists s', generate_order_number_loop fuel s ids = Ok s' /\ (Str s' ∉ ids) /\ s' <> [].
Proof.
  revert s seen. induction fuel as [|fuel IH]; intros s seen Hs Hnd Hseen Hlen.
  - exfalso. simpl in Hlen.
    assert (Hsub : (Str <$> seen) ⊆+ ids).
    { apply NoDup_submseteq.
      - by apply (NoDup_fmap_2 Str).
      - intros x [y [-> Hy]]%list_elem_of_fmap. by apply Hseen. }
    apply submseteq_length in Hsub. rewrite length_fmap in Hsub. lia.
  - simpl. case_bool_decide as Hin; [|eauto].
    destruct (next_order_id_spec s Hs) as (s' & -> & Hs' & Hlt).
    apply (IH s' (s :: seen)); [done| | |simpl; lia].
    + constructor; [|done]. intros Hx. apply Hseen in Hx as [_ Hx].
      by apply rank_lt_irrefl in Hx.
    + intros x [->|Hx]%elem_of_cons; [done|].
      apply Hseen in Hx as [? ?]. split; [done|]. by eapply rank_lt_trans.
Qed.

(** The loop ends within the fuel it is given, on an identifier that the
    column does not hold. *)
Lemma generate_order_number_loop_fresh (s : pystr) (ids : list cell) :
  s <> [] ->
  exists s', generate_order_number_loop (S (length ids)) s ids = Ok s' /\ Str s' ∉ ids.
Proof.
  intros Hs.
  destruct (generate_order_number_loop_spec (S (length ids)) s ids [] Hs) as (s' & ? & ? & ?).
  - constructor.
  - intros x Hx. by apply elem_of_nil in Hx.
  - simpl. lia.
  - eauto.
Qed.

Lemma generate_order_number_loop_S fuel (s : pystr) (ids : list cell) :
  generate_order_number_loop (S fuel) s ids =
  if bool_decide (Str s ∈ ids)
  then match next_order_id s with
       | Ok s' => generate_order_number_loop fuel s' ids
       | Raise e => Raise e
       end
  else Ok s.
Proof. reflexivity. Qed.

Lemma generate_order_number_loop_fuel f1 f2 (s : pystr) (ids : list cell) a b :
  generate_order_number_loop f1 s ids = Ok a ->
  generate_order_number_loop f2 s ids = Ok b ->
  a = b.
Proof.
  revert f2 s. induction f1 as [|f1 IH]; intros [|f2] s; simpl; try discriminate.
  case_bool_decide; [|congruence].
  destruct (next_order_id s); [|discriminate]. apply IH.
Qed.

Lemma isalpha_letter i : (i < 26)%nat -> isalpha isalpha_unicode (letter i) = true.
Proof.
  intros Hi. unfold isalpha, letter.
  destruct (N.ltb_spec (97 + N.of_nat i) 128); [|lia].
  apply orb_true_iff. right. apply andb_true_iff. split; apply N.leb_le; lia.
Qed.

Lemma next_order_id_letter (s : pystr) i :
  (i < 26)%nat -> next_order_id (s ++ [letter i]) = Ok (s ++ [letter (S i)]).
Proof.
  intros Hi. unfold next_order_id. rewrite last_char_lookup, last_snoc.
  rewrite (isalpha_letter i Hi). simpl.
  unfold chr, max_code_point, letter.
  destruct (N.leb_spec (97 + N.of_nat i + 1) 1114111); [|lia].
  rewrite length_app. simpl.
  replace (length s + 1 - 1)%nat with (length s + 0)%nat by lia.
  rewrite insert_app_r. simpl. do 3 f_equal. lia.
Qed.

Lemma next_order_id_not_letter (s : pystr) c :
  last s = Some c -> isalpha isalpha_unicode c = false ->
  next_order_id s = Ok (s ++ [letter 0]).
Proof.
  intros Hlast Hc. unfold next_order_id. rewrite last_char_lookup, Hlast, Hc. reflexivity.
Qed.

Lemma letter_inj i j : letter i = letter j -> i = j.
Proof. unfold letter. lia. Qed.

Lemma elem_of_suffixed (s : pystr) x k : s ++ [x] ∈ suffixed s k <-> exists i, (i < k)%nat /\ x = letter i.
Proof.
  unfold suffixed. rewrite list_elem_of_fmap. split.
  - intros (i & Heq & Hi). apply app_inv_head in Heq as [= ->].
    apply elem_of_seq in Hi. exists i. split; [lia|done].
  - intros (i & Hi & ->). exists i. split; [done|]. apply elem_of_seq. lia.
Qed.

(** Once the column holds the identifier without a letter and the first
    [k] lettered ones, the loop walks through them and stops at the next
    letter. *)
Lemma generate_order_number_loop_letters (s : pystr) (ids : list cell) k j fuel :
  (k < 26)%nat -> (j <= k)%nat -> (k - j < fuel)%nat ->
  (forall x, Str (s ++ [x]) ∉ ids) ->
  generate_order_number_loop fuel (s ++ [letter j]) (ids ++ (Str <$> suffixed s k))
  = Ok (s ++ [letter k]).
Proof.
  intros Hk Hj Hfuel Hids. remember (k - j)%nat as d eqn:Hd.
  revert j fuel Hj Hfuel Hd. induction d as [|d IH]; intros j fuel Hj Hfuel Hd.
  - assert (j = k) as -> by lia. destruct fuel as [|fuel]; [lia|]. simpl.
    case_bool_decide as Hin; [|done]. exfalso.
    apply elem_of_app in Hin as [Hin|Hin]; [by apply Hids in Hin|].
    apply list_elem_of_fmap in Hin as (y & [= <-] & Hy).
    apply elem_of_suffixed in Hy as (i & Hi & Heq). apply letter_inj in Heq. lia.
  - destruct fuel as [|fuel]; [lia|]. simpl.
    case_bool_decide as Hin.
    + rewrite next_order_id_letter by lia. apply IH; lia.
    + exfalso. apply Hin. apply elem_of_app. right.
      apply list_elem_of_fmap. eexists. split; [reflexivity|].
      apply elem_of_suffixed. exists j. split; [lia|done].
Qed.

Lemma generate_order_number_loop_next_letter (s : pystr) (ids : list cell) c k :
  (k < 26)%nat ->
  last s = Some c -> isalpha isalpha_unicode c = false ->
  Str s ∈ ids ->
  (forall x, Str (s ++ [x]) ∉ ids) ->
  let ids' := ids ++ (Str <$> suffixed s k) in
  generate_order_number_loop (S (length ids')) s ids' = Ok (s ++ [letter k]).
Proof.
  intros Hk Hlast Hc Hin Hids ids'.
  assert (Hs : s <> []) by (intros ->; discriminate).
  destruct (generate_order_number_loop_fresh s ids' Hs) as (r & Hr & _).
  rewrite Hr. f_equal.
  eapply (generate_order_number_loop_fuel _ (S (S k))); [exact Hr|].
  rewrite generate_order_number_loop_S.
  rewrite bool_decide_true by (apply elem_of_app; by left).
  rewrite (next_order_id_not_letter s c Hlast Hc).
  apply generate_order_number_loop_letters; [done|lia|lia|done].
Qed.

Lemma suffixed_S (s : pystr) k : suffixed s (S k) = suffixed s k ++ [s ++ [letter k]].
Proof. unfold suffixed. rewrite seq_S, map_app. reflexivity. Qed.

Lemma successive_order_numbers_letters (s : pystr) (ids : list cell) c n k :
  (k + n <= 26)%nat ->
  last s = Some c -> isalpha isalpha_unicode c = false ->
  Str s ∈ ids ->
  (forall x, Str (s ++ [x]) ∉ ids) ->
  successive_order_numbers n s (ids ++ (Str <$> suffixed s k))
  = Ok (map (fun i => s ++ [letter i]) (seq k n)).
Proof.
  intros Hn Hlast Hc Hin Hids. revert k Hn.
  induction n as [|n IH]; intros k Hn; [reflexivity|].
  cbn [successive_order_numbers].
  rewrite (generate_order_number_loop_next_letter s ids c k) by (done || lia).
  replace ((ids ++ (Str <$> suffixed s k)) ++ [Str (s ++ [letter k])])
    with (ids ++ (Str <$> suffixed s (S k))).
  - rewrite IH by lia. reflexivity.
  - rewrite suffixed_S, fmap_app, app_assoc. reflexivity.
Qed.

Lemma NoDup_suffixed (s : pystr) n : NoDup (suffixed s n).
Proof.
  unfold suffixed. apply NoDup_fmap_2; [|apply NoDup_seq].
  intros i j Heq. apply app_inv_head in Heq as [= Hij]. by apply letter_inj.
Qed.

Lemma base_order_id_not_nil address (base : pystr) : base_order_id address = Ok base -> base <> [].
Proof.
  unfold base_order_id. destruct (iloc0 address); [|discriminate].
  destruct (label_item0 _); [|discriminate]. intros [= <-]. discriminate.
Qed.

Lemma generate_order_number_fresh address orders (base : pystr) (ids : list cell) :
  base_order_id address = Ok base ->
  values orders "OrderID" = Ok ids ->
  exists order_id,
    generate_order_number address orders = Ok (order_id, [(DEBUG, GeneratedOrderId order_id)])
    /\ generate_order_number_loop (S (length ids)) base ids = Ok order_id
    /\ (Str order_id ∉ ids).
Proof.
  intros Hbase Hids.
  destruct (generate_order_number_loop_fresh base ids (base_order_id_not_nil _ _ Hbase))
    as (order_id & Hloop & Hfresh).
  exists order_id. unfold generate_order_number.
  rewrite Hbase, bind_lift_Ok, Hids, bind_lift_Ok, Hloop, bind_lift_Ok. auto.
Qed.

(** ** Frames *)

Lemma elem_of_add_column c c' cols : c ∈ add_column cols c' <-> c ∈ cols \/ c = c'.
Proof.
  unfold add_column. case_bool_decide as Hin.
  - split; [auto|]. intros [?| ->]; done.
  - rewrite elem_of_app, list_elem_of_singleton. done.
Qed.

Lemma add_column_elem c cols : c ∈ cols -> add_column cols c = cols.
Proof. intros Hin. unfold add_column. by rewrite bool_decide_true. Qed.

Lemma elem_of_stamped_columns c cols :
  c ∈ stamped_columns cols <->
  c ∈ cols \/ c = "SKU" \/ c = "Quantity" \/ c = "OrderID" \/ c = "Household ID".
Proof. unfold stamped_columns. rewrite !elem_of_add_column. tauto_closed. Qed.

Lemma stamped_columns_idemp cols : stamped_columns (stamped_columns cols) = stamped_columns cols.
Proof.
  unfold stamped_columns at 1.
  rewrite !add_column_elem; [done|..];
    rewrite ?elem_of_add_column, elem_of_stamped_columns; auto 10.
Qed.

Lemma columns_stamped address household sku quantity order_id :
  columns (stamped address household sku quantity order_id) = stamped_columns (columns address).
Proof. reflexivity. Qed.

Lemma rows_stamped address household sku quantity order_id :
  rows (stamped address household sku quantity order_id) =
  map (fun r => Row (name r)
                  (<["Household ID" := cell_of_key household]>
                     (<["OrderID" := Str order_id]>
                        (<["Quantity" := Int quantity]>
                           (<["SKU" := Int sku]> (cells r))))))
      (rows address).
Proof. unfold stamped, setitem_scalar. simpl. rewrite !map_map. reflexivity. Qed.

Lemma stamped_stamped address household sku q1 id1 q2 id2 :
  stamped (stamped address household sku q1 id1) household sku q2 id2
  = stamped address household sku q2 id2.
Proof.
  destruct address as [cols rs].
  transitivity (DF (stamped_columns (stamped_columns cols))
                   (rows (stamped (stamped (DF cols rs) household sku q1 id1) household sku q2 id2))).
  { reflexivity. }
  transitivity (DF (stamped_columns cols) (rows (stamped (DF cols rs) household sku q2 id2)));
    [|reflexivity].
  rewrite stamped_columns_idemp. f_equal.
  rewrite !rows_stamped, map_map. apply map_ext. intros r. simpl. f_equal.
  apply map_eq. intros c.
  rewrite !lookup_insert. repeat case_decide; done.
Qed.

Lemma iloc0_setitem_scalar df c v r :
  iloc0 df = Ok r -> iloc0 (setitem_scalar df c v) = Ok (set_cell c v r).
Proof. unfold iloc0. destruct df as [cols [|r0 rs]]; simpl; [discriminate|]. by intros [= ->]. Qed.

Lemma base_order_id_setitem_scalar df c v :
  base_order_id (setitem_scalar df c v) = base_order_id df.
Proof. unfold base_order_id, iloc0. destruct df as [cols [|r rs]]; reflexivity. Qed.

Lemma base_order_id_stamped address household sku quantity order_id :
  base_order_id (stamped address household sku quantity order_id) = base_order_id address.
Proof. unfold stamped. by rewrite !base_order_id_setitem_scalar. Qed.

Lemma base_order_id_rows address (base : pystr) :
  base_order_id address = Ok base -> rows address <> [].
Proof. unfold base_order_id, iloc0. destruct (rows address); [discriminate|done]. Qed.

(** ** Appending orders *)

Lemma stamp_and_concat_eq orders household sku quantity address :
  stamp_and_concat orders household sku quantity address =
  match base_order_id address with
  | Raise e => Raise e
  | Ok base =>
      match values orders "OrderID" with
      | Raise e => Raise e
      | Ok ids =>
          match generate_order_number_loop (S (length ids)) base ids with
          | Raise e => Raise e
          | Ok order_id =>
              Ok ((concat_inner orders (stamped address household sku quantity order_id),
                   stamped address household sku quantity order_id),
                  [(DEBUG, GeneratedOrderId order_id);
                   (INFO, AppendingOrder quantity sku household)])
          end
      end
  end.
Proof.
  unfold stamp_and_concat, generate_order_number.
  rewrite !base_order_id_setitem_scalar.
  destruct (base_order_id address) as [base|e]; [|reflexivity].
  rewrite bind_lift_Ok.
  destruct (values orders "OrderID") as [ids|e]; [|reflexivity].
  rewrite bind_lift_Ok.
  destruct (generate_order_number_loop (S (length ids)) base ids) as [order_id|e]; reflexivity.
Qed.

Lemma stamp_and_concat_Ok orders household sku quantity address orders' address' log :
  stamp_and_concat orders household sku quantity address = Ok ((orders', address'), log) ->
  exists (base : pystr) (ids : list cell) (order_id : pystr),
    base_order_id address = Ok base
    /\ values orders "OrderID" = Ok ids
    /\ (Str order_id ∉ ids)
    /\ orders' = concat_inner orders (stamped address household sku quantity order_id)
    /\ address' = stamped address household sku quantity order_id.
Proof.
  rewrite stamp_and_concat_eq.
  destruct (base_order_id address) as [base|e] eqn:Hbase; [|discriminate].
  destruct (values orders "OrderID") as [ids|e] eqn:Hids; [|discriminate].
  destruct (generate_order_number_loop_fresh base ids (base_order_id_not_nil _ _ Hbase))
    as (order_id & -> & Hfresh).
  intros [= <- <- <-]. exists base, ids, order_id. auto.
Qed.

Lemma stamp_and_concat_total orders household sku quantity address (base : pystr) (ids : list cell) :
  base_order_id address = Ok base ->
  values orders "OrderID" = Ok ids ->
  exists result log, stamp_and_concat orders household sku quantity address = Ok (result, log).
Proof.
  intros Hbase Hids. rewrite stamp_and_concat_eq, Hbase, Hids.
  destruct (generate_order_number_loop_fresh base ids (base_order_id_not_nil _ _ Hbase))
    as (order_id & -> & _).
  eauto.
Qed.

Lemma split_of_whole sku quantity :
  ~ (quantity > 20 /\ sku = 1) -> ~ (quantity > 4 /\ sku = 3) ->
  split_of sku quantity [quantity].
Proof.
  intros H1 H3. unfold split_of, shipment_cap.
  repeat case_decide; [..|done]; exists quantity, O; simpl; repeat split; (done || lia).
Qed.

Lemma split_of_snoc sku cap quantity quantities :
  shipment_cap sku = Some cap -> quantity > cap ->
  split_of sku (quantity - cap) quantities ->
  split_of sku quantity (quantities ++ [cap]).
Proof.
  unfold split_of. intros -> Hq (rest & n & -> & Hsum & Hrest & Hpos).
  exists rest, (S n). repeat split; [|lia|done|].
  - simpl. f_equal. by rewrite replicate_cons_app.
  - intros _. destruct n; [simpl in Hsum; lia|]. by apply Hpos.
Qed.

Lemma values_Ok df c :
  c ∈ columns df -> values df c = Ok (map (fun r => cell_of r c) (rows df)).
Proof. intros Hc. unfold values, has_column. by rewrite bool_decide_true. Qed.

Lemma values_Ok_inv df c vs :
  values df c = Ok vs -> c ∈ columns df /\ vs = map (fun r => cell_of r c) (rows df).
Proof.
  unfold values, has_column. case_bool_decide; [|discriminate]. by intros [= <-].
Qed.

Lemma cell_of_restrict cols r c : c ∈ cols -> cell_of (restrict cols r) c = cell_of r c.
Proof.
  intros Hc. unfold cell_of, restrict. simpl.
  destruct (cells r !! c) as [v|] eqn:Hv.
  - erewrite map_lookup_filter_Some_2; [done|done|done].
  - rewrite map_lookup_filter_None_2; [done|]. by left.
Qed.

Lemma cell_of_restrict_out cols r c : c ∉ cols -> cell_of (restrict cols r) c = NaN.
Proof.
  intros Hc. unfold cell_of, restrict. simpl.
  rewrite map_lookup_filter_None_2; [done|]. right. intros v _ Hin. by apply Hc.
Qed.

Lemma map_imap_relabel {A} (f : row -> A) (rs : list row) :
  (forall i r, f (relabel i r) = f r) ->
  map f (imap relabel rs) = map f rs.
Proof.
  intros Hf. change (f <$> imap relabel rs = f <$> rs).
  rewrite fmap_imap. transitivity (imap (fun _ => f) rs).
  - apply imap_ext. intros i r _. apply Hf.
  - apply imap_const.
Qed.

Lemma values_concat_inner a b c va vb :
  values a c = Ok va -> values b c = Ok vb ->
  values (concat_inner a b) c = Ok (va ++ vb).
Proof.
  intros [Ha ->]%values_Ok_inv [Hb ->]%values_Ok_inv.
  assert (Hc : c ∈ columns (concat_inner a b)).
  { simpl. apply list_elem_of_filter. done. }
  rewrite values_Ok by done. f_equal. simpl.
  rewrite map_imap_relabel by done.
  rewrite map_map, map_app. f_equal; apply map_ext; intros r; by apply cell_of_restrict.
Qed.

Lemma map_const_replicate {A B} (x : B) (l : list A) :
  map (fun _ => x) l = replicate (length l) x.
Proof. induction l as [|a l IH]; simpl; [done|]. by rewrite IH. Qed.

Lemma values_stamped_OrderID address household sku quantity order_id :
  values (stamped address household sku quantity order_id) "OrderID"
  = Ok (replicate (length (rows address)) (Str order_id)).
Proof.
  rewrite values_Ok by (rewrite columns_stamped, elem_of_stamped_columns; auto 10).
  rewrite rows_stamped, map_map, <- map_const_replicate. f_equal.
  apply map_ext. intros r. unfold cell_of. simpl. by simplify_map_eq.
Qed.

Lemma values_stamped_Quantity address household sku quantity order_id :
  values (stamped address household sku quantity order_id) "Quantity"
  = Ok (replicate (length (rows address)) (Int quantity)).
Proof.
  rewrite values_Ok by (rewrite columns_stamped, elem_of_stamped_columns; auto 10).
  rewrite rows_stamped, map_map, <- map_const_replicate. f_equal.
  apply map_ext. intros r. unfold cell_of. simpl. by simplify_map_eq.
Qed.

Lemma sheet_after_snoc orders address household sku lines line :
  sheet_after orders address household sku (lines ++ [line])
  = concat_inner (sheet_after orders address household sku lines)
                 (stamped address household sku (fst line) (snd line)).
Proof. unfold sheet_after. by rewrite foldl_app. Qed.

Lemma values_sheet_after_OrderID orders address household sku lines (ids : list cell) :
  values orders "OrderID" = Ok ids ->
  values (sheet_after orders address household sku lines) "OrderID"
  = Ok (ids ++ flat_map (fun line => replicate (length (rows address)) (Str (snd line))) lines).
Proof.
  intros Hids. induction lines as [|line lines IH] using rev_ind.
  - simpl. by rewrite app_nil_r.
  - rewrite sheet_after_snoc.
    rewrite (values_concat_inner _ _ _ _ _ IH (values_stamped_OrderID _ _ _ _ _)).
    rewrite flat_map_app. simpl. by rewrite app_nil_r, app_assoc.
Qed.

Lemma values_sheet_after_Quantity orders address household sku lines (qs : list cell) :
  values orders "Quantity" = Ok qs ->
  values (sheet_after orders address household sku lines) "Quantity"
  = Ok (qs ++ flat_map (fun line => replicate (length (rows address)) (Int (fst line))) lines).
Proof.
  intros Hqs. induction lines as [|line lines IH] using rev_ind.
  - simpl. by rewrite app_nil_r.
  - rewrite sheet_after_snoc.
    rewrite (values_concat_inner _ _ _ _ _ IH (values_stamped_Quantity _ _ _ _ _)).
    rewrite flat_map_app. simpl. by rewrite app_nil_r, app_assoc.
Qed.

Lemma elem_of_flat_map_replicate {A B} (f : A -> B) (k : nat) (x : A) (l : list A) :
  k <> O -> x ∈ l -> f x ∈ flat_map (fun y => replicate k (f y)) l.
Proof.
  intros Hk Hx. apply list_elem_of_In, in_flat_map. exists x.
  split; [by apply list_elem_of_In|].
  apply list_elem_of_In. destruct k; [done|]. simpl. left.
Qed.

Lemma lines_appended_first orders household sku quantity address orders' address' log :
  ~ (quantity > 20 /\ sku = 1) -> ~ (quantity > 4 /\ sku = 3) ->
  stamp_and_concat orders household sku quantity address = Ok ((orders', address'), log) ->
  exists lines, lines_appended orders household sku quantity address orders' address' lines.
Proof.
  intros H1 H3 (base & ids & order_id & Hbase & Hids & Hfresh & -> & ->)%stamp_and_concat_Ok.
  exists [(quantity, order_id)], (quantity, order_id), base, ids. simpl.
  repeat split; try done.
  - by apply split_of_whole.
  - apply NoDup_singleton.
  - by constructor.
Qed.

Lemma lines_appended_next orders household sku cap quantity address o1 a1 lines orders' address' log :
  shipment_cap sku = Some cap -> quantity > cap ->
  lines_appended orders household sku (quantity - cap) address o1 a1 lines ->
  stamp_and_concat o1 household sku cap a1 = Ok ((orders', address'), log) ->
  exists lines', lines_appended orders household sku quantity address orders' address' lines'.
Proof.
  intros Hcap Hq (line & base & ids & Hlast & Hbase & Hids & -> & -> & Hsplit & Hnd & Hfresh).
  intros (base' & ids' & order_id & Hbase' & Hids' & Hfresh' & -> & ->)%stamp_and_concat_Ok.
  rewrite stamped_stamped.
  rewrite (values_sheet_after_OrderID _ _ _ _ _ _ Hids) in Hids'. injection Hids' as <-.
  apply not_elem_of_app in Hfresh' as [Hold Hnew].
  exists (lines ++ [(cap, order_id)]), (cap, order_id), base, ids.
  rewrite !map_app. simpl. repeat split; try done.
  - apply last_snoc.
  - by rewrite sheet_after_snoc.
  - by apply split_of_snoc.
  - apply NoDup_app. split; [done|]. split; [|apply NoDup_singleton].
    intros x Hx ->%list_elem_of_singleton. apply Hnew.
    apply list_elem_of_fmap in Hx as (l & -> & Hl).
    apply (elem_of_flat_map_replicate (fun l => Str (snd l))); [|done].
    apply base_order_id_rows in Hbase. by destruct (rows address).
  - apply Forall_app. split; [done|]. by constructor.
Qed.

(** What [append_order] returns, when it returns. *)
Lemma append_order_Ok orders household sku quantity address orders' address' log :
  append_order orders household sku quantity address = Ok ((orders', address'), log) ->
  (no_valid_address address = Ok true
   /\ orders' = orders /\ address' = address
   /\ log = [(WARNING, NoValidAddress household)])
  \/ (no_valid_address address = Ok false
      /\ exists lines, lines_appended orders household sku quantity address orders' address' lines).
Proof.
  remember (Z.to_nat quantity) as n eqn:Hn. revert quantity orders' address' log Hn.
  induction n as [n IH] using lt_wf_ind. intros quantity orders' address' log Hn.
  rewrite append_order_equation_1.
  destruct (no_valid_address address) as [[|]|e] eqn:Hvalid; [| |discriminate];
    rewrite bind_lift_Ok.
  { cbn. intros [= <- <- <-]. left. auto. }
  intros Hrun. right. split; [done|].
  destruct (decide (quantity > 20 /\ sku = 1)) as [[Hq Hsku]|H1].
  - apply bind_Ok in Hrun as (_ & _ & l2 & _ & Hrun & _).
    apply bind_Ok in Hrun as ([o1 a1] & l3 & l4 & Hinner & Hstamp & _).
    assert (Hlt : (Z.to_nat (quantity - 20) < n)%nat) by lia.
    apply (IH _ Hlt _ _ _ _ eq_refl) in Hinner as [(Hcontra & _)|(_ & lines & Hlines)];
      [congruence|].
    eapply (lines_appended_next _ _ _ 20); [by subst; reflexivity|lia|exact Hlines|exact Hstamp].
  - destruct (decide (quantity > 4 /\ sku = 3)) as [[Hq Hsku]|H3].
    + apply bind_Ok in Hrun as (_ & _ & l2 & _ & Hrun & _).
      apply bind_Ok in Hrun as ([o1 a1] & l3 & l4 & Hinner & Hstamp & _).
      assert (Hlt : (Z.to_nat (quantity - 4) < n)%nat) by lia.
      apply (IH _ Hlt _ _ _ _ eq_refl) in Hinner as [(Hcontra & _)|(_ & lines & Hlines)];
        [congruence|].
      eapply (lines_appended_next _ _ _ 4); [by subst; reflexivity|lia|exact Hlines|exact Hstamp].
    + by eapply lines_appended_first.
Qed.

Lemma LOG_bind {B} lv msg (f : unit -> M B) b l :
  f tt = Ok (b, l) -> bind (LOG lv msg) f = Ok (b, (lv, msg) :: l).
Proof. intros Hf. unfold LOG. by rewrite (bind_Ok_l _ _ _ _ _ Hf). Qed.

(** With a deliverable address that carries a household key, and a sheet
    that has the identifier column, [append_order] returns. *)
Lemma append_order_total orders household sku quantity address (base : pystr) (ids : list cell) :
  no_valid_address address = Ok false ->
  base_order_id address = Ok base ->
  values orders "OrderID" = Ok ids ->
  exists result log, append_order orders household sku quantity address = Ok (result, log).
Proof.
  intros Hvalid Hbase Hids.
  remember (Z.to_nat quantity) as n eqn:Hn. revert quantity Hn.
  induction n as [n IH] using lt_wf_ind. intros quantity Hn.
  assert (Hstep : forall cap, (Z.to_nat (quantity - cap) < n)%nat -> forall lv msg,
    exists result log,
      bind (LOG lv msg) (fun _ =>
        do split <- append_order orders household sku (quantity - cap) address in
        stamp_and_concat (fst split) household sku cap (snd split)) = Ok (result, log)).
  { intros cap Hlt lv msg.
    destruct (IH _ Hlt _ eq_refl) as ([o1 a1] & l1 & Hinner).
    destruct (append_order_Ok _ _ _ _ _ _ _ _ Hinner) as [(Hcontra & _)|(_ & lines & Hlines)];
      [congruence|].
    destruct Hlines as (line & base' & ids' & _ & Hbase' & Hids' & -> & -> & _).
    destruct (stamp_and_concat_total
                (sheet_after orders address household sku lines) household sku cap
                (stamped address household sku (fst line) (snd line)) base _
                (eq_trans (base_order_id_stamped _ _ _ _ _) Hbase)
                (values_sheet_after_OrderID _ _ _ _ _ _ Hids')) as (result & l2 & Hstamp).
    exists result. eexists. apply LOG_bind. rewrite Hinner. by apply bind_Ok_l. }
  rewrite append_order_equation_1, Hvalid, bind_lift_Ok.
  destruct (decide (quantity > 20 /\ sku = 1)) as [[Hq Hsku]|H1]; [apply Hstep; lia|].
  destruct (decide (quantity > 4 /\ sku = 3)) as [[Hq Hsku]|H3]; [apply Hstep; lia|].
  by eapply stamp_and_concat_total.
Qed.

Lemma no_valid_address_deliverable address r :
  rows address = [r] -> has_address_columns address -> deliverable r ->
  no_valid_address address = Ok false.
Proof.
  intros Hrows (Hstreet & Hcity & Hstate) Hr.
  unfold no_valid_address, any_isna.
  rewrite !values_Ok by done. rewrite Hrows. cbn [map existsb]. rewrite !orb_false_r.
  unfold deliverable in Hr. revert Hr.
  generalize (cell_of r "Street Address"), (cell_of r "City"), (cell_of r "State").
  intros [] [] []; cbn [isna]; try done. intros Hr. exfalso. by apply Hr.
Qed.

Lemma no_valid_address_missing address :
  rows address <> [] -> has_address_columns address ->
  Forall (fun r => cell_of r "Street Address" = NaN
                   /\ cell_of r "City" = NaN /\ cell_of r "State" = NaN) (rows address) ->
  no_valid_address address = Ok true.
Proof.
  intros Hrows (Hstreet & Hcity & Hstate) Hall.
  unfold no_valid_address, any_isna.
  rewrite !values_Ok by done.
  destruct (rows address) as [|r rs]; [done|].
  apply Forall_cons in Hall as [(H1 & H2 & H3) _].
  cbn [map existsb]. rewrite H1, H2, H3. reflexivity.
Qed.

Lemma sum_replicate n (x : Z) : foldr Z.add 0 (replicate n x) = Z.of_nat n * x.
Proof. induction n as [|n IH]; [done|]. cbn [replicate foldr]. rewrite IH. lia. Qed.

Lemma split_of_sum sku quantity quantities :
  split_of sku quantity quantities -> foldr Z.add 0 quantities = quantity.
Proof.
  unfold split_of. destruct (shipment_cap sku) as [cap|].
  - intros (rest & n & -> & Hsum & _). cbn [foldr]. rewrite sum_replicate. lia.
  - intros ->. simpl. lia.
Qed.

Lemma split_of_capped sku cap quantity quantities :
  shipment_cap sku = Some cap -> split_of sku quantity quantities ->
  Forall (fun q => q <= cap) quantities.
Proof.
  unfold split_of. intros -> (rest & n & -> & _ & Hrest & _).
  constructor; [done|]. apply Forall_replicate. lia.
Qed.

Lemma split_of_45 quantities : split_of 1 45 quantities -> quantities = [5; 20; 20].
Proof.
  unfold split_of. simpl. intros (rest & n & -> & Hsum & Hrest & Hpos).
  assert (n = 2%nat) as ->.
  { destruct n as [|[|[|n]]]; [lia|lia|done|lia]. }
  simpl. f_equal. lia.
Qed.

Lemma map_appended {A} (f : row -> A) orders orders' (old new : list A) :
  map f (rows orders) = old ->
  map f (rows orders') = old ++ new ->
  map f (appended orders orders') = new.
Proof.
  intros Hold Hnew. unfold appended.
  assert (Hlen : length (rows orders) = length old) by (subst old; by rewrite length_map).
  rewrite Hlen.
  transitivity (drop (length old) (map f (rows orders'))).
  - apply (fmap_drop f).
  - rewrite Hnew. apply drop_app_length.
Qed.

Lemma kept_refl a : kept a a.
Proof. intros i r Hr. eauto. Qed.

Lemma kept_trans a b c :
  (forall x, x ∈ columns c -> x ∈ columns b) -> kept a b -> kept b c -> kept a c.
Proof.
  intros Hcols Hab Hbc i r Hr.
  destruct (Hab i r Hr) as (r1 & Hr1 & H1).
  destruct (Hbc i r1 Hr1) as (r2 & Hr2 & H2).
  exists r2. split; [done|]. intros x Hx. rewrite H2 by done. apply H1. by apply Hcols.
Qed.

Lemma elem_of_columns_concat_inner a b c :
  c ∈ columns (concat_inner a b) <-> c ∈ columns a /\ c ∈ columns b.
Proof. simpl. rewrite list_elem_of_filter. tauto_closed. Qed.

Lemma kept_concat_inner a b : kept a (concat_inner a b).
Proof.
  intros i r Hr. simpl.
  rewrite list_lookup_imap, list_lookup_fmap, lookup_app_l by (by eapply lookup_lt_Some).
  rewrite Hr. simpl. eexists. split; [reflexivity|].
  intros c Hc. change (cell_of (restrict (columns (concat_inner a b)) r) c = cell_of r c).
  by apply cell_of_restrict.
Qed.

Lemma kept_sheet_after orders address household sku lines :
  kept orders (sheet_after orders address household sku lines)
  /\ (forall c, c ∈ columns (sheet_after orders address household sku lines) <->
                c ∈ columns orders /\ (lines = [] \/ c ∈ stamped_columns (columns address))).
Proof.
  induction lines as [|line lines [IHkept IHcols]] using rev_ind.
  - split; [apply kept_refl|]. intros c. simpl. tauto_closed.
  - rewrite sheet_after_snoc. split.
    + eapply kept_trans; [|exact IHkept|apply kept_concat_inner].
      intros x Hx. by apply elem_of_columns_concat_inner in Hx as [? _].
    + intros c. rewrite elem_of_columns_concat_inner, IHcols, columns_stamped.
      split.
      * intros [[? _] ?]. split; [done|]. by right.
      * intros [? [Hnil|?]]; [by destruct lines|]. split; [split|]; auto.
Qed.

Lemma flat_map_singleton {A B} (f : A -> B) (l : list A) :
  flat_map (fun x => [f x]) l = map f l.
Proof. induction l as [|x l IH]; simpl; [done|]. by rewrite IH. Qed.

Lemma base_order_id_single address r k :
  rows address = [r] -> label_item0 (name r) = Ok k ->
  base_order_id address = Ok (strftime_ymd now ++ format_key k).
Proof. intros Hrows Hk. unfold base_order_id, iloc0. by rewrite Hrows, Hk. Qed.

(** C1. For every call of [append_order] with a deliverable address
    bundle (one row, labelled with the household key) on a sheet that has
    the quantity and identifier columns, the call returns, and the lines
    it appended carry quantities that sum to the requested quantity, each
    at most the cap of its SKU (20 for SKU 1, 4 for SKU 3): the
    remainder first, then the capped portions.  A resupply request of 45
    yields the quantities 5, 20, 20 in sheet order.  The identifiers of
    the lines are pairwise distinct and none was in the sheet before. *)
Theorem append_order_split_lines
  orders household sku quantity address r k (ids quantities : list cell) :
  rows address = [r] ->
  has_address_columns address ->
  deliverable r ->
  label_item0 (name r) = Ok k ->
  values orders "OrderID" = Ok ids ->
  values orders "Quantity" = Ok quantities ->
  exists orders' address' log lines,
    append_order orders household sku quantity address = Ok ((orders', address'), log)
    /\ map (fun r => cell_of r "Quantity") (appended orders orders')
       = map (fun line => Int (fst line)) lines
    /\ map (fun r => cell_of r "OrderID") (appended orders orders')
       = map (fun line => Str (snd line)) lines
    /\ foldr Z.add 0 (map fst lines) = quantity
    /\ (forall cap, shipment_cap sku = Some cap -> Forall (fun q => q <= cap) (map fst lines))
    /\ split_of sku quantity (map fst lines)
    /\ (sku = 1 -> quantity = 45 -> map fst lines = [5; 20; 20])
    /\ NoDup (map snd lines)
    /\ Forall (fun order_id => Str order_id ∉ ids) (map snd lines).
Proof.
  intros Hrows Hcols Hr Hk Hids Hqs.
  pose proof (no_valid_address_deliverable _ _ Hrows Hcols Hr) as Hvalid.
  pose proof (base_order_id_single _ _ _ Hrows Hk) as Hbase.
  destruct (append_order_total orders household sku quantity address _ _ Hvalid Hbase Hids)
    as ([orders' address'] & log & Hrun).
  destruct (append_order_Ok _ _ _ _ _ _ _ _ Hrun) as [(Hcontra & _)|(_ & lines & Hlines)];
    [congruence|].
  destruct Hlines as (line & base' & ids' & _ & _ & Hids' & Horders & _ & Hsplit & Hnd & Hfresh).
  rewrite Hids in Hids'. injection Hids' as <-.
  exists orders', address', log, lines.
  pose proof (values_sheet_after_Quantity _ address household sku lines _ Hqs) as Hq'.
  pose proof (values_sheet_after_OrderID _ address household sku lines _ Hids) as Hid'.
  rewrite <- Horders, Hrows in Hq', Hid'. simpl in Hq', Hid'.
  rewrite flat_map_singleton in Hq', Hid'.
  apply values_Ok_inv in Hq' as [_ Hq'], Hid' as [_ Hid'].
  apply values_Ok_inv in Hqs as [_ Hqs], Hids as [_ Hids].
  repeat split; try done.
  - by eapply map_appended.
  - by eapply map_appended.
  - by eapply split_of_sum.
  - intros cap Hcap. by eapply split_of_capped.
  - intros -> ->. by apply split_of_45.
Qed.

(** C6. When every row of the address bundle has its street address,
    city and state all missing, the call is a no-op: it returns the sheet
    it was given, leaves the bundle as it is, and only logs a warning. *)
Theorem append_order_no_address orders household sku quantity address :
  rows address <> [] ->
  has_address_columns address ->
  Forall (fun r => cell_of r "Street Address" = NaN
                   /\ cell_of r "City" = NaN /\ cell_of r "State" = NaN) (rows address) ->
  append_order orders household sku quantity address
  = Ok ((orders, address), [(WARNING, NoValidAddress household)]).
Proof.
  intros Hrows Hcols Hall.
  rewrite append_order_equation_1.
  rewrite (no_valid_address_missing _ Hrows Hcols Hall), bind_lift_Ok.
  reflexivity.
Qed.

Lemma renumbered_concat_inner a b : renumbered (concat_inner a b).
Proof.
  intros i r. cbn [rows concat_inner]. rewrite list_lookup_imap.
  destruct (_ !! i); [|discriminate]. by intros [= <-].
Qed.

(** C10 (amended). Whenever [append_order] returns, every line of the
    input sheet is still in the returned sheet at its position, before
    any new line, with the value it had in every column that the
    returned sheet has.  The returned sheet has the columns of the input
    sheet that the stamped address bundle has too (all of them when the
    call was a no-op); a column that the bundle lacks is dropped, from
    the earlier lines as well.  When the bundle has every column of the
    sheet, no column is dropped.  A call that appends a line renumbers
    the row index of the sheet: the row at position i is labelled i; a
    no-op call returns the sheet as it is, its index included. *)
Theorem append_order_keeps_lines orders household sku quantity address orders' address' log :
  append_order orders household sku quantity address = Ok ((orders', address'), log) ->
  kept orders orders'
  /\ (forall c, c ∈ columns orders' <->
                c ∈ columns orders
                /\ (no_valid_address address = Ok true
                    \/ c ∈ stamped_columns (columns address)))
  /\ ((forall c, c ∈ columns orders -> c ∈ stamped_columns (columns address)) ->
      forall c, c ∈ columns orders' <-> c ∈ columns orders)
  /\ (no_valid_address address = Ok true /\ orders' = orders
      \/ no_valid_address address = Ok false /\ renumbered orders').
Proof.
  intros Hrun.
  assert (Hindex : no_valid_address address = Ok true /\ orders' = orders
                   \/ no_valid_address address = Ok false /\ renumbered orders').
  { destruct (append_order_Ok _ _ _ _ _ _ _ _ Hrun)
      as [(Hvalid & -> & _)|(Hvalid & lines & Hlines)]; [by left|right].
    split; [done|].
    destruct Hlines as (line & _ & _ & Hlast & _ & _ & -> & _).
    apply last_Some in Hlast as [lines' ->]. rewrite sheet_after_snoc.
    apply renumbered_concat_inner. }
  assert (Hmain : kept orders orders'
    /\ (forall c, c ∈ columns orders' <->
                  c ∈ columns orders
                  /\ (no_valid_address address = Ok true
                      \/ c ∈ stamped_columns (columns address)))).
  { destruct (append_order_Ok _ _ _ _ _ _ _ _ Hrun)
      as [(Hvalid & -> & _)|(Hvalid & lines & Hlines)].
    - split; [apply kept_refl|]. intros c. split; [auto|tauto_closed].
    - destruct Hlines as (line & _ & _ & Hlast & _ & _ & -> & _).
      destruct (kept_sheet_after orders address household sku lines) as [Hkept Hcols].
      split; [done|]. intros c. rewrite Hcols, Hvalid.
      split.
      + intros [? [->|?]]; [done|auto].
      + intros [? [?|?]]; [done|auto]. }
  destruct Hmain as [Hkept Hcols]. split; [done|]. split; [done|].
  split; [|exact Hindex].
  intros Hsub c. rewrite Hcols. split; [tauto_closed|].
  intros Hc. split; [done|]. right. by apply Hsub.
Qed.

(** ** Successive order numbers *)

Lemma successive_order_numbers_fresh n (s : pystr) (ids : list cell) :
  s <> [] ->
  exists l,
    successive_order_numbers n s ids = Ok l
    /\ length l = n
    /\ NoDup l
    /\ Forall (fun order_id => Str order_id ∉ ids) l.
Proof.
  intros Hs. revert ids. induction n as [|n IH]; intros ids.
  - exists []. repeat split; constructor.
  - destruct (generate_order_number_loop_fresh s ids Hs) as (order_id & Hloop & Hfresh).
    destruct (IH (ids ++ [Str order_id])) as (l & Hl & Hlen & Hnd & Hall).
    exists (order_id :: l). cbn [successive_order_numbers]. rewrite Hloop, Hl.
    repeat split.
    + simpl. by rewrite Hlen.
    + constructor; [|done]. intros Hin.
      rewrite Forall_forall in Hall. apply (Hall _ Hin).
      apply elem_of_app. right. by apply list_elem_of_singleton.
    + constructor; [done|]. eapply Forall_impl; [exact Hall|].
      intros x Hx Hin. apply Hx. apply elem_of_app. by left.
Qed.

Lemma next_order_id_eq (s : pystr) x :
  last s = Some x ->
  next_order_id s
  = Ok (if isalpha isalpha_unicode x then removelast s ++ [(x + 1)%N] else s ++ py "a").
Proof.
  intros Hlast. unfold next_order_id. rewrite last_char_lookup, Hlast.
  destruct (isalpha isalpha_unicode x) eqn:Halpha; [|reflexivity]. simpl.
  apply isalpha_below_max in Halpha. unfold chr, max_code_point in *.
  destruct (N.leb_spec (x + 1) 1114111); [|lia].
  apply last_Some in Hlast as [s0 ->]. rewrite removelast_last, length_app. simpl.
  replace (length s0 + 1 - 1)%nat with (length s0 + 0)%nat by lia.
  by rewrite insert_app_r.
Qed.

(** C2 (amended). The generator returns, and never returns an identifier
    that the OrderID column of the sheet holds; it starts from the date
    (YYMMDD) followed by the household key and returns that when it is
    free; on a collision it appends [a] to an identifier that does not
    end in a letter and otherwise replaces the last letter by the
    character after it.  Any number of calls in a row yields pairwise
    distinct identifiers, none of them in the sheet.  When the first
    identifier does not end in a letter and the sheet holds it but none
    of its one-character extensions, up to 26 calls in a row yield it
    with the suffixes a, b, c, ... in that order. *)
Theorem generate_order_number_unique address orders r k (ids : list cell) c n :
  iloc0 address = Ok r ->
  label_item0 (name r) = Ok k ->
  values orders "OrderID" = Ok ids ->
  let base := strftime_ymd now ++ format_key k in
  (exists order_id,
     generate_order_number address orders = Ok (order_id, [(DEBUG, GeneratedOrderId order_id)])
     /\ (Str order_id ∉ ids)
     /\ (Str base ∉ ids -> order_id = base))
  /\ (forall s x, last s = Some x ->
        next_order_id s
        = Ok (if isalpha isalpha_unicode x then removelast s ++ [(x + 1)%N] else s ++ py "a"))
  /\ (exists l,
        successive_order_numbers n base ids = Ok l
        /\ length l = n /\ NoDup l
        /\ Forall (fun order_id => Str order_id ∉ ids) l)
  /\ (last base = Some c -> isalpha isalpha_unicode c = false ->
      Str base ∈ ids -> (forall x, Str (base ++ [x]) ∉ ids) -> (n <= 26)%nat ->
      successive_order_numbers n base ids = Ok (suffixed base n)).
Proof.
  intros Hr Hk Hids base.
  assert (Hbase : base_order_id address = Ok base).
  { unfold base_order_id. by rewrite Hr, Hk. }
  pose proof (base_order_id_not_nil _ _ Hbase) as Hnil.
  split; [|split; [|split]].
  - destruct (generate_order_number_fresh _ _ _ _ Hbase Hids) as (order_id & Hgen & Hloop & Hfresh).
    exists order_id. repeat split; [done|done|].
    intros Hfree. rewrite generate_order_number_loop_S, bool_decide_false in Hloop by done.
    by injection Hloop.
  - apply next_order_id_eq.
  - by apply successive_order_numbers_fresh.
  - intros Hlast Hc Hin Hfree Hn.
    pose proof (successive_order_numbers_letters base ids c n 0) as Hletters.
    simpl in Hletters. rewrite app_nil_r in Hletters. by apply Hletters.
Qed.

(** ** Head of household *)

Ltac fold_fmap :=
  repeat match goal with
         | |- context [map ?f ?l] => change (map f l) with (f <$> l)
         end.

Lemma find_list_find {A} (f : A -> bool) (l : list A) :
  find f l = snd <$> list_find (fun x => f x = true) l.
Proof.
  induction l as [|x l IH]; [done|]. cbn [find list_find].
  destruct (f x) eqn:Hx.
  - by rewrite decide_True.
  - rewrite decide_False by congruence. rewrite IH.
    by destruct (list_find _ l) as [[i y]|].
Qed.

Lemma loc_level0_flat df house_id household :
  loc_level0 df house_id = Ok household -> rows household <> [] /\ flat_index household.
Proof.
  unfold loc_level0, flat_index.
  destruct (omap _ (rows df)) as [|r rs] eqn:Hrows; [discriminate|].
  intros [= <-]. simpl. split; [done|]. rewrite <- Hrows.
  apply Forall_forall. intros x Hx.
  apply list_elem_of_omap in Hx as (y & _ & Hy).
  destruct (name y) as [|k1 k2]; [discriminate|].
  case_decide; [|discriminate]. injection Hy as <-. by exists k2.
Qed.

Lemma rows_reset_index_level0 df :
  flat_index df ->
  rows (reset_index_level0 df)
  = imap (fun i r => Row (Flat (KInt (Z.of_nat i))) (cells r)) (rows df).
Proof.
  intros Hflat. unfold reset_index_level0. simpl. apply imap_ext. intros i r Hr.
  unfold flat_index in Hflat. rewrite Forall_lookup in Hflat.
  destruct (Hflat i r Hr) as [k ->]. reflexivity.
Qed.

Lemma find_reporter (rs : list row) c (o : nat) :
  find snd
    (map (fun p : label * cell => (fst p, notna (snd p)))
       (map (fun r => (name r, cell_of r c))
          (imap (fun i r => Row (Flat (KInt (Z.of_nat (o + i)))) (cells r)) rs)))
  = (fun hit => (Flat (KInt (Z.of_nat (o + fst hit))), true))
      <$> list_find (fun r => notna (cell_of r c) = true) rs.
Proof.
  revert o. induction rs as [|r rs IH]; intros o; [done|].
  rewrite imap_cons. cbn [map find list_find fst snd].
  change (cell_of {| name := Flat (KInt (Z.of_nat (o + 0))); cells := cells r |} c)
    with (cell_of r c).
  destruct (notna (cell_of r c)) eqn:Hr.
  - rewrite decide_True by done. reflexivity.
  - rewrite decide_False by congruence.
    rewrite (imap_ext _ (fun i r => Row (Flat (KInt (Z.of_nat (S o + i)))) (cells r)))
      by (intros i x _; simpl; do 3 f_equal; lia).
    rewrite IH. destruct (list_find _ rs) as [[i x]|]; [|done].
    simpl. do 4 f_equal. lia.
Qed.

Lemma idxmax_reporter (rs : list row) c :
  rs <> [] ->
  idxmax
    (map (fun p : label * cell => (fst p, notna (snd p)))
       (map (fun r => (name r, cell_of r c))
          (imap (fun i r => Row (Flat (KInt (Z.of_nat i))) (cells r)) rs)))
  = Ok (Flat (KInt (Z.of_nat
          (from_option fst O (list_find (fun r => notna (cell_of r c) = true) rs))))).
Proof.
  intros Hrs. pose proof (find_reporter rs c 0) as Hfind. cbn [Nat.add] in Hfind.
  destruct rs as [|r rs]; [done|].
  rewrite imap_cons in Hfind |- *. cbn [map] in Hfind |- *.
  unfold idxmax. rewrite Hfind.
  by destruct (list_find _ (r :: rs)) as [[i x]|].
Qed.

Lemma iloc_label_imap df (f : nat -> row -> row) (rs : list row) i r :
  rows df = imap f rs -> rs !! i = Some r ->
  iloc_label df (Flat (KInt (Z.of_nat i))) = Ok (f i r).
Proof.
  intros Hrows Hr. unfold iloc_label. rewrite Hrows, length_imap.
  pose proof (lookup_lt_Some _ _ _ Hr) as Hlt.
  destruct (Z.ltb_spec (Z.of_nat i) 0); [lia|].
  destruct (Z.leb_spec 0 (Z.of_nat i)); [|lia].
  destruct (Z.ltb_spec (Z.of_nat i) (Z.of_nat (length rs))); [|lia].
  cbn [andb]. by rewrite Nat2Z.id, list_lookup_imap, Hr.
Qed.

Lemma get_head_of_household_flat household house_id (reporter : list cell) :
  rows household <> [] ->
  flat_index household ->
  values household "HH Reporter" = Ok reporter ->
  get_head_of_household household house_id =
  match find notna reporter with
  | Some v =>
      do idx <- lift (int v) in
      run LOG DEBUG (FoundHeadOfHousehold idx house_id) in
      ret idx
  | None =>
      Ok (0, [(WARNING, NoHeadOfHousehold house_id 0)])
  end.
Proof.
  intros Hnil Hflat [Hcol ->]%values_Ok_inv.
  unfold get_head_of_household.
  set (tmp := reset_index_level0 household).
  assert (Htmp : rows tmp = imap (fun i r => Row (Flat (KInt (Z.of_nat i))) (cells r))
                                (rows household)).
  { subst tmp. by rewrite rows_reset_index_level0. }
  assert (Hcol' : has_column tmp "HH Reporter" = true) by by apply bool_decide_eq_true.
  unfold getitem, row_item. rewrite Hcol', bind_lift_Ok.
  rewrite Htmp, idxmax_reporter, bind_lift_Ok by done.
  rewrite find_list_find.
  assert (Hfind : list_find (fun x => notna x = true)
                    (map (fun r => cell_of r "HH Reporter") (rows household))
          = prod_map id (fun r => cell_of r "HH Reporter")
              <$> list_find (fun r => notna (cell_of r "HH Reporter") = true) (rows household)).
  { fold_fmap. by rewrite list_find_fmap. }
  rewrite Hfind. clear Hfind.
  destruct (list_find _ (rows household)) as [[i r]|] eqn:Hhit.
  - apply list_find_Some in Hhit as (Hi & Hr & _).
    cbn [from_option fst].
    rewrite (iloc_label_imap tmp _ _ _ _ Htmp Hi), !bind_lift_Ok.
    cbn [fmap option_fmap option_map snd prod_map].
    change (cell_of {| name := Flat (KInt (Z.of_nat i)); cells := cells r |} "HH Reporter")
      with (cell_of r "HH Reporter").
    unfold notna in Hr. apply negb_true_iff in Hr. rewrite Hr. reflexivity.
  - apply list_find_None in Hhit.
    destruct (rows household) as [|r0 rs] eqn:Hrows; [done|].
    cbn [from_option].
    rewrite (iloc_label_imap tmp _ (r0 :: rs) 0 r0 Htmp eq_refl), !bind_lift_Ok.
    change (cell_of {| name := Flat (KInt (Z.of_nat 0)); cells := cells r0 |} "HH Reporter")
      with (cell_of r0 "HH Reporter").
    apply Forall_cons in Hhit as [Hr0 _].
    unfold notna in Hr0. apply not_true_is_false, negb_false_iff in Hr0. rewrite Hr0.
    reflexivity.
Qed.

(** C7. For the record set of a household, [get_head_of_household]
    returns the first value of the head-of-household pointer (HH
    Reporter) that is not missing, in record order, as [int] makes an
    integer of it; when every pointer is missing it returns 0 and logs a
    warning, and does not raise.  The result is a function of the column
    of pointers in record order alone. *)
Theorem get_head_of_household_first
  household_records house_id household (reporter : list cell) :
  loc_level0 household_records house_id = Ok household ->
  values household "HH Reporter" = Ok reporter ->
  get_head_of_household household house_id =
  match find notna reporter with
  | Some v =>
      do idx <- lift (int v) in
      run LOG DEBUG (FoundHeadOfHousehold idx house_id) in
      ret idx
  | None =>
      Ok (0, [(WARNING, NoHeadOfHousehold house_id 0)])
  end.
Proof.
  intros [Hnil Hflat]%loc_level0_flat Hreporter.
  by apply get_head_of_household_flat.
Qed.

(** ** Project names *)

Lemma cell_of_set_cell c v r c' :
  cell_of (set_cell c v r) c' = if decide (c = c') then v else cell_of r c'.
Proof.
  unfold cell_of, set_cell. simpl. rewrite lookup_insert. by case_decide.
Qed.

Lemma rows_setitem_values df c (vs : list cell) :
  rows (setitem_values df c vs) = zip_with (fun r v => set_cell c v r) (rows df) vs.
Proof. reflexivity. Qed.

Lemma values_setitem_values df c (f : cell -> cell) :
  values (setitem_values df c (map f (map (fun r => cell_of r c) (rows df)))) c
  = Ok (map f (map (fun r => cell_of r c) (rows df))).
Proof.
  rewrite values_Ok by (simpl; apply elem_of_add_column; by right).
  f_equal. rewrite rows_setitem_values.
  induction (rows df) as [|r rs IH]; [done|].
  cbn [map zip_with]. rewrite IH, cell_of_set_cell, decide_True by done. reflexivity.
Qed.

Lemma assign_cascadia_location_values orders (project : list cell) :
  values orders "Project Name" = Ok project ->
  exists orders',
    assign_cascadia_location orders = Ok (orders', [(DEBUG, AssigningSublocations)])
    /\ values orders' "Project Name" = Ok (map sublocation project)
    /\ map name (rows orders') = map name (rows orders).
Proof.
  intros Hproject. unfold assign_cascadia_location. rewrite Hproject.
  eexists. split; [reflexivity|].
  apply values_Ok_inv in Hproject as [_ ->]. split; [apply values_setitem_values|].
  rewrite rows_setitem_values.
  induction (rows orders) as [|r rs IH]; [done|]. cbn [map zip_with]. by rewrite IH.
Qed.

(** C9 (amended). The address resolver and the order filter decide the
    project label by the same test, whether the raw code equals 2, and
    each has two labels; but the labels are not the same strings: the
    resolver writes Cascadia_SEA and Cascadia_PDX, the filter
    CASCADIA_SEA and CASCADIA_PDX.  They agree up to the case of the
    letters. *)
Theorem project_labels_agree_up_to_case orders (project : list cell) v :
  values orders "Project Name" = Ok project ->
  (exists orders',
     assign_cascadia_location orders = Ok (orders', [(DEBUG, AssigningSublocations)])
     /\ values orders' "Project Name" = Ok (map sublocation project))
  /\ sublocation v = Str (py (if eq_int v 2 then "CASCADIA_SEA" else "CASCADIA_PDX"))
  /\ address_project_name [v] = Ok (Str (py (if eq_int v 2 then "Cascadia_SEA" else "Cascadia_PDX")))
  /\ (exists label,
        address_project_name [v] = Ok (Str label)
        /\ sublocation v = Str (map upper label)).
Proof.
  intros Hproject. split.
  { destruct (assign_cascadia_location_values _ _ Hproject) as (orders' & ? & ? & _). eauto. }
  unfold sublocation, address_project_name. simpl.
  destruct (eq_int v 2); repeat split; eexists; split; reflexivity.
Qed.

(** ** Filtering orders *)













(** ** Addresses *)

Lemma elem_of_insert_desc c x (l : list row) y :
  y ∈ insert_desc c x l <-> y = x \/ y ∈ l.
Proof.
  induction l as [|z l IH]; cbn [insert_desc].
  - rewrite list_elem_of_singleton, elem_of_nil. tauto_closed.
  - destruct (later _ _).
    + rewrite !elem_of_cons, IH. tauto_closed.
    + rewrite !elem_of_cons. tauto_closed.
Qed.

Lemma elem_of_sorted c (l : list row) y :
  y ∈ foldr (insert_desc c) [] l <-> y ∈ l.
Proof.
  induction l as [|x l IH]; [done|].
  cbn [foldr]. by rewrite elem_of_insert_desc, elem_of_cons, IH.
Qed.

Lemma complete_address_set_date v r :
  complete_address (set_cell "ss_date_1" v r) = complete_address r.
Proof. unfold complete_address. by rewrite !cell_of_set_cell. Qed.

Lemma elem_of_zip_set_cell c (rs : list row) (vs : list cell) r' :
  r' ∈ zip_with (fun r v => set_cell c v r) rs vs ->
  exists r v, r ∈ rs /\ r' = set_cell c v r.
Proof.
  intros (r & v & -> & Hr & _)%elem_of_zip_with. eauto.
Qed.

Lemma get_most_recent_address_none household house_id updated log :
  no_survey_address household ->
  get_most_recent_address household house_id = Ok (updated, log) ->
  updated = None.
Proof.
  intros Hnone. unfold get_most_recent_address.
  intros (_ & l1 & l2 & _ & Hrun & _)%bind_Ok.
  apply bind_Ok in Hrun as (instrument & l3 & l4 & _ & Hrun & _).
  apply bind_Ok in Hrun as (dates & l5 & l6 & _ & Hrun & _).
  apply bind_Ok in Hrun as (stamps & l7 & l8 & _ & Hrun & _).
  apply bind_Ok in Hrun as (sorted & l9 & l10 & [Hsorted _]%lift_Ok & Hrun & _).
  apply bind_Ok in Hrun as (street & l11 & l12 & _ & Hrun & _).
  apply bind_Ok in Hrun as (city & l13 & l14 & _ & Hrun & _).
  apply bind_Ok in Hrun as (state & l15 & l16 & _ & Hrun & _).
  unfold sort_values_desc in Hsorted.
  destruct (has_column _ _); [|discriminate]. injection Hsorted as <-.
  cbn [rows columns] in Hrun.
  match type of Hrun with
  | context [filter ?P (foldr ?f [] ?l)] =>
      assert (Hempty : filter P (foldr f [] l) = [])
  end.
  { match goal with |- ?l = [] => destruct l as [|y ys] eqn:Hl end; [done|].
    exfalso.
    assert (Hy : y ∈ y :: ys) by left. rewrite <- Hl in Hy.
    apply list_elem_of_filter in Hy as [Hcomplete Hy].
    apply elem_of_sorted in Hy. cbn [rows setitem_values] in Hy.
    apply elem_of_zip_set_cell in Hy as (r & v & Hr & ->).
    apply list_elem_of_filter in Hr as [Hsurvey Hr].
    rewrite complete_address_set_date in Hcomplete.
    unfold no_survey_address in Hnone. rewrite Forall_forall in Hnone.
    rewrite (Hnone r Hr Hsurvey) in Hcomplete. discriminate. }
  rewrite Hempty in Hrun.
  apply bind_Ok in Hrun as (_ & l17 & l18 & _ & Hret & _).
  by injection Hret as <- _.
Qed.

Lemma get_enrollment_address_Ok household house_id enroll log :
  get_enrollment_address household house_id = Ok (enroll, log) ->
  exists idx l,
    get_head_of_household household house_id = Ok (idx, l)
    /\ columns enroll = columns household
    /\ rows enroll
       = filter (fun r => isna (cell_of r "redcap_repeat_instrument") = true)
                (filter (fun r => name r = Flat (event_name idx)) (rows household)).
Proof.
  unfold get_enrollment_address.
  intros (idx & l1 & l2 & Hhead & Hrun & _)%bind_Ok.
  apply bind_Ok in Hrun as (_ & l3 & l4 & _ & Hrun & _).
  apply bind_Ok in Hrun as (event & l5 & l6 & [Hevent _]%lift_Ok & [Hquery _]%lift_Ok & _).
  exists idx, l1. split; [done|].
  unfold loc_list in Hevent.
  destruct (filter _ (rows household)) as [|r rs] eqn:Hrows; [discriminate|].
  injection Hevent as <-.
  unfold query_isna in Hquery. destruct (has_column _ _); [|discriminate].
  by injection Hquery as <-.
Qed.

Lemma get_best_first_name_Ok enroll first_name log :
  get_best_first_name enroll = Ok (first_name, log) ->
  exists e rest,
    rows enroll = e :: rest
    /\ "Pref First Name" ∈ columns enroll
    /\ first_name = best_first_name e.
Proof.
  unfold get_best_first_name, iloc0, row_item, has_column.
  destruct (rows enroll) as [|e rest]; [discriminate|]. rewrite bind_lift_Ok.
  case_bool_decide as Hpref; [|discriminate]. rewrite bind_lift_Ok.
  intros Hrun. exists e, rest. split; [done|]. split; [done|].
  unfold best_first_name, notna.
  destruct (isna (cell_of e "Pref First Name")); cbn [negb] in *.
  - apply bind_Ok in Hrun as (_ & l1 & l2 & _ & Hrun & _).
    case_bool_decide; [|discriminate]. by injection Hrun as <- _.
  - apply bind_Ok in Hrun as (_ & l1 & l2 & _ & Hrun & _). by injection Hrun as <- _.
Qed.

Lemma zip_set_own_cell c (rs : list row) :
  zip_with (fun r v => set_cell c v r) rs
    (map snd (map (fun r => (name r, cell_of r c)) rs))
  = map (fun r => set_cell c (cell_of r c) r) rs.
Proof. induction rs as [|r rs IH]; [done|]. cbn [map zip_with snd]. by rewrite IH. Qed.

(** [address[c] = address[c]] leaves every cell as it reads. *)
Lemma take_from_self a c a' :
  take_from a a c = Ok a' ->
  c ∈ columns a
  /\ a' = DF (columns a) (map (fun r => set_cell c (cell_of r c) r) (rows a)).
Proof.
  unfold take_from, getitem, has_column. case_bool_decide as Hc; [|discriminate].
  unfold setitem_series. rewrite bool_decide_true by (by rewrite map_map).
  intros [= <-]. split; [done|]. unfold setitem_values.
  by rewrite add_column_elem, zip_set_own_cell.
Qed.

Lemma truth_value_Ok (a : list bool) b :
  truth_value a = Ok b -> (length a <= 1)%nat /\ b = default false (head a).
Proof.
  destruct a as [|x [|y a]]; simpl; [| |discriminate];
    intros [= <-]; (split; [lia|done]).
Qed.

Lemma cell_of_set_own c r c' : cell_of (set_cell c (cell_of r c) r) c' = cell_of r c'.
Proof. rewrite cell_of_set_cell. case_decide; by subst. Qed.

Lemma take_from_self_rows a c a' :
  take_from a a c = Ok a' -> length (rows a') = length (rows a).
Proof. intros [_ ->]%take_from_self. simpl. by rewrite length_map. Qed.

(** C8 (amended). For a household without a symptom survey that carries
    a survey address, [get_household_address], when it returns, returns
    one row: the enrollment record of the head of household, restricted
    to the export columns, unchanged in every field except three.  The
    project name is replaced by its label (Cascadia_SEA for the code 2,
    else Cascadia_PDX); the zipcode is made an integer, or the empty
    string when it is missing; the preferred first name is replaced by
    the legal first name when it is missing. *)
Theorem get_household_address_enrollment household_records house_id household address log :
  loc_level0 household_records house_id = Ok household ->
  no_survey_address household ->
  get_household_address household_records house_id = Ok (address, log) ->
  exists idx l e r,
    get_head_of_household household house_id = Ok (idx, l)
    /\ filter (fun r => isna (cell_of r "redcap_repeat_instrument") = true)
              (filter (fun r => name r = Flat (event_name idx)) (rows household)) = [e]
    /\ rows address = [r]
    /\ name r = name e
    /\ columns address = filter (fun c => c ∈ USPS_EXPORT_COLS) (columns household)
    /\ forall c, c ∈ columns address ->
         cell_of r c =
         if decide (c = "Pref First Name") then best_first_name e
         else if decide (c = "Project Name")
              then Str (py (if eq_int (cell_of e "Project Name") 2
                            then "Cascadia_SEA" else "Cascadia_PDX"))
         else if decide (c = "Zipcode") then normal_zipcode (cell_of e "Zipcode")
         else cell_of e c.
Proof.
  intros Hloc Hnone. unfold get_household_address. rewrite Hloc, bind_lift_Ok.
  intros (enroll & l1 & l2 & Henroll & Hrun & _)%bind_Ok.
  apply bind_Ok in Hrun as (updated & l3 & l4 & Hupdated & Hrun & _).
  apply (get_most_recent_address_none _ _ _ _ Hnone) in Hupdated as ->.
  cbv zeta beta iota in Hrun.
  apply bind_Ok in Hrun as (first_name & l5 & l6 & Hname & Hrun & _).
  apply bind_Ok in Hrun as (a1 & l7 & l8 & [Ha1 _]%lift_Ok & Hrun & _).
  apply bind_Ok in Hrun as (a2 & l9 & l10 & [Ha2 _]%lift_Ok & Hrun & _).
  apply bind_Ok in Hrun as (a3 & l11 & l12 & [Ha3 _]%lift_Ok & Hrun & _).
  apply bind_Ok in Hrun as (a4 & l13 & l14 & [Ha4 _]%lift_Ok & Hrun & _).
  apply bind_Ok in Hrun as (_ & l15 & l16 & _ & Hrun & _).
  apply bind_Ok in Hrun as (project & l17 & l18 & [Hproject _]%lift_Ok & Hrun & _).
  apply bind_Ok in Hrun as (project_name & l19 & l20 & [Hlabel _]%lift_Ok & Hrun & _).
  apply bind_Ok in Hrun as (zipcode & l21 & l22 & [Hzipcode _]%lift_Ok & Hrun & _).
  apply bind_Ok in Hrun as (missing & l23 & l24 & [Hmissing _]%lift_Ok & Hrun & _).
  apply bind_Ok in Hrun as (a6 & l25 & l26 & Ha6 & Hret & _).
  injection Hret as <- _.
  apply get_enrollment_address_Ok in Henroll as (idx & l & Hhead & Hcols & Hrows).
  apply get_best_first_name_Ok in Hname as (e & rest & Herows & Hpref & ->).
  apply take_from_self in Ha1 as [Hc1 ->].
  apply take_from_self in Ha2 as [Hc2 ->].
  apply take_from_self in Ha3 as [Hc3 ->].
  apply take_from_self in Ha4 as [Hc4 ->].
  apply values_Ok_inv in Hproject as [Hc5 ->].
  apply values_Ok_inv in Hzipcode as [Hc6 ->].
  cbn [columns rows setitem_scalar] in *.
  rewrite (add_column_elem _ _ Hpref) in *.
  rewrite (add_column_elem _ _ Hc5) in *.
  assert (rest = []) as ->.
  { unfold address_project_name in Hlabel.
    destruct (truth_value _) as [b|] eqn:Htruth; [|discriminate].
    apply truth_value_Ok in Htruth as [Hlen _].
    rewrite !length_map, Herows in Hlen. simpl in Hlen. destruct rest; [done|simpl in Hlen; lia]. }
  rewrite Herows in *. cbn [map] in *.
  match type of Hlabel with
  | address_project_name [cell_of ?r _] = _ => set (r4 := r) in *
  end.
  assert (Hr4 : forall c, cell_of r4 c
                          = if decide (c = "Pref First Name") then best_first_name e
                            else cell_of e c).
  { intros c. subst r4. rewrite !cell_of_set_own, cell_of_set_cell.
    repeat case_decide; congruence. }
  assert (Hn4 : name r4 = name e) by done.
  clearbody r4.
  assert (Hpn : project_name
                = Str (py (if eq_int (cell_of e "Project Name") 2
                           then "Cascadia_SEA" else "Cascadia_PDX"))).
  { unfold address_project_name in Hlabel. cbn [map truth_value] in Hlabel.
    rewrite Hr4, decide_False in Hlabel by done.
    destruct (eq_int _ 2); by injection Hlabel as <-. }
  assert (Hzip : cell_of (set_cell "Project Name" project_name r4) "Zipcode"
                 = cell_of e "Zipcode").
  { by rewrite cell_of_set_cell, decide_False, Hr4, decide_False. }
  rewrite Hzip in Hmissing. cbn [truth_value] in Hmissing. injection Hmissing as <-.
  assert (Hcz : has_column
                  (setitem_scalar {| columns := columns enroll; rows := [r4] |}
                     "Project Name" project_name) "Zipcode" = true).
  { apply bool_decide_eq_true. cbn [columns setitem_scalar].
    by rewrite (add_column_elem _ _ Hc5). }
  assert (Ha6' : a6 = DF (columns enroll)
                         [set_cell "Zipcode" (normal_zipcode (cell_of e "Zipcode"))
                            (set_cell "Project Name" project_name r4)]).
  { unfold normal_zipcode.
    destruct (isna (cell_of e "Zipcode")) eqn:Hna; cbn [negb] in Ha6.
    - injection Ha6 as <- _. unfold setitem_scalar. cbn [columns rows map].
      by rewrite (add_column_elem _ _ Hc5), (add_column_elem _ _ Hc6).
    - unfold getitem in Ha6. rewrite Hcz, bind_lift_Ok in Ha6.
      unfold astype_int in Ha6. cbn [rows setitem_scalar map mapM snd fst] in Ha6.
      rewrite Hzip in Ha6.
      destruct (int (cell_of e "Zipcode")) as [z|]; [|discriminate].
      rewrite bind_lift_Ok in Ha6. unfold setitem_series in Ha6.
      rewrite bool_decide_true in Ha6 by done.
      apply lift_Ok in Ha6 as [Ha6 _]. injection Ha6 as <-.
      unfold setitem_values, setitem_scalar. cbn [columns rows map zip_with snd].
      by rewrite (add_column_elem _ _ Hc5), (add_column_elem _ _ Hc6). }
  subst a6. cbn [columns rows select_columns map]. rewrite Hcols.
  exists idx, l, e. eexists. repeat split; [done|done|done|].
  intros c Hc. rewrite cell_of_restrict by done.
  rewrite !cell_of_set_cell, Hr4, Hpn.
  repeat case_decide; congruence.
Qed.
(** ** Further properties of [append_order] *)

Lemma shipment_cap_pos sku cap : shipment_cap sku = Some cap -> 0 < cap.
Proof. unfold shipment_cap. repeat case_decide; intros [= <-]; lia. Qed.

Lemma split_of_last sku quantity quantities :
  split_of sku quantity quantities -> last quantities = Some (last_quantity sku quantity).
Proof.
  unfold split_of, last_quantity.
  destruct (shipment_cap sku) as [cap|] eqn:Hcap; [|by intros ->].
  apply shipment_cap_pos in Hcap.
  intros (rest & [|n] & -> & Hsum & Hrest & Hpos).
  - simpl. f_equal. lia.
  - rewrite replicate_S_end, app_comm_cons, last_snoc. f_equal.
    assert (0 < rest) by (by apply Hpos). nia.
Qed.

Lemma split_of_length sku quantity quantities :
  split_of sku quantity quantities -> length quantities = line_count sku quantity.
Proof.
  unfold split_of, line_count.
  destruct (shipment_cap sku) as [cap|] eqn:Hcap; [|by intros ->].
  apply shipment_cap_pos in Hcap.
  intros (rest & n & -> & Hsum & Hrest & Hpos). simpl. rewrite length_replicate.
  destruct n as [|n].
  - destruct (Z.ltb_spec cap quantity); [lia|done].
  - assert (0 < rest) by (by apply Hpos).
    destruct (Z.ltb_spec cap quantity); [|nia]. f_equal.
    assert ((quantity - 1) / cap = Z.of_nat (S n)) as ->; [|lia].
    symmetry. apply (Z.div_unique_pos _ _ _ (rest - 1)); lia.
Qed.

Lemma length_rows_concat_inner a b :
  length (rows (concat_inner a b)) = (length (rows a) + length (rows b))%nat.
Proof. simpl. by rewrite length_imap, length_map, length_app. Qed.

Lemma length_rows_sheet_after orders address household sku lines :
  length (rows (sheet_after orders address household sku lines))
  = (length (rows orders) + length lines * length (rows address))%nat.
Proof.
  induction lines as [|line lines IH] using rev_ind; [simpl; lia|].
  rewrite sheet_after_snoc, length_rows_concat_inner, IH, length_app.
  rewrite rows_stamped, length_map. simpl. lia.
Qed.

(** X1. The identifiers of the sheet stay pairwise distinct: when the
    OrderID column of the input sheet has no duplicate and the address
    bundle is one row, the OrderID column of the returned sheet starts
    with the identifiers it had and has no duplicate either. *)
Theorem append_order_ids_distinct
  orders household sku quantity address r (ids : list cell) orders' address' log :
  rows address = [r] ->
  values orders "OrderID" = Ok ids ->
  NoDup ids ->
  append_order orders household sku quantity address = Ok ((orders', address'), log) ->
  exists new_ids,
    values orders' "OrderID" = Ok (ids ++ new_ids)
    /\ NoDup (ids ++ new_ids).
Proof.
  intros Hrows Hids Hnd Hrun.
  destruct (append_order_Ok _ _ _ _ _ _ _ _ Hrun) as [(_ & -> & _)|(_ & lines & Hlines)].
  { exists []. by rewrite app_nil_r. }
  destruct Hlines as (line & base & ids' & _ & _ & Hids' & -> & _ & _ & Hnd' & Hfresh).
  rewrite Hids in Hids'. injection Hids' as <-.
  exists (map (fun line => Str (snd line)) lines). split.
  - rewrite (values_sheet_after_OrderID _ _ _ _ _ _ Hids), Hrows. simpl.
    by rewrite flat_map_singleton.
  - apply NoDup_app. split; [done|]. split.
    + intros x Hx Hin. apply list_elem_of_fmap in Hin as (l & -> & Hl).
      rewrite Forall_forall in Hfresh. apply (Hfresh (snd l)); [|done].
      apply list_elem_of_fmap. eauto.
    + rewrite <- (map_map snd Str). by apply (NoDup_fmap_2 Str).
Qed.

(** X2. A call that is not a no-op changes the address bundle of its
    caller: on return the bundle has the columns SKU, Quantity, OrderID
    and Household ID, stamped on every row with the SKU, the quantity of
    the last line (the cap when the request was split), an identifier
    that the sheet did not hold, and the household; its labels and its
    other cells are as they were. *)
Theorem append_order_stamps_address
  orders household sku quantity address (ids : list cell) orders' address' log :
  no_valid_address address = Ok false ->
  values orders "OrderID" = Ok ids ->
  append_order orders household sku quantity address = Ok ((orders', address'), log) ->
  exists order_id,
    (Str order_id ∉ ids)
    /\ address' = stamped address household sku (last_quantity sku quantity) order_id
    /\ map name (rows address') = map name (rows address)
    /\ (forall c, c ∈ columns address' <->
                  c ∈ columns address \/ c = "SKU" \/ c = "Quantity"
                  \/ c = "OrderID" \/ c = "Household ID")
    /\ Forall2 (fun r r' =>
                  cell_of r' "SKU" = Int sku
                  /\ cell_of r' "Quantity" = Int (last_quantity sku quantity)
                  /\ cell_of r' "OrderID" = Str order_id
                  /\ cell_of r' "Household ID" = cell_of_key household
                  /\ forall c, c <> "SKU" -> c <> "Quantity" -> c <> "OrderID" ->
                               c <> "Household ID" -> cell_of r' c = cell_of r c)
               (rows address) (rows address').
Proof.
  intros Hvalid Hids Hrun.
  destruct (append_order_Ok _ _ _ _ _ _ _ _ Hrun) as [(Hcontra & _)|(_ & lines & Hlines)];
    [congruence|].
  destruct Hlines as (line & base & ids' & Hlast & _ & Hids' & _ & -> & Hsplit & _ & Hfresh).
  rewrite Hids in Hids'. injection Hids' as <-.
  apply split_of_last in Hsplit.
  change (map fst lines) with (fst <$> lines) in Hsplit.
  rewrite fmap_last, Hlast in Hsplit. injection Hsplit as Hq. rewrite Hq.
  exists (snd line). split; [|split; [done|split; [|split]]].
  - rewrite Forall_forall in Hfresh. apply Hfresh.
    apply list_elem_of_fmap. exists line. split; [done|]. by apply last_Some_elem_of.
  - rewrite rows_stamped, map_map. reflexivity.
  - intros c. rewrite columns_stamped. apply elem_of_stamped_columns.
  - rewrite rows_stamped. apply Forall2_fmap_r, Forall_Forall2_diag, Forall_forall.
    intros r _. unfold cell_of. simpl. repeat split; try by simplify_map_eq.
    intros c ? ? ? ?. by rewrite !lookup_insert_ne.
Qed.

(** X3. With a deliverable one-row bundle, a call adds to the sheet one
    line for a request that is not above the cap of its SKU, and
    otherwise as many lines as the request divided by the cap, rounded
    up; a kit without a cap (a SKU other than 1 and 3) always gets one
    line. *)
Theorem append_order_line_count
  orders household sku quantity address r orders' address' log :
  rows address = [r] ->
  no_valid_address address = Ok false ->
  append_order orders household sku quantity address = Ok ((orders', address'), log) ->
  length (rows orders') = (length (rows orders) + line_count sku quantity)%nat.
Proof.
  intros Hrows Hvalid Hrun.
  destruct (append_order_Ok _ _ _ _ _ _ _ _ Hrun) as [(Hcontra & _)|(_ & lines & Hlines)];
    [congruence|].
  destruct Hlines as (line & base & ids' & _ & _ & _ & -> & _ & Hsplit & _).
  apply split_of_length in Hsplit. rewrite length_map in Hsplit.
  rewrite length_rows_sheet_after, Hrows, Hsplit. simpl. lia.
Qed.

(** X4. A sheet without an OrderID column cannot take an order: with a
    deliverable bundle that carries a household key, the call raises
    [KeyError], whatever the SKU and the quantity. *)
Theorem append_order_needs_order_ids
  orders household sku quantity address (base : pystr) :
  no_valid_address address = Ok false ->
  base_order_id address = Ok base ->
  has_column orders "OrderID" = false ->
  append_order orders household sku quantity address = Raise KeyError.
Proof.
  intros Hvalid Hbase Hcol.
  remember (Z.to_nat quantity) as n eqn:Hn. revert quantity Hn.
  induction n as [n IH] using lt_wf_ind. intros quantity Hn.
  rewrite append_order_equation_1, Hvalid, bind_lift_Ok.
  destruct (decide (quantity > 20 /\ sku = 1)) as [[Hq Hsku]|H1].
  { rewrite (IH (Z.to_nat (quantity - 20))) by (lia || done). reflexivity. }
  destruct (decide (quantity > 4 /\ sku = 3)) as [[Hq Hsku]|H3].
  { rewrite (IH (Z.to_nat (quantity - 4))) by (lia || done). reflexivity. }
  rewrite stamp_and_concat_eq, Hbase. unfold values. by rewrite Hcol.
Qed.

(** ** Further properties of [generate_order_number] *)

Lemma prefix_snoc_shorter (p s : pystr) x :
  p `prefix_of` s ++ [x] -> (length p <= length s)%nat -> p `prefix_of` s.
Proof.
  intros [k Hk] Hlen. destruct k as [|y k _] using rev_ind.
  - rewrite app_nil_r in Hk. subst p. rewrite length_app in Hlen. simpl in Hlen. lia.
  - rewrite app_assoc in Hk. apply app_inj_tail in Hk as [-> _]. by exists k.
Qed.

Lemma next_order_id_prefix (p s s' : pystr) :
  p `prefix_of` s -> (length p < length s)%nat ->
  next_order_id s = Ok s' ->
  p `prefix_of` s' /\ (length p < length s')%nat.
Proof.
  intros Hp Hlen Hnext.
  destruct (last s) as [x|] eqn:Hlast;
    [|apply last_None in Hlast; subst s; simpl in Hlen; lia].
  rewrite (next_order_id_eq s x Hlast) in Hnext. injection Hnext as <-.
  apply last_Some in Hlast as [s0 ->]. rewrite length_app in Hlen. simpl in Hlen.
  destruct (isalpha isalpha_unicode x).
  - rewrite removelast_last, length_app. simpl. split; [|lia].
    apply prefix_app_r. apply (prefix_snoc_shorter p s0 x); [done|lia].
  - rewrite !length_app. simpl. split; [|lia]. by apply prefix_app_r.
Qed.

Lemma generate_order_number_loop_prefix fuel (p s : pystr) (ids : list cell) r :
  p `prefix_of` s -> (length p < length s)%nat ->
  generate_order_number_loop fuel s ids = Ok r ->
  p `prefix_of` r.
Proof.
  revert s. induction fuel as [|fuel IH]; intros s Hp Hlen; [discriminate|].
  rewrite generate_order_number_loop_S. case_bool_decide; [|by intros [= <-]].
  destruct (next_order_id s) as [s'|] eqn:Hnext; [|discriminate].
  destruct (next_order_id_prefix p s s' Hp Hlen Hnext). by apply IH.
Qed.

Lemma generate_order_number_loop_prefix_base fuel (s : pystr) (ids : list cell) c r :
  last s = Some c -> isalpha isalpha_unicode c = false ->
  generate_order_number_loop fuel s ids = Ok r ->
  s `prefix_of` r.
Proof.
  intros Hlast Hc. destruct fuel as [|fuel]; [discriminate|].
  rewrite generate_order_number_loop_S. case_bool_decide; [|by intros [= <-]].
  rewrite (next_order_id_not_letter s c Hlast Hc).
  apply generate_order_number_loop_prefix; [by apply prefix_app_r|].
  rewrite length_app. simpl. lia.
Qed.

Lemma isalpha_digit d : (d < 10)%N -> isalpha isalpha_unicode (48 + d) = false.
Proof.
  intros Hd. unfold isalpha.
  destruct (N.ltb_spec (48 + d) 128); [|lia].
  apply orb_false_iff. split; apply andb_false_iff; left; apply N.leb_gt; lia.
Qed.

Lemma last_strftime_ymd d :
  exists c, last (strftime_ymd d) = Some c /\ isalpha isalpha_unicode c = false.
Proof.
  exists (48 + day d mod 10)%N. split; [reflexivity|].
  apply isalpha_digit. by apply N.mod_lt.
Qed.

Lemma generate_order_number_Ok address orders (order_id : pystr) log :
  generate_order_number address orders = Ok (order_id, log) ->
  exists (base : pystr) (ids : list cell),
    base_order_id address = Ok base
    /\ values orders "OrderID" = Ok ids
    /\ generate_order_number_loop (S (length ids)) base ids = Ok order_id.
Proof.
  unfold generate_order_number.
  destruct (base_order_id address) as [base|] eqn:Hbase; [|discriminate].
  rewrite bind_lift_Ok.
  destruct (values orders "OrderID") as [ids|] eqn:Hids; [|discriminate].
  rewrite bind_lift_Ok.
  destruct (generate_order_number_loop _ base ids) as [r|] eqn:Hloop; [|discriminate].
  rewrite bind_lift_Ok. intros [= <- _]. eauto.
Qed.

(** X5. Every identifier that the generator returns begins with the date
    (YYMMDD); it begins with the date and the whole household key
    unless the key ends in a letter, and then it begins with the key
    less its last letter. *)
Theorem generate_order_number_prefix address orders r k (order_id : pystr) log :
  iloc0 address = Ok r ->
  label_item0 (name r) = Ok k ->
  generate_order_number address orders = Ok (order_id, log) ->
  strftime_ymd now `prefix_of` order_id
  /\ (strftime_ymd now ++ removelast (format_key k)) `prefix_of` order_id
  /\ (forall c, last (strftime_ymd now ++ format_key k) = Some c ->
                isalpha isalpha_unicode c = false ->
                (strftime_ymd now ++ format_key k) `prefix_of` order_id).
Proof.
  intros Hr Hk (base & ids & Hbase & _ & Hloop)%generate_order_number_Ok.
  unfold base_order_id in Hbase. rewrite Hr, Hk in Hbase. injection Hbase as <-.
  assert (Hwhole : forall c, last (strftime_ymd now ++ format_key k) = Some c ->
                             isalpha isalpha_unicode c = false ->
                             (strftime_ymd now ++ format_key k) `prefix_of` order_id).
  { intros c Hlast Hc. by eapply generate_order_number_loop_prefix_base. }
  assert (Hkey : (strftime_ymd now ++ removelast (format_key k)) `prefix_of` order_id).
  { revert Hwhole Hloop. generalize (format_key k). intros key.
    destruct key as [|x key _] using rev_ind; intros Hwhole Hloop.
    - simpl. destruct (last_strftime_ymd now) as (c & Hlast & Hc).
      apply (Hwhole c); [by rewrite app_nil_r|done].
    - rewrite removelast_last.
      apply (generate_order_number_loop_prefix (S (length ids)) _
               (strftime_ymd now ++ key ++ [x]) ids); [| |exact Hloop].
      + rewrite app_assoc. by apply prefix_app_r.
      + rewrite !length_app. simpl. lia. }
  split; [|by split].
  etrans; [|exact Hkey]. by apply prefix_app_r.
Qed.

(** ** Further properties of [get_most_recent_address] *)

Lemma copy_column_Ok df dst src df' :
  copy_column df dst src = Ok df' ->
  src ∈ columns df
  /\ df' = DF (add_column (columns df) dst)
              (map (fun r => set_cell dst (cell_of r src) r) (rows df)).
Proof.
  unfold copy_column, getitem, has_column. case_bool_decide as Hsrc; [|discriminate].
  unfold setitem_series. rewrite map_map. cbn [fst].
  rewrite bool_decide_eq_true_2 by done. intros [= <-]. split; [done|].
  unfold setitem_values. f_equal.
  generalize (rows df). intros rs.
  induction rs as [|r rs IH]; [done|]. cbn [map zip_with snd]. by rewrite IH.
Qed.

Lemma later_asym a b : later a b = true -> later b a = false.
Proof. destruct a, b; cbn; try done. intros ?%Z.ltb_lt. apply Z.ltb_ge. lia. Qed.

Lemma not_later_trans a b c :
  later b a = false -> later c b = false -> later c a = false.
Proof.
  destruct a, b, c; cbn; try done.
  rewrite !Z.ltb_ge. lia.
Qed.

Lemma insert_desc_sorted c x (l : list row) :
  StronglySorted (not_later c) l ->
  StronglySorted (not_later c) (insert_desc c x l).
Proof.
  induction 1 as [|y l Hl IH Hy]; cbn [insert_desc].
  - repeat constructor.
  - destruct (later _ _) eqn:Hlater.
    + constructor; [done|]. apply Forall_forall. intros z [->|Hz]%elem_of_insert_desc.
      * by apply later_asym.
      * rewrite Forall_forall in Hy. by apply Hy.
    + constructor; [by constructor|]. constructor; [done|].
      eapply Forall_impl; [exact Hy|]. intros z Hz.
      unfold not_later in *. by eapply not_later_trans.
Qed.

Lemma sort_values_desc_sorted c (l : list row) :
  StronglySorted (not_later c) (foldr (insert_desc c) [] l).
Proof.
  induction l as [|x l IH]; cbn [foldr]; [constructor|]. by apply insert_desc_sorted.
Qed.

Lemma StronglySorted_filter_head {A} (R : A -> A -> Prop) (P : A -> Prop)
    `{!forall x, Decision (P x)} (l : list A) x xs :
  StronglySorted R l -> filter P l = x :: xs ->
  forall y, y ∈ l -> P y -> y = x \/ R x y.
Proof.
  induction 1 as [|z l Hl IH Hz]; [done|].
  rewrite filter_cons. destruct (decide (P z)) as [HPz|HPz].
  - intros [= -> _] y [->|Hy]%elem_of_cons _; [by left|].
    right. rewrite Forall_forall in Hz. by apply Hz.
  - intros Hfilter y [->|Hy]%elem_of_cons HPy; [done|]. by apply IH.
Qed.

Lemma mapM_Forall2 {A B} (f : A -> result B) (l : list A) (k : list B) :
  mapM f l = Ok k -> Forall2 (fun x y => f x = Ok y) l k.
Proof.
  revert k. induction l as [|x l IH]; intros k; cbn [mapM].
  - intros [= <-]. constructor.
  - destruct (f x) as [y|] eqn:Hx; [|discriminate].
    destruct (mapM f l) as [ys|]; [|discriminate]. intros [= <-].
    constructor; [done|]. by apply IH.
Qed.

(** The surveys of a household once their dates are parsed: every row is
    a survey of the household with its date replaced by the parsed one,
    and every survey of the household is there. *)
Lemma dated_surveys c (rs : list row) (dates : list (option Z)) :
  mapM to_datetime64 (map (fun r => cell_of r c) rs) = Ok dates ->
  Forall2 (fun r0 r' => exists t, to_datetime64 (cell_of r0 c) = Ok t
                                  /\ r' = set_cell c (cell_of_stamp t) r0)
          rs (zip_with (fun r v => set_cell c v r) rs (map cell_of_stamp dates)).
Proof.
  intros Hdates%mapM_Forall2. revert dates Hdates.
  induction rs as [|r rs IH]; intros dates Hdates; cbn [map] in Hdates.
  - constructor.
  - apply Forall2_cons_inv_l in Hdates as (t & dates' & Ht & Hdates & ->).
    cbn [map zip_with]. constructor; [by exists t|]. by apply IH.
Qed.

Lemma cell_of_set_same c v r : cell_of (set_cell c v r) c = v.
Proof. rewrite cell_of_set_cell. by rewrite decide_True. Qed.

Lemma stamp_of_cell_of_stamp t : stamp_of (cell_of_stamp t) = t.
Proof. by destruct t. Qed.

(** X6. The survey address that is returned comes from one survey of
    the household with a complete address; no other such survey of
    the household has a more recent date; its address columns carry
    the survey's own address, and its other columns, the date apart,
    are those of the survey. *)
Theorem get_most_recent_address_latest household house_id a log :
  get_most_recent_address household house_id = Ok (Some a, log) ->
  exists r0 t r,
    r0 ∈ rows household
    /\ eq_str (cell_of r0 "redcap_repeat_instrument") "symptom_survey" = true
    /\ complete_address r0 = true
    /\ to_datetime64 (cell_of r0 "ss_date_1") = Ok t
    /\ (forall r1 t1,
          r1 ∈ rows household ->
          eq_str (cell_of r1 "redcap_repeat_instrument") "symptom_survey" = true ->
          complete_address r1 = true ->
          to_datetime64 (cell_of r1 "ss_date_1") = Ok t1 ->
          later t1 t = false)
    /\ rows a = [r]
    /\ name r = name r0
    /\ cell_of r "ss_date_1" = cell_of_stamp t
    /\ cell_of r "Street Address" = cell_of r0 "Street Address 2"
    /\ cell_of r "Apt Number" = cell_of r0 "Apt Number 2"
    /\ cell_of r "City" = cell_of r0 "City 2"
    /\ cell_of r "State" = cell_of r0 "State 2"
    /\ cell_of r "Zipcode" = cell_of r0 "Zipcode 2"
    /\ (forall c, c ∉ ["ss_date_1"; "Street Address"; "Apt Number"; "City"; "State"; "Zipcode"] ->
                  cell_of r c = cell_of r0 c).
Proof.
  unfold get_most_recent_address.
  intros (_ & l1 & l2 & _ & Hrun & _)%bind_Ok.
  apply bind_Ok in Hrun as (instrument & l3 & l4 & _ & Hrun & _).
  apply bind_Ok in Hrun as (dates & l5 & l6 & [Hdates _]%lift_Ok & Hrun & _).
  apply bind_Ok in Hrun as (stamps & l7 & l8 & [Hstamps _]%lift_Ok & Hrun & _).
  apply bind_Ok in Hrun as (sorted & l9 & l10 & [Hsorted _]%lift_Ok & Hrun & _).
  apply bind_Ok in Hrun as (street & l11 & l12 & _ & Hrun & _).
  apply bind_Ok in Hrun as (city & l13 & l14 & _ & Hrun & _).
  apply bind_Ok in Hrun as (state & l15 & l16 & _ & Hrun & _).
  apply values_Ok_inv in Hdates as [_ ->]. cbn [rows] in Hstamps.
  apply dated_surveys in Hstamps.
  unfold sort_values_desc in Hsorted.
  destruct (has_column _ _); [|discriminate]. injection Hsorted as <-.
  cbn [rows columns setitem_values] in Hrun.
  set (surveys := filter (fun r => eq_str (cell_of r "redcap_repeat_instrument")
                                          "symptom_survey" = true) (rows household)) in *.
  set (dated := zip_with (fun r v => set_cell "ss_date_1" v r) surveys
                         (map cell_of_stamp stamps)) in *.
  destruct (filter _ (foldr _ [] dated)) as [|first rest] eqn:Hcomplete.
  { apply bind_Ok in Hrun as (_ & l17 & l18 & _ & Hret & _). discriminate. }
  apply bind_Ok in Hrun as (_ & l17 & l18 & _ & Hrun & _).
  apply bind_Ok in Hrun as (a1 & l19 & l20 & [[_ ->]%copy_column_Ok _]%lift_Ok & Hrun & _).
  apply bind_Ok in Hrun as (a2 & l21 & l22 & [[_ ->]%copy_column_Ok _]%lift_Ok & Hrun & _).
  apply bind_Ok in Hrun as (a3 & l23 & l24 & [[_ ->]%copy_column_Ok _]%lift_Ok & Hrun & _).
  apply bind_Ok in Hrun as (a4 & l25 & l26 & [[_ ->]%copy_column_Ok _]%lift_Ok & Hrun & _).
  apply bind_Ok in Hrun as (a5 & l27 & l28 & [[_ ->]%copy_column_Ok _]%lift_Ok & Hret & _).
  injection Hret as <- _. cbn [rows columns map take].
  assert (Hfirst : first ∈ filter (fun r => complete_address r = true)
                                  (foldr (insert_desc "ss_date_1") [] dated))
    by (rewrite Hcomplete; left).
  apply list_elem_of_filter in Hfirst as [Hfirst_complete Hfirst].
  apply elem_of_sorted in Hfirst.
  apply list_elem_of_lookup in Hfirst as [i Hi].
  destruct (Forall2_lookup_r _ _ _ _ _ Hstamps Hi) as (r0 & Hr0 & t & Ht & ->).
  apply list_elem_of_lookup_2 in Hr0.
  apply list_elem_of_filter in Hr0 as [Hsurvey Hr0].
  rewrite complete_address_set_date in Hfirst_complete.
  eexists r0, t, _. split; [done|]. split; [done|]. split; [done|]. split; [done|].
  split.
  { intros r1 t1 Hr1 Hsurvey1 Hcomplete1 Ht1.
    assert (Hin : r1 ∈ surveys) by (apply list_elem_of_filter; by split).
    apply list_elem_of_lookup in Hin as [j Hj].
    destruct (Forall2_lookup_l _ _ _ _ _ Hstamps Hj) as (r1' & Hr1' & t1' & Ht1' & ->).
    rewrite Ht1 in Ht1'. injection Ht1' as <-.
    apply list_elem_of_lookup_2 in Hr1'.
    destruct (StronglySorted_filter_head (not_later "ss_date_1")
                (fun r => complete_address r = true) _ _ _
                (sort_values_desc_sorted "ss_date_1" dated) Hcomplete
                (set_cell "ss_date_1" (cell_of_stamp t1) r1)) as [Heq|Hle].
    - by apply elem_of_sorted.
    - by rewrite complete_address_set_date.
    - apply (f_equal (fun r => stamp_of (cell_of r "ss_date_1"))) in Heq.
      rewrite !cell_of_set_same, !stamp_of_cell_of_stamp in Heq. subst t1.
      destruct t as [t|]; cbn; [apply Z.ltb_irrefl|done].
    - unfold not_later in Hle.
      by rewrite !cell_of_set_same, !stamp_of_cell_of_stamp in Hle. }
  split; [reflexivity|]. split; [reflexivity|].
  repeat split; try (by rewrite !cell_of_set_cell).
  intros c Hc. rewrite !cell_of_set_cell.
  repeat (destruct (decide _) as [<-|_]; [exfalso; apply Hc; apply list_elem_of_In; simpl; tauto_closed|]). done.
Qed.

(** X7. No survey address is returned exactly when no survey of the
    household has a complete address. *)
Theorem get_most_recent_address_none_iff household house_id updated log :
  get_most_recent_address household house_id = Ok (updated, log) ->
  updated = None <-> no_survey_address household.
Proof.
  intros Hrun. split; [|intros Hnone; by eapply get_most_recent_address_none].
  intros ->. revert Hrun. unfold get_most_recent_address.
  intros (_ & l1 & l2 & _ & Hrun & _)%bind_Ok.
  apply bind_Ok in Hrun as (instrument & l3 & l4 & _ & Hrun & _).
  apply bind_Ok in Hrun as (dates & l5 & l6 & [Hdates _]%lift_Ok & Hrun & _).
  apply bind_Ok in Hrun as (stamps & l7 & l8 & [Hstamps _]%lift_Ok & Hrun & _).
  apply bind_Ok in Hrun as (sorted & l9 & l10 & [Hsorted _]%lift_Ok & Hrun & _).
  apply bind_Ok in Hrun as (street & l11 & l12 & _ & Hrun & _).
  apply bind_Ok in Hrun as (city & l13 & l14 & _ & Hrun & _).
  apply bind_Ok in Hrun as (state & l15 & l16 & _ & Hrun & _).
  apply values_Ok_inv in Hdates as [_ ->]. cbn [rows] in Hstamps.
  apply dated_surveys in Hstamps.
  unfold sort_values_desc in Hsorted.
  destruct (has_column _ _); [|discriminate]. injection Hsorted as <-.
  cbn [rows columns setitem_values] in Hrun.
  destruct (filter _ (foldr _ [] _)) as [|first rest] eqn:Hcomplete.
  - apply Forall_forall. intros r1 Hr1 Hsurvey1.
    destruct (complete_address r1) eqn:Hcomplete1; [exfalso|done].
    assert (Hin : r1 ∈ filter (fun r => eq_str (cell_of r "redcap_repeat_instrument")
                                               "symptom_survey" = true) (rows household))
      by (apply list_elem_of_filter; by split).
    apply list_elem_of_lookup in Hin as [j Hj].
    destruct (Forall2_lookup_l _ _ _ _ _ Hstamps Hj) as (r1' & Hr1' & t1 & _ & ->).
    apply list_elem_of_lookup_2 in Hr1'. apply (elem_of_sorted "ss_date_1") in Hr1'.
    assert (Hin : set_cell "ss_date_1" (cell_of_stamp t1) r1 ∈ @nil row);
      [|by apply elem_of_nil in Hin].
    rewrite <- Hcomplete. apply list_elem_of_filter.
    split; [by rewrite complete_address_set_date|done].
  - apply bind_Ok in Hrun as (_ & l17 & l18 & _ & Hrun & _).
    apply bind_Ok in Hrun as (a1 & l19 & l20 & _ & Hrun & _).
    apply bind_Ok in Hrun as (a2 & l21 & l22 & _ & Hrun & _).
    apply bind_Ok in Hrun as (a3 & l23 & l24 & _ & Hrun & _).
    apply bind_Ok in Hrun as (a4 & l25 & l26 & _ & Hrun & _).
    apply bind_Ok in Hrun as (a5 & l27 & l28 & _ & Hret & _). discriminate.
Qed.

(** ** The survey branch of [get_household_address] *)

Lemma get_most_recent_address_rows household house_id a log :
  get_most_recent_address household house_id = Ok (Some a, log) ->
  exists s, rows a = [s].
Proof.
  unfold get_most_recent_address.
  intros (_ & l1 & l2 & _ & Hrun & _)%bind_Ok.
  apply bind_Ok in Hrun as (instrument & l3 & l4 & _ & Hrun & _).
  apply bind_Ok in Hrun as (dates & l5 & l6 & _ & Hrun & _).
  apply bind_Ok in Hrun as (stamps & l7 & l8 & _ & Hrun & _).
  apply bind_Ok in Hrun as (sorted & l9 & l10 & _ & Hrun & _).
  apply bind_Ok in Hrun as (street & l11 & l12 & _ & Hrun & _).
  apply bind_Ok in Hrun as (city & l13 & l14 & _ & Hrun & _).
  apply bind_Ok in Hrun as (state & l15 & l16 & _ & Hrun & _).
  cbn [rows columns] in Hrun.
  destruct (filter _ (rows sorted)) as [|first rest] eqn:Hcomplete.
  { apply bind_Ok in Hrun as (_ & l17 & l18 & _ & Hret & _). discriminate. }
  apply bind_Ok in Hrun as (_ & l17 & l18 & _ & Hrun & _).
  apply bind_Ok in Hrun as (a1 & l19 & l20 & [[_ ->]%copy_column_Ok _]%lift_Ok & Hrun & _).
  apply bind_Ok in Hrun as (a2 & l21 & l22 & [[_ ->]%copy_column_Ok _]%lift_Ok & Hrun & _).
  apply bind_Ok in Hrun as (a3 & l23 & l24 & [[_ ->]%copy_column_Ok _]%lift_Ok & Hrun & _).
  apply bind_Ok in Hrun as (a4 & l25 & l26 & [[_ ->]%copy_column_Ok _]%lift_Ok & Hrun & _).
  apply bind_Ok in Hrun as (a5 & l27 & l28 & [[_ ->]%copy_column_Ok _]%lift_Ok & Hret & _).
  injection Hret as <- _. cbn [rows columns map take]. eauto.
Qed.

(** [address[c] = enroll_address[c]] for a one-row [address] and an
    [enroll_address] whose rows share one label: the assignment aligns
    on the labels, so it raises unless [enroll_address] has one row, and
    takes its value only when the two labels are equal. *)
Lemma take_from_one enroll a c e rest s a' :
  rows enroll = e :: rest ->
  Forall (fun r => name r = name e) rest ->
  rows a = [s] ->
  take_from enroll a c = Ok a' ->
  rest = []
  /\ c ∈ columns enroll
  /\ a' = DF (add_column (columns a) c)
             [set_cell c (if decide (name e = name s) then cell_of e c else NaN) s].
Proof.
  intros Hrows Hnames Ha. unfold take_from, getitem, has_column.
  case_bool_decide as Hc; [|discriminate].
  unfold setitem_series. rewrite map_map, Hrows, Ha. cbn [fst map].
  case_bool_decide as Heq.
  - intros [= <-]. destruct rest; [|discriminate]. injection Heq as Heq.
    split; [done|]. split; [done|].
    unfold setitem_values. rewrite Ha. cbn [map zip_with snd].
    by rewrite decide_True.
  - case_bool_decide as Hnodup; [|discriminate]. intros [= <-].
    assert (rest = []) as ->.
    { destruct rest as [|r2 rest]; [done|]. exfalso.
      apply Forall_cons in Hnames as [Hr2 _].
      cbn [map] in Hnodup. apply NoDup_cons in Hnodup as [Hnotin _].
      apply Hnotin. rewrite Hr2. left. }
    split; [done|]. split; [done|].
    unfold setitem_values. rewrite Ha. cbn [map zip_with].
    unfold series_lookup. cbn [find fst snd].
    case_bool_decide as Hlabel.
    + exfalso. apply Heq. cbn [map]. by rewrite Hlabel.
    + by rewrite decide_False.
Qed.

Ltac not_contact :=
  rewrite !elem_of_cons, elem_of_nil; intros [?|[?|[?|[?|[]]]]];
  (discriminate || congruence).

(** X8. For a household with a survey address, [get_household_address],
    when it returns, returns one row with the label of the survey: the
    survey address restricted to the export columns.  The preferred
    first name is that of the head's enrollment record (the legal first
    name when it is missing).  Last name, email, phone and delivery
    instructions are those of the head's enrollment record only when
    the survey row carries the label of that record; under any other
    label they are missing.  The project name is the label of the
    survey row's own code, the zipcode is the survey's, made an integer
    or the empty string. *)
Theorem get_household_address_survey
    household_records house_id household a l0 address log :
  loc_level0 household_records house_id = Ok household ->
  get_most_recent_address household house_id = Ok (Some a, l0) ->
  get_household_address household_records house_id = Ok (address, log) ->
  exists idx l e s r,
    get_head_of_household household house_id = Ok (idx, l)
    /\ filter (fun r => isna (cell_of r "redcap_repeat_instrument") = true)
              (filter (fun r => name r = Flat (event_name idx)) (rows household)) = [e]
    /\ rows a = [s]
    /\ rows address = [r]
    /\ name r = name s
    /\ (forall c, c ∈ columns address <->
                  c ∈ USPS_EXPORT_COLS
                  /\ (c ∈ columns a
                      \/ c ∈ ["Pref First Name"; "Last Name"; "Email"; "Phone";
                              "Delivery Instructions"]))
    /\ forall c, c ∈ columns address ->
         cell_of r c =
         if decide (c = "Pref First Name") then best_first_name e
         else if decide (c ∈ ["Last Name"; "Email"; "Phone"; "Delivery Instructions"])
              then (if decide (name e = name s) then cell_of e c else NaN)
         else if decide (c = "Project Name")
              then Str (py (if eq_int (cell_of s "Project Name") 2
                            then "Cascadia_SEA" else "Cascadia_PDX"))
         else if decide (c = "Zipcode") then normal_zipcode (cell_of s "Zipcode")
         else cell_of s c.
Proof.
  intros Hloc Hsurvey. unfold get_household_address. rewrite Hloc, bind_lift_Ok.
  intros (enroll & l1 & l2 & Henroll & Hrun & _)%bind_Ok.
  apply bind_Ok in Hrun as (updated & l3 & l4 & Hupdated & Hrun & _).
  rewrite Hsurvey in Hupdated. injection Hupdated as <- _.
  cbv zeta beta iota in Hrun.
  apply bind_Ok in Hrun as (first_name & l5 & l6 & Hname & Hrun & _).
  apply bind_Ok in Hrun as (a1 & l7 & l8 & [Ha1 _]%lift_Ok & Hrun & _).
  apply bind_Ok in Hrun as (a2 & l9 & l10 & [Ha2 _]%lift_Ok & Hrun & _).
  apply bind_Ok in Hrun as (a3 & l11 & l12 & [Ha3 _]%lift_Ok & Hrun & _).
  apply bind_Ok in Hrun as (a4 & l13 & l14 & [Ha4 _]%lift_Ok & Hrun & _).
  apply bind_Ok in Hrun as (_ & l15 & l16 & _ & Hrun & _).
  apply bind_Ok in Hrun as (project & l17 & l18 & [Hproject _]%lift_Ok & Hrun & _).
  apply bind_Ok in Hrun as (project_name & l19 & l20 & [Hlabel _]%lift_Ok & Hrun & _).
  apply bind_Ok in Hrun as (zipcode & l21 & l22 & [Hzipcode _]%lift_Ok & Hrun & _).
  apply bind_Ok in Hrun as (missing & l23 & l24 & [Hmissing _]%lift_Ok & Hrun & _).
  apply bind_Ok in Hrun as (a6 & l25 & l26 & Ha6 & Hret & _).
  injection Hret as <- _.
  apply get_enrollment_address_Ok in Henroll as (idx & l & Hhead & Hcols & Hrows).
  apply get_best_first_name_Ok in Hname as (e & rest & Herows & Hpref & ->).
  destruct (get_most_recent_address_rows _ _ _ _ Hsurvey) as [s Hs].
  assert (Hnames : Forall (fun r => name r = name e) rest).
  { assert (Hall : Forall (fun r => name r = Flat (event_name idx)) (rows enroll)).
    { rewrite Hrows. apply Forall_forall.
      by intros r [_ [Hr _]%list_elem_of_filter]%list_elem_of_filter. }
    rewrite Herows in Hall. apply Forall_cons in Hall as [He Hall].
    eapply Forall_impl; [exact Hall|]. intros r Hr. by rewrite He. }
  assert (Hs1 : rows (setitem_scalar a "Pref First Name" (best_first_name e))
                = [set_cell "Pref First Name" (best_first_name e) s])
    by (cbn [rows setitem_scalar]; by rewrite Hs).
  destruct (take_from_one _ _ _ e rest _ _ Herows Hnames Hs1 Ha1) as (Hrest & Hc1 & Ha1').
  subst rest a1. cbn [name set_cell] in *.
  eapply take_from_one in Ha2; [|exact Herows|exact Hnames|reflexivity].
  destruct Ha2 as (_ & Hc2 & Ha2').
  subst a2. cbn [name set_cell] in *.
  eapply take_from_one in Ha3; [|exact Herows|exact Hnames|reflexivity].
  destruct Ha3 as (_ & Hc3 & Ha3').
  subst a3. cbn [name set_cell] in *.
  eapply take_from_one in Ha4; [|exact Herows|exact Hnames|reflexivity].
  destruct Ha4 as (_ & Hc4 & Ha4').
  subst a4. cbn [name set_cell] in *.
  apply values_Ok_inv in Hproject as [Hc5 ->].
  apply values_Ok_inv in Hzipcode as [Hc6 ->].
  cbn [columns rows setitem_scalar map] in *.
  set (cols := add_column (add_column (add_column (add_column
                 (add_column (columns a) "Pref First Name") "Last Name") "Email") "Phone")
                 "Delivery Instructions") in *.
  assert (Hcols_iff : forall c, c ∈ cols <->
            c ∈ columns a \/ c ∈ ["Pref First Name"; "Last Name"; "Email"; "Phone";
                                  "Delivery Instructions"]).
  { intros c. subst cols. rewrite !elem_of_add_column, !elem_of_cons, elem_of_nil.
    tauto_closed. }
  rewrite (add_column_elem _ _ Hc5) in *.
  match type of Hlabel with
  | address_project_name [cell_of ?r _] = _ => set (r4 := r) in *
  end.
  assert (Hr4 : forall c, cell_of r4 c
            = if decide (c = "Pref First Name") then best_first_name e
              else if decide (c ∈ ["Last Name"; "Email"; "Phone"; "Delivery Instructions"])
                   then (if decide (name e = name s) then cell_of e c else NaN)
              else cell_of s c).
  { intros c. subst r4. rewrite !cell_of_set_cell.
    repeat (destruct (decide (_ = c)) as [<-|?]; [by rewrite ?decide_True by done|]).
    rewrite decide_False by done.
    rewrite decide_False; [done|].
    not_contact. }
  assert (Hn4 : name r4 = name s) by done.
  clearbody r4.
  assert (Hpn : project_name
                = Str (py (if eq_int (cell_of s "Project Name") 2
                           then "Cascadia_SEA" else "Cascadia_PDX"))).
  { unfold address_project_name in Hlabel. cbn [map truth_value] in Hlabel.
    rewrite Hr4, decide_False, decide_False in Hlabel;
      [|not_contact|done].
    destruct (eq_int _ 2); by injection Hlabel as <-. }
  assert (Hzip : cell_of (set_cell "Project Name" project_name r4) "Zipcode"
                 = cell_of s "Zipcode").
  { rewrite cell_of_set_cell, decide_False, Hr4, decide_False, decide_False;
      [done|not_contact|done|done]. }
  rewrite Hzip in Hmissing. cbn [truth_value] in Hmissing. injection Hmissing as <-.
  assert (Ha6' : a6 = DF cols
                         [set_cell "Zipcode" (normal_zipcode (cell_of s "Zipcode"))
                            (set_cell "Project Name" project_name r4)]).
  { unfold normal_zipcode.
    destruct (isna (cell_of s "Zipcode")) eqn:Hna; cbn [negb] in Ha6.
    - injection Ha6 as <- _. unfold setitem_scalar. cbn [columns rows map].
      by rewrite (add_column_elem _ _ Hc5), (add_column_elem _ _ Hc6).
    - unfold getitem, has_column in Ha6. cbn [columns setitem_scalar] in Ha6.
      rewrite ?(add_column_elem _ _ Hc5) in Ha6.
      rewrite bool_decide_eq_true_2, bind_lift_Ok in Ha6 by done.
      unfold astype_int, setitem_scalar in Ha6.
      cbn [rows columns map mapM snd fst] in Ha6.
      rewrite ?(add_column_elem _ _ Hc5), Hzip in Ha6.
      destruct (int (cell_of s "Zipcode")) as [z|]; [|discriminate].
      rewrite bind_lift_Ok in Ha6. unfold setitem_series in Ha6.
      rewrite bool_decide_eq_true_2 in Ha6 by done.
      apply lift_Ok in Ha6 as [Ha6 _]. injection Ha6 as <-.
      unfold setitem_values. cbn [columns rows map zip_with snd].
      by rewrite (add_column_elem _ _ Hc6). }
  subst a6. cbn [columns rows select_columns map].
  exists idx, l, e, s. eexists.
  split; [done|]. split; [by rewrite <- Hrows|]. split; [done|]. split; [reflexivity|].
  split; [done|]. split.
  { intros c. by rewrite list_elem_of_filter, Hcols_iff. }
  intros c Hc. rewrite cell_of_restrict by done.
  rewrite !cell_of_set_cell, Hr4, Hpn.
  destruct (decide (c = "Pref First Name")) as [->|?]; [done|].
  destruct (decide (c ∈ _)) as [Hin|?].
  { assert (c <> "Project Name") by (intros ->; revert Hin; not_contact).
    assert (c <> "Zipcode") by (intros ->; revert Hin; not_contact).
    repeat case_decide; congruence. }
  repeat case_decide; congruence.
Qed.

(** ** Further properties of the order filter *)

Lemma zip_set_map c c' (f : cell -> cell) (rs : list row) :
  zip_with (fun r v => set_cell c v r) rs (map f (map (fun r => cell_of r c') rs))
  = map (fun r => set_cell c (f (cell_of r c')) r) rs.
Proof. induction rs as [|r rs IH]; [done|]. cbn [map zip_with]. by rewrite IH. Qed.

Lemma sublocation_label v :
  sublocation v = Str (py "CASCADIA_SEA") \/ sublocation v = Str (py "CASCADIA_PDX").
Proof. unfold sublocation. destruct (eq_int v 2); [by left|by right]. Qed.

(** X9. Every row that the order filter returns asks for a notification
    by email, has 0 as its today-tomorrow flag exactly when its first
    pickup choice is 1 (and 1 otherwise), and carries one of the two
    sublocation labels as project name; the three columns exist. *)
Theorem filter_cascadia_orders_fields orders out log :
  filter_cascadia_orders orders = Ok (out, log) ->
  (forall c, c ∈ ["Today Tomorrow"; "Notification Pref"; "Project Name"] -> c ∈ columns out)
  /\ Forall (fun r =>
       cell_of r "Notification Pref" = Str (py "email")
       /\ cell_of r "Today Tomorrow" = (if eq_int (cell_of r "Pickup 1") 1 then Int 0 else Int 1)
       /\ (cell_of r "Project Name" = Str (py "CASCADIA_SEA")
           \/ cell_of r "Project Name" = Str (py "CASCADIA_PDX")))
     (rows out).
Proof.
  unfold filter_cascadia_orders.
  intros (_ & l1 & l2 & _ & Hrun & _)%bind_Ok.
  apply bind_Ok in Hrun as (enrollment_records & l3 & l4 & _ & Hrun & _).
  apply bind_Ok in Hrun as (selected & l5 & l6 & _ & Hrun & _).
  apply bind_Ok in Hrun as (applied & l7 & l8 & _ & Hrun & _).
  apply bind_Ok in Hrun as (pickup & l9 & l10 & [Hpickup _]%lift_Ok & Hrun & _).
  apply values_Ok_inv in Hpickup as [_ ->].
  unfold assign_cascadia_location in Hrun.
  apply bind_Ok in Hrun as (_ & l11 & l12 & _ & Hrun & _).
  apply bind_Ok in Hrun as (project & l13 & l14 & [Hproject _]%lift_Ok & Hret & _).
  injection Hret as <- _.
  apply values_Ok_inv in Hproject as [Hcol ->].
  unfold setitem_scalar, setitem_values in *. cbn [rows columns] in *.
  rewrite zip_set_map in *. rewrite zip_set_map. split.
  - intros c Hc. apply elem_of_add_column.
    apply elem_of_cons in Hc as [->|Hc]; [|apply elem_of_cons in Hc as [->|Hc]].
    + left. apply elem_of_add_column. left. apply elem_of_add_column. by right.
    + left. apply elem_of_add_column. by right.
    + by right; apply list_elem_of_singleton.
  - apply Forall_forall. intros r (r2 & -> & Hr2)%list_elem_of_fmap.
    apply list_elem_of_fmap in Hr2 as (r1 & -> & Hr1).
    apply list_elem_of_fmap in Hr1 as (r0 & -> & _).
    rewrite !cell_of_set_cell. cbn [decide]. unfold today_tomorrow.
    repeat (rewrite decide_False by done). repeat (rewrite decide_True by done).
    split; [done|]. split; [done|]. apply sublocation_label.
Qed.

(** X10. The sublocation assignment is not idempotent: it reads the
    raw project code, so on its own output, whose project names are
    labels, it turns every project name into CASCADIA_PDX. *)
Theorem assign_cascadia_location_twice orders once log1 twice log2 :
  assign_cascadia_location orders = Ok (once, log1) ->
  assign_cascadia_location once = Ok (twice, log2) ->
  map name (rows twice) = map name (rows orders)
  /\ Forall (fun r => cell_of r "Project Name" = Str (py "CASCADIA_PDX")) (rows twice).
Proof.
  unfold assign_cascadia_location.
  intros (_ & l1 & l2 & _ & Hrun & _)%bind_Ok.
  apply bind_Ok in Hrun as (project & l3 & l4 & [Hproject _]%lift_Ok & Hret & _).
  injection Hret as <- _. apply values_Ok_inv in Hproject as [_ ->].
  intros (_ & l5 & l6 & _ & Hrun & _)%bind_Ok.
  apply bind_Ok in Hrun as (project & l7 & l8 & [Hproject _]%lift_Ok & Hret & _).
  injection Hret as <- _. apply values_Ok_inv in Hproject as [_ ->].
  unfold setitem_values. cbn [rows columns]. rewrite !zip_set_map. split.
  - rewrite !map_map. by apply map_ext.
  - apply Forall_forall. intros r (r1 & -> & Hr1)%list_elem_of_fmap.
    apply list_elem_of_fmap in Hr1 as (r0 & -> & _).
    rewrite !cell_of_set_cell, !decide_True by done.
    unfold sublocation. by destruct (eq_int (cell_of r0 "Project Name") 2).
Qed.

Lemma mapM_Raise {A B} (f : A -> result B) (l : list A) e :
  Forall (fun x => f x = Raise e \/ exists y, f x = Ok y) l ->
  Exists (fun x => f x = Raise e) l ->
  mapM f l = Raise e.
Proof.
  induction 1 as [|x l Hx Hl IH]; intros Hex; [by apply Exists_nil in Hex|].
  cbn [mapM]. destruct Hx as [->|[y Hy]]; [done|]. rewrite Hy.
  apply Exists_cons in Hex as [Hex|Hex]; [congruence|].
  by rewrite (IH Hex).
Qed.

(** X11. The order filter needs, for every household with a record
    that is not a symptom survey, such a record under the first event
    (0_arm_1): when one household has none, the filter raises
    IndexError, whatever the surveys are.  (The records that are not
    surveys are taken with a two-level index without duplicates, as
    pandas needs to look one of them up.) *)
Theorem filter_cascadia_orders_no_first_event orders x k k2 :
  "redcap_repeat_instrument" ∈ columns orders ->
  "Project Name" ∈ columns orders ->
  Forall (fun r => ne_str (cell_of r "redcap_repeat_instrument") "symptom_survey" = true ->
                   exists k1 k2, name r = Multi k1 k2) (rows orders) ->
  NoDup (map name
           (filter (fun r => ne_str (cell_of r "redcap_repeat_instrument") "symptom_survey"
                             = true) (rows orders))) ->
  x ∈ rows orders ->
  ne_str (cell_of x "redcap_repeat_instrument") "symptom_survey" = true ->
  name x = Multi k k2 ->
  (forall r, r ∈ rows orders ->
             ne_str (cell_of r "redcap_repeat_instrument") "symptom_survey" = true ->
             name r <> Multi k (KStr (py "0_arm_1"))) ->
  filter_cascadia_orders orders = Raise IndexError.
Proof.
  intros Hinstrument Hproject Hmulti _ Hx Hrecord Hname Hnone.
  unfold filter_cascadia_orders, enrollment_records_of.
  rewrite (values_Ok _ _ Hinstrument).
  set (records := filter _ (rows orders)).
  rewrite (mapM_Raise _ _ IndexError); [done| |].
  - apply Forall_forall. intros r [Hr Hin]%list_elem_of_filter.
    rewrite Forall_forall in Hmulti. destruct (Hmulti r Hin Hr) as (k1 & k3 & Hk).
    unfold first_event_project, has_column. rewrite Hk. cbn [label_item0 columns rows].
    rewrite bool_decide_eq_true_2 by done.
    destruct (filter _ records); eauto.
  - apply Exists_exists. exists x. split; [by apply list_elem_of_filter|].
    unfold first_event_project, has_column. rewrite Hname. cbn [label_item0 columns rows].
    rewrite bool_decide_eq_true_2 by done.
    destruct (filter _ records) as [|r rs] eqn:Hfilter; [done|]. exfalso.
    assert (Hr : r ∈ r :: rs) by left. rewrite <- Hfilter in Hr.
    apply list_elem_of_filter in Hr as [Hlabel [Hsurvey Hr]%list_elem_of_filter].
    by apply (Hnone r).
Qed.

(** X12. A head-of-household pointer without a record: when no record
    of the household stands under the event of the head of household
    ([<idx>_arm_1], with the index that [get_head_of_household]
    returns), the address resolver raises KeyError. *)
Theorem get_household_address_no_head_record household_records house_id household idx l :
  loc_level0 household_records house_id = Ok household ->
  get_head_of_household household house_id = Ok (idx, l) ->
  (forall r, r ∈ rows household -> name r <> Flat (event_name idx)) ->
  get_household_address household_records house_id = Raise KeyError.
Proof.
  intros Hloc Hhead Hnone. unfold get_household_address. rewrite Hloc, bind_lift_Ok.
  unfold get_enrollment_address. rewrite Hhead. cbn [bind LOG lift].
  unfold loc_list.
  destruct (filter _ (rows household)) as [|r rs] eqn:Hfilter; [done|]. exfalso.
  assert (Hr : r ∈ r :: rs) by left. rewrite <- Hfilter in Hr.
  apply list_elem_of_filter in Hr as [Hname Hr]. by apply (Hnone r).
Qed.

Lemma Forall2_zip_set_cell (R : row -> cell -> Prop) c (rs : list row) (vs : list cell) :
  Forall2 R rs vs ->
  Forall2 (fun r r' => exists v, R r v /\ r' = set_cell c v r)
          rs (zip_with (fun r v => set_cell c v r) rs vs).
Proof.
  induction 1 as [|r v rs vs Hr Hrs IH]; cbn [zip_with]; constructor; eauto.
Qed.

(** X13. The records that are not symptom surveys, as the order filter
    hands them to [use_best_address]: each keeps its label and its
    cells, except the project name, which becomes that of the record of
    its household under the first event (0_arm_1).  (The index of
    these records is taken without duplicates, as pandas needs to look
    one of them up.) *)
Theorem enrollment_records_of_project orders records :
  NoDup (map name
           (filter (fun r => ne_str (cell_of r "redcap_repeat_instrument") "symptom_survey"
                             = true) (rows orders))) ->
  enrollment_records_of orders = Ok records ->
  Forall2 (fun r r' =>
       name r' = name r
       /\ (forall c, c <> "Project Name" -> cell_of r' c = cell_of r c)
       /\ exists k first,
            label_item0 (name r) = Ok k
            /\ first ∈ rows orders
            /\ ne_str (cell_of first "redcap_repeat_instrument") "symptom_survey" = true
            /\ name first = Multi k (KStr (py "0_arm_1"))
            /\ cell_of r' "Project Name" = cell_of first "Project Name")
     (filter (fun r => ne_str (cell_of r "redcap_repeat_instrument") "symptom_survey" = true)
             (rows orders))
     (rows records).
Proof.
  intros _. unfold enrollment_records_of.
  destruct (values orders "redcap_repeat_instrument") as [instrument|]; [|discriminate].
  cbv zeta. cbn [rows]. set (enrollment := filter _ (rows orders)).
  destruct (mapM (first_event_project _) enrollment) as [project|] eqn:Hproject;
    [|discriminate].
  intros [= <-]. apply mapM_Forall2 in Hproject.
  cbn [rows setitem_values].
  eapply Forall2_impl; [by apply Forall2_zip_set_cell|].
  intros r r' (v & Hv & ->). split; [done|]. split.
  { intros c Hc. by rewrite cell_of_set_cell, decide_False. }
  revert Hv. unfold first_event_project.
  destruct (label_item0 (name r)) as [k|]; [|discriminate].
  destruct (has_column _ _); [|discriminate]. cbn [rows].
  destruct (filter _ enrollment) as [|first rest] eqn:Hfilter; [discriminate|].
  intros [= <-]. exists k, first.
  assert (Hfirst : first ∈ first :: rest) by left. rewrite <- Hfilter in Hfirst.
  apply list_elem_of_filter in Hfirst as [Hname [Hsurvey Hfirst]%list_elem_of_filter].
  by rewrite cell_of_set_same.
Qed.

End Cascadia.

(** * Properties of the dashboard script *)

Lemma lex_ltb_app (a a' b b' : pystr) :
  length a = length a' ->
  lex_ltb (a ++ b) (a' ++ b')
  = if bool_decide (a = a') then lex_ltb b b' else lex_ltb a a'.
Proof.
  revert a'. induction a as [|x a IH]; intros [|y a'] Hlen; try discriminate.
  - by rewrite bool_decide_eq_true_2.
  - cbn [app lex_ltb]. injection Hlen as Hlen.
    destruct (N.ltb_spec x y) as [Hxy|Hxy].
    { rewrite bool_decide_eq_false_2; [done|]. intros [= -> _]. lia. }
    destruct (N.ltb_spec y x) as [Hyx|Hyx].
    { rewrite bool_decide_eq_false_2; [done|]. intros [= -> _]. lia. }
    assert (x = y) as -> by lia. rewrite (IH a' Hlen).
    destruct (decide (a = a')) as [->|Hne].
    + by rewrite !bool_decide_eq_true_2.
    + rewrite !bool_decide_eq_false_2; [done| |done]. by intros [= ->].
Qed.

Lemma four_digits_eq y :
  (y < 10000)%N ->
  exists d3 d2 d1 d0 : N,
    four_digits y = [(48 + d3)%N; (48 + d2)%N; (48 + d1)%N; (48 + d0)%N]
    /\ (d3 < 10 /\ d2 < 10 /\ d1 < 10 /\ d0 < 10
        /\ y = 1000 * d3 + 100 * d2 + 10 * d1 + d0)%N.
Proof.
  intros Hy. exists (y / 1000 mod 10)%N, (y / 100 mod 10)%N, (y / 10 mod 10)%N, (y mod 10)%N.
  split; [reflexivity|].
  assert (H10 : (10 <> 0)%N) by discriminate.
  pose proof (N.div_mod y 10 H10).
  pose proof (N.mod_lt y 10 H10).
  pose proof (N.div_mod (y / 10) 10 H10).
  pose proof (N.mod_lt (y / 10) 10 H10).
  pose proof (N.div_mod (y / 100) 10 H10).
  pose proof (N.mod_lt (y / 100) 10 H10).
  pose proof (N.div_mod (y / 1000) 10 H10).
  pose proof (N.mod_lt (y / 1000) 10 H10).
  assert (y / 100 = y / 10 / 10)%N by (by rewrite N.Div0.div_div).
  assert (y / 1000 = y / 100 / 10)%N by (by rewrite N.Div0.div_div).
  generalize dependent (y / 1000 / 10)%N. generalize dependent ((y / 1000) mod 10)%N.
  generalize dependent (y / 100 / 10)%N. generalize dependent ((y / 100) mod 10)%N.
  generalize dependent (y / 10 / 10)%N. generalize dependent ((y / 10) mod 10)%N.
  generalize dependent (y / 1000)%N. generalize dependent (y / 100)%N.
  generalize dependent (y / 10)%N. generalize dependent (y mod 10)%N.
  intros. lia.
Qed.

Lemma two_digits_eq n :
  (n < 100)%N ->
  exists d1 d0 : N,
    two_digits n = [(48 + d1)%N; (48 + d0)%N]
    /\ (d1 < 10 /\ d0 < 10 /\ n = 10 * d1 + d0)%N.
Proof.
  intros Hn. exists ((n mod 100) / 10)%N, (n mod 10)%N. split; [reflexivity|].
  rewrite (N.mod_small n 100) by done.
  assert (H10 : (10 <> 0)%N) by discriminate.
  pose proof (N.div_mod n 10 H10).
  pose proof (N.mod_lt n 10 H10).
  generalize dependent (n / 10)%N. generalize dependent (n mod 10)%N.
  intros. lia.
Qed.

Ltac compare_digits :=
  cbn [lex_ltb];
  repeat match goal with
         | |- context [(?a <? ?b)%N] => destruct (N.ltb_spec a b)
         end; try reflexivity; lia.

Lemma four_digits_2021 y :
  (y < 10000)%N ->
  lex_ltb (py "2021") (four_digits y) = (2021 <? y)%N
  /\ bool_decide (py "2021" = four_digits y) = (y =? 2021)%N.
Proof.
  intros (d3 & d2 & d1 & d0 & -> & H3 & H2 & H1 & H0 & ->)%four_digits_eq.
  change (py "2021") with [(48 + 2)%N; (48 + 0)%N; (48 + 2)%N; (48 + 1)%N].
  split; [compare_digits|].
  destruct (N.eqb_spec (1000 * d3 + 100 * d2 + 10 * d1 + d0) 2021).
  - apply bool_decide_eq_true. repeat f_equal; lia.
  - apply bool_decide_eq_false. intros [= ? ? ? ?]. lia.
Qed.

Lemma two_digits_cmp (a1 a0 n : N) :
  (a1 < 10)%N -> (a0 < 10)%N -> (n < 100)%N ->
  lex_ltb [(48 + a1)%N; (48 + a0)%N] (two_digits n) = (10 * a1 + a0 <? n)%N
  /\ bool_decide ([(48 + a1)%N; (48 + a0)%N] = two_digits n) = (n =? 10 * a1 + a0)%N.
Proof.
  intros Ha1 Ha0 (d1 & d0 & -> & H1 & H0 & ->)%two_digits_eq.
  split; [compare_digits|].
  destruct (N.eqb_spec (10 * d1 + d0) (10 * a1 + a0)).
  - apply bool_decide_eq_true. repeat f_equal; lia.
  - apply bool_decide_eq_false. intros [= ? ?]. lia.
Qed.

(** On dates written YYYY-MM-DD the comparison of the strings is the
    comparison of the days. *)
Lemma gt_str_iso_date y m d :
  (y < 10000)%N -> (m < 100)%N -> (d < 100)%N ->
  gt_str (Str (iso_date y m d)) "2021-09-16" = Ok (after_2021_09_16 y m d).
Proof.
  intros Hy Hm Hd. unfold gt_str, iso_date, after_2021_09_16. f_equal.
  change (py "2021-09-16") with (py "2021" ++ py "-" ++ py "09" ++ py "-" ++ py "16").
  destruct (four_digits_2021 y Hy) as [Hy1 Hy2].
  destruct (two_digits_cmp 0 9 m) as [Hm1 Hm2]; [lia|lia|done|].
  destruct (two_digits_cmp 1 6 d) as [Hd1 Hd2]; [lia|lia|done|].
  change [(48 + 0)%N; (48 + 9)%N] with (py "09") in Hm1, Hm2.
  change [(48 + 1)%N; (48 + 6)%N] with (py "16") in Hd1, Hd2.
  change (10 * 0 + 9)%N with 9%N in Hm1, Hm2.
  change (10 * 1 + 6)%N with 16%N in Hd1, Hd2.
  rewrite lex_ltb_app, Hy1, Hy2 by done.
  rewrite (lex_ltb_app (py "-") (py "-")) by done.
  rewrite bool_decide_eq_true_2 by done.
  rewrite lex_ltb_app, Hm1, Hm2 by done.
  rewrite (lex_ltb_app (py "-") (py "-")) by done.
  rewrite bool_decide_eq_true_2 by done.
  rewrite <- (app_nil_r (py "16")), <- (app_nil_r (two_digits d)).
  rewrite lex_ltb_app, Hd1, Hd2 by done. cbn [lex_ltb].
  destruct (N.ltb_spec 2021 y), (N.eqb_spec y 2021), (N.ltb_spec 9 m), (N.eqb_spec m 9),
    (N.ltb_spec 16 d), (N.eqb_spec d 16); try lia; reflexivity.
Qed.

Lemma mapM_Ok_iff {A B} (f : A -> result B) (l : list A) :
  (exists k, mapM f l = Ok k) <-> Forall (fun x => exists y, f x = Ok y) l.
Proof.
  induction l as [|x l IH]; cbn [mapM].
  - split; [constructor|eauto].
  - rewrite Forall_cons, <- IH. split.
    + intros [k Hk]. destruct (f x) as [y|]; [|discriminate].
      destruct (mapM f l) as [ys|]; [|discriminate]. eauto.
    + intros [[y ->] [ys ->]]. eauto.
Qed.

Lemma filter_pierce_Ok data zipcode_county_map out :
  filter_pierce data zipcode_county_map = Ok out ->
  exists pierce,
    zipcode_county_map !! "SCAN PIERCE" = Some pierce
    /\ "home_zipcode_2" ∈ columns data
    /\ "illness_q_date" ∈ columns data
    /\ Forall (fun r => isin (cell_of r "home_zipcode_2") pierce = true ->
                        exists b, gt_str (cell_of r "illness_q_date") "2021-09-16" = Ok b)
              (rows data)
    /\ columns out = columns data
    /\ rows out
       = filter (fun r => after_cutoff r = true)
           (filter (fun r => isin (cell_of r "home_zipcode_2") pierce = true) (rows data)).
Proof.
  unfold filter_pierce.
  destruct (values data "home_zipcode_2") as [zipcodes|] eqn:Hzip; [|discriminate].
  destruct (zipcode_county_map !! "SCAN PIERCE") as [pierce|]; [|discriminate].
  destruct (values _ "illness_q_date") as [dates|] eqn:Hdates; [|discriminate].
  destruct (mapM _ dates) as [after|] eqn:Hafter; [|discriminate].
  intros [= <-]. exists pierce.
  apply values_Ok_inv in Hzip as [Hc1 _]. apply values_Ok_inv in Hdates as [Hc2 ->].
  split; [done|]. split; [done|]. split; [done|]. split; [|done].
  assert (Hall : exists k, mapM (fun v => gt_str v "2021-09-16")
                             (map (fun r => cell_of r "illness_q_date")
                                (filter (fun r => isin (cell_of r "home_zipcode_2") pierce = true)
                                   (rows data))) = Ok k) by eauto.
  apply mapM_Ok_iff in Hall. rewrite Forall_forall in Hall.
  apply Forall_forall. intros r Hr Hin. apply Hall.
  apply list_elem_of_fmap. exists r. split; [done|]. by apply list_elem_of_filter.
Qed.

(** X14. Zipcode 98092 and the day it joined Pierce county: a record
    under 98092 whose date is written YYYY-MM-DD stays exactly when the
    Pierce list has 98092 and the day comes after 16 September 2021;
    the comparison of the strings is that of the days. *)
Theorem filter_pierce_cutoff data zipcode_county_map pierce out r y m d :
  zipcode_county_map !! "SCAN PIERCE" = Some pierce ->
  filter_pierce data zipcode_county_map = Ok out ->
  r ∈ rows data ->
  cell_of r "home_zipcode_2" = Str (py "98092") ->
  cell_of r "illness_q_date" = Str (iso_date y m d) ->
  (y < 10000)%N -> (m < 100)%N -> (d < 100)%N ->
  r ∈ rows out <-> py "98092" ∈ pierce /\ after_2021_09_16 y m d = true.
Proof.
  intros Hpierce (pierce' & Hpierce' & _ & _ & _ & _ & ->)%filter_pierce_Ok Hr Hzip Hdate Hy Hm Hd.
  rewrite Hpierce in Hpierce'. injection Hpierce' as <-.
  rewrite !list_elem_of_filter. unfold after_cutoff, isin, ne_str, eq_str.
  rewrite Hzip, Hdate, gt_str_iso_date by done.
  rewrite bool_decide_eq_true_2 by done. cbn [andb negb orb].
  rewrite orb_false_r, bool_decide_eq_true. tauto.
Qed.

(** X15. The rows that stay have a zipcode of the Pierce list; under
    another zipcode than 98092 every record with a zipcode of the list
    stays, whatever its date. *)
Theorem filter_pierce_zipcodes data zipcode_county_map pierce out :
  zipcode_county_map !! "SCAN PIERCE" = Some pierce ->
  filter_pierce data zipcode_county_map = Ok out ->
  Forall (fun r => exists z, cell_of r "home_zipcode_2" = Str z /\ z ∈ pierce) (rows out)
  /\ forall r z, r ∈ rows data ->
                 cell_of r "home_zipcode_2" = Str z -> z <> py "98092" ->
                 r ∈ rows out <-> z ∈ pierce.
Proof.
  intros Hpierce (pierce' & Hpierce' & _ & _ & _ & _ & ->)%filter_pierce_Ok.
  rewrite Hpierce in Hpierce'. injection Hpierce' as <-. split.
  - apply Forall_forall. intros r [_ [Hin _]%list_elem_of_filter]%list_elem_of_filter.
    unfold isin in Hin. destruct (cell_of r "home_zipcode_2") as [| |z| |]; try discriminate.
    exists z. split; [done|]. by apply bool_decide_eq_true in Hin.
  - intros r z Hr Hzip Hz. rewrite !list_elem_of_filter.
    unfold after_cutoff, isin, ne_str, eq_str. rewrite Hzip.
    rewrite (bool_decide_eq_false_2 (Str z = Str (py "98092"))) by congruence.
    cbn [andb negb orb]. rewrite bool_decide_eq_true. tauto.
Qed.

Lemma filter_all {A} (P : A -> Prop) `{!forall x, Decision (P x)} (l : list A) :
  Forall P l -> filter P l = l.
Proof.
  induction 1 as [|x l Hx Hl IH]; [done|].
  by rewrite filter_cons, decide_True, IH.
Qed.

(** X16. The filter is idempotent: on its own output it returns that
    output. *)
Theorem filter_pierce_idempotent data zipcode_county_map out :
  filter_pierce data zipcode_county_map = Ok out ->
  filter_pierce out zipcode_county_map = Ok out.
Proof.
  intros (pierce & Hpierce & Hc1 & Hc2 & Hdates & Hcols & Hrows)%filter_pierce_Ok.
  assert (Hin : Forall (fun r => isin (cell_of r "home_zipcode_2") pierce = true) (rows out)).
  { rewrite Hrows. apply Forall_forall.
    by intros r [_ [? _]%list_elem_of_filter]%list_elem_of_filter. }
  assert (Hafter : Forall (fun r => after_cutoff r = true) (rows out)).
  { rewrite Hrows. apply Forall_forall. by intros r [? _]%list_elem_of_filter. }
  unfold filter_pierce. rewrite Hpierce.
  rewrite values_Ok by (by rewrite Hcols). rewrite (filter_all _ _ Hin).
  rewrite values_Ok by (cbn [columns]; by rewrite Hcols).
  cbn [rows columns].
  destruct (proj2 (mapM_Ok_iff (fun v => gt_str v "2021-09-16")
                     (map (fun r => cell_of r "illness_q_date") (rows out)))) as [k ->].
  { apply Forall_forall. intros v (r & -> & Hr)%list_elem_of_fmap.
    rewrite Forall_forall in Hdates, Hin. apply Hdates; [|by apply Hin].
    rewrite Hrows in Hr.
    by apply list_elem_of_filter in Hr as [_ [_ ?]%list_elem_of_filter]. }
  rewrite (filter_all _ _ Hafter). by destruct out.
Qed.

(** X17. The label of an age from 20 to 79 names the ten years the age
    falls in: the age without its last digit, followed by 0, to the
    same followed by 9. *)
Theorem get_age_bucket_decade age :
  20 <= age < 80 ->
  get_age_bucket age = decade_label (age / 10 * 10).
Proof.
  intros Hage. unfold get_age_bucket.
  assert (Hq : age / 10 = 2 \/ age / 10 = 3 \/ age / 10 = 4
               \/ age / 10 = 5 \/ age / 10 = 6 \/ age / 10 = 7).
  { assert (2 <= age / 10 < 8); [|lia].
    split; [apply Z.div_le_lower_bound|apply Z.div_lt_upper_bound]; lia. }
  pose proof (Z.div_mod age 10 ltac:(lia)) as Hdiv.
  pose proof (Z.mod_pos_bound age 10 ltac:(lia)) as Hmod.
  destruct Hq as [Hq|[Hq|[Hq|[Hq|[Hq|Hq]]]]]; rewrite Hq;
    repeat match goal with
           | |- context [?k <=? age] => destruct (Z.leb_spec k age); try lia
           end;
    vm_compute; reflexivity.
Qed.

Lemma filled_below (l : list pystr) k :
  (forall j s, (k <= j)%nat -> l !! j = Some s -> s = []) ->
  (length (filter (fun s : pystr => s <> []) l) <= k)%nat.
Proof.
  revert k. induction l as [|x l IH]; intros k Hfree; [cbn; lia|].
  rewrite filter_cons. destruct k as [|k].
  - rewrite decide_False by (intros Hx; apply Hx, (Hfree 0%nat); [lia|done]).
    apply IH. intros j s _ Hs. apply (Hfree (S j)); [lia|done].
  - assert (length (filter (fun s : pystr => s <> []) l) <= k)%nat.
    { apply IH. intros j s Hj Hs. apply (Hfree (S j)); [lia|done]. }
    destruct (decide (x <> [])); cbn [length]; lia.
Qed.

(** X18. The row that [next_available_row] returns is free, and every
    row below it, exactly when no empty cell of the column stands above
    a cell that is not empty. *)
Theorem next_available_row_free (col_values : list pystr) :
  (forall j s, (next_available_row col_values - 1 <= j)%nat ->
               col_values !! j = Some s -> s = [])
  <-> (forall i j s t, (i < j)%nat ->
                       col_values !! i = Some s -> col_values !! j = Some t ->
                       t <> [] -> s <> []).
Proof.
  unfold next_available_row.
  replace (length (filter (fun s => s <> []) col_values) + 1 - 1)%nat
    with (length (filter (fun s : pystr => s <> []) col_values)) by lia.
  induction col_values as [|x l IH].
  { split; [intros _ i j s t _ Hs|intros _ j s _ Hs]; by rewrite lookup_nil in Hs. }
  rewrite filter_cons. destruct (decide (x <> [])) as [Hx|Hx].
  - cbn [length]. split.
    + intros Hfree [|i] [|j] s t Hij; cbn [lookup list_lookup]; try lia.
      * by intros [= <-].
      * apply (proj1 IH); [|lia].
        intros j' s' Hj' Hs'. apply (Hfree (S j')); [lia|done].
    + intros Hgap [|j] s Hj; [lia|]. cbn [lookup list_lookup].
      apply (proj2 IH); [|lia].
      intros i' j' s' t' Hij Hs' Ht'. apply (Hgap (S i') (S j')); [lia|done..].
  - assert (x = []) as -> by (destruct x; [done|exfalso; by apply Hx]). split.
    + intros Hfree i j s t Hij Hs Ht Hnonempty. exfalso.
      assert (Hcount : length (filter (fun s : pystr => s <> []) l) = 0%nat).
      { destruct (length (filter (fun s : pystr => s <> []) l)) as [|c] eqn:Hc; [done|].
        assert (length (filter (fun s : pystr => s <> []) l) <= c)%nat; [|lia].
        apply filled_below. intros j' s' Hj' Hs'. apply (Hfree (S j')); [lia|done]. }
      destruct j as [|j]; [lia|]. cbn [lookup list_lookup] in Ht.
      assert (Hin : t ∈ filter (fun s : pystr => s <> []) l).
      { apply list_elem_of_filter. split; [done|]. by eapply list_elem_of_lookup_2. }
      destruct (filter _ l); [by apply elem_of_nil in Hin|discriminate].
    + intros Hgap j s Hj Hs. destruct j as [|j]; [by injection Hs as <-|].
      cbn [lookup list_lookup] in Hs.
      destruct (decide (s = [])) as [|Hne]; [done|]. exfalso.
      by apply (Hgap 0%nat (S j) [] s ltac:(lia) eq_refl Hs Hne).
Qed.

(** * Scenarios *)

Ltac in_columns := apply list_elem_of_In; simpl; tauto.

(** The resupply request of 45 kits of the specification: three lines of
    5, 20 and 20 kits under three identifiers. *)
Lemma append_order_split_lines_witness :
  exists orders' address' log lines,
    append_order ex_isalpha ex_now ex_sheet_today ex_house 1 45 ex_address
    = Ok ((orders', address'), log)
    /\ map (fun r => cell_of r "Quantity") (appended ex_sheet_today orders')
       = map (fun line => Int (fst line)) lines
    /\ map (fun r => cell_of r "OrderID") (appended ex_sheet_today orders')
       = map (fun line => Str (snd line)) lines
    /\ map fst lines = [5; 20; 20]
    /\ NoDup (map snd lines).
Proof.
  destruct (append_order_split_lines ex_isalpha ex_now ex_sheet_today ex_house 1 45 ex_address
              (mkrow (Multi ex_house (KStr (py "0_arm_1")))
                 [("Street Address", Str (py "1 Main St")); ("City", Str (py "Seattle"));
                  ("State", Str (py "WA"))])
              ex_house [Str ex_order_id] [Int 1])
    as (orders' & address' & log & lines & Hrun & Hq & Hid & _ & _ & _ & H45 & Hnd & _).
  - reflexivity.
  - repeat split; in_columns.
  - intros [Hstreet _]. vm_compute in Hstreet. discriminate.
  - reflexivity.
  - vm_compute. reflexivity.
  - vm_compute. reflexivity.
  - exists orders', address', log, lines.
    split; [exact Hrun|]. split; [exact Hq|]. split; [exact Hid|].
    split; [by apply H45|exact Hnd].
Defined.

(** A bundle without street, city and state: the sheet comes back as it
    was. *)
Lemma append_order_no_address_witness :
  append_order ex_isalpha ex_now ex_sheet_today ex_house 1 45 ex_address_missing
  = Ok ((ex_sheet_today, ex_address_missing), [(WARNING, NoValidAddress ex_house)]).
Proof.
  apply append_order_no_address.
  - discriminate.
  - repeat split; in_columns.
  - constructor; [|constructor]. vm_compute. auto.
Defined.

Lemma append_order_keeps_lines_witness :
  exists orders' address' log,
    append_order ex_isalpha ex_now ex_sheet_today ex_house 1 45 ex_address
    = Ok ((orders', address'), log)
    /\ kept ex_sheet_today orders'.
Proof.
  destruct (append_order ex_isalpha ex_now ex_sheet_today ex_house 1 45 ex_address)
    as [[[orders' address'] log]|e] eqn:Hrun.
  - exists orders', address', log. split; [reflexivity|].
    exact (proj1 (append_order_keeps_lines _ _ _ _ _ _ _ _ _ _ Hrun)).
  - exfalso. vm_compute in Hrun. discriminate.
Defined.

(** C10, counterexample. The sheet has a column, Carrier, that the
    address bundle lacks: after the call the column is gone, and the
    line that was in the sheet no longer has its value. *)
Lemma append_order_drops_column :
  exists orders' address' log r r',
    append_order ex_isalpha ex_now ex_sheet_carrier ex_house 1 45 ex_address
    = Ok ((orders', address'), log)
    /\ rows ex_sheet_carrier !! O = Some r
    /\ rows orders' !! O = Some r'
    /\ cell_of r "Carrier" = Str (py "UPS")
    /\ cell_of r' "Carrier" = NaN
    /\ has_column ex_sheet_carrier "Carrier" = true
    /\ has_column orders' "Carrier" = false.
Proof.
  eexists _, _, _, _, _. split; [vm_compute; reflexivity|].
  repeat split; vm_compute; reflexivity.
Qed.

(** Three calls in a row for household 12 on 4 November 2026, on a sheet
    that holds 26110412. *)
Lemma generate_order_number_unique_witness :
  (exists order_id,
     generate_order_number ex_isalpha ex_now ex_address ex_sheet_today
     = Ok (order_id, [(DEBUG, GeneratedOrderId order_id)])
     /\ (Str order_id ∉ [Str ex_order_id]))
  /\ successive_order_numbers ex_isalpha 3 ex_order_id [Str ex_order_id]
     = Ok [py "26110412a"; py "26110412b"; py "26110412c"].
Proof.
  destruct (generate_order_number_unique ex_isalpha ex_now ex_address ex_sheet_today
              (mkrow (Multi ex_house (KStr (py "0_arm_1")))
                 [("Street Address", Str (py "1 Main St")); ("City", Str (py "Seattle"));
                  ("State", Str (py "WA"))])
              ex_house [Str ex_order_id] 50%N 3)
    as ((order_id & Hgen & Hfresh & _) & _ & _ & Hletters).
  - reflexivity.
  - reflexivity.
  - vm_compute. reflexivity.
  - split; [by exists order_id|].
    apply Hletters.
    + reflexivity.
    + reflexivity.
    + apply list_elem_of_singleton. reflexivity.
    + intros x Hin. apply list_elem_of_singleton in Hin. vm_compute in Hin. discriminate.
    + lia.
Defined.

(** C2, counterexample. On a sheet that holds 26110412, the 27th call in
    a row returns 26110412 followed by an opening brace, which is no
    letter; and for a household key that ends in a letter, 7B, the call
    after 2611047B returns 2611047C, not 2611047Ba. *)
Lemma generate_order_number_not_lettered :
  successive_order_numbers ex_isalpha 27 ex_order_id [Str ex_order_id]
  = Ok (suffixed ex_order_id 26 ++ [ex_order_id ++ py "{"])
  /\ isalpha ex_isalpha 123 = false
  /\ base_order_id ex_now ex_address_letter = Ok (py "2611047B")
  /\ values ex_sheet_letter "OrderID" = Ok [Str (py "2611047B")]
  /\ generate_order_number ex_isalpha ex_now ex_address_letter ex_sheet_letter
     = Ok (py "2611047C", [(DEBUG, GeneratedOrderId (py "2611047C"))]).
Proof. repeat split; vm_compute; reflexivity. Qed.

(** C3. The most recent survey address of household 12 was filed by the
    second participant.  The resolver takes the address from the
    survey, but the last name, email, phone and delivery instructions
    come out missing, although the enrollment record of the head of
    household has them: the assignment of a Series is aligned on the
    index, and the survey row is labelled 1_arm_1, the enrollment record
    0_arm_1. *)
Theorem get_household_address_loses_contact :
  exists address log r,
    get_household_address ex_int_of_str ex_to_datetime64 ex_export_cols
      ex_records_moved ex_house = Ok (address, log)
    /\ rows address = [r]
    /\ cell_of r "Street Address" = Str (py "9 Oak Ave")
    /\ cell_of r "Pref First Name" = Str (py "Ann")
    /\ cell_of ex_head "Last Name" = Str (py "Doe")
    /\ cell_of r "Last Name" = NaN
    /\ cell_of ex_head "Email" = Str (py "ann@example.org")
    /\ cell_of r "Email" = NaN
    /\ cell_of ex_head "Phone" = Str (py "555-0100")
    /\ cell_of r "Phone" = NaN
    /\ cell_of ex_head "Delivery Instructions" = Str (py "Side door")
    /\ cell_of r "Delivery Instructions" = NaN.
Proof.
  eexists _, _, _. split; [vm_compute; reflexivity|].
  repeat split; vm_compute; reflexivity.
Qed.

(** C4. A symptom survey without tracking number, with the swab trigger
    and an order date, but with both pickup fields missing, is selected:
    [any] applied to a frame tests its column labels, so the pickup test
    of the row mask is always true. *)
Theorem filter_cascadia_orders_selects_without_pickup :
  exists out log r,
    filter_cascadia_orders ex_use_best_address (ex_snapshot [ex_no_pickup]) = Ok (out, log)
    /\ rows out = [r]
    /\ name r = name ex_no_pickup
    /\ cell_of ex_no_pickup "Pickup 1" = NaN
    /\ cell_of ex_no_pickup "Pickup 2" = NaN
    /\ cell_of r "Pickup 1" = NaN
    /\ cell_of r "Pickup 2" = NaN
    /\ select_orders (ex_snapshot [ex_no_pickup]) = Ok (DF ex_record_columns [ex_no_pickup])
    /\ py_any (select_columns (ex_snapshot [ex_no_pickup]) ["Pickup 1"; "Pickup 2"]) = true.
Proof.
  eexists _, _, _. split; [vm_compute; reflexivity|].
  repeat split; vm_compute; reflexivity.
Qed.

(** The swab flag beside an enrollment record, which has none: the
    column holds a missing value, so the flags count by their truth
    value.  The flags 2 and No select their rows, the flag 0 does
    not. *)
Lemma select_orders_swab_flag :
  select_orders (ex_snapshot [ex_flag (Int 2)])
  = Ok (DF ex_record_columns [ex_flag (Int 2)])
  /\ select_orders (ex_snapshot [ex_flag (Str (py "No"))])
     = Ok (DF ex_record_columns [ex_flag (Str (py "No"))])
  /\ select_orders (ex_snapshot [ex_flag (Int 0)]) = Ok (DF ex_record_columns []).
Proof. repeat split; vm_compute; reflexivity. Qed.



Lemma get_head_of_household_first_witness :
  loc_level0 ex_records ex_house = Ok ex_household
  /\ get_head_of_household ex_int_of_str ex_household ex_house
     = Ok (0, [(DEBUG, FoundHeadOfHousehold 0 ex_house)]).
Proof.
  split; [reflexivity|].
  rewrite (get_head_of_household_first ex_int_of_str ex_records ex_house ex_household
             [Int 0; NaN]); [reflexivity|reflexivity|].
  vm_compute. reflexivity.
Defined.

Lemma get_household_address_enrollment_witness :
  exists address log r,
    get_household_address ex_int_of_str ex_to_datetime64 ex_export_cols ex_records ex_house
    = Ok (address, log)
    /\ rows address = [r]
    /\ columns address = filter (fun c => c ∈ ex_export_cols) ex_record_columns.
Proof.
  destruct (get_household_address ex_int_of_str ex_to_datetime64 ex_export_cols
              ex_records ex_house) as [[address log]|e] eqn:Hrun.
  - destruct (get_household_address_enrollment ex_int_of_str ex_to_datetime64 ex_export_cols
                ex_records ex_house ex_household address log)
      as (idx & l & e & r & _ & _ & Hrows & _ & Hcols & _).
    + reflexivity.
    + repeat constructor; vm_compute; discriminate.
    + exact Hrun.
    + by exists address, log, r.
  - exfalso. vm_compute in Hrun. discriminate.
Defined.

(** C8, counterexample. Household 12 has no survey address, and the
    enrollment record of its head has no zipcode and no preferred first
    name: the resolver returns the empty string as zipcode, and the
    legal first name as preferred first name. *)
Lemma get_household_address_changes_fields :
  exists address log r,
    get_household_address ex_int_of_str ex_to_datetime64 ex_export_cols ex_records ex_house
    = Ok (address, log)
    /\ rows address = [r]
    /\ cell_of ex_head "Zipcode" = NaN
    /\ cell_of r "Zipcode" = Str (py "")
    /\ cell_of ex_head "Pref First Name" = NaN
    /\ cell_of r "Pref First Name" = Str (py "Ann")
    /\ has_column address "Zipcode" = true
    /\ has_column address "Pref First Name" = true.
Proof.
  eexists _, _, _. split; [vm_compute; reflexivity|].
  repeat split; vm_compute; reflexivity.
Qed.

Lemma project_labels_agree_up_to_case_witness :
  sublocation (Int 2) = Str (py "CASCADIA_SEA")
  /\ address_project_name [Int 2] = Ok (Str (py "Cascadia_SEA"))
  /\ sublocation (Int 1) = Str (py "CASCADIA_PDX")
  /\ address_project_name [Int 1] = Ok (Str (py "Cascadia_PDX")).
Proof.
  destruct (project_labels_agree_up_to_case (ex_snapshot []) [Int 2] (Int 2))
    as (_ & Hsea & Hsea' & _); [vm_compute; reflexivity|].
  destruct (project_labels_agree_up_to_case (ex_snapshot []) [Int 2] (Int 1))
    as (_ & Hpdx & Hpdx' & _); [vm_compute; reflexivity|].
  repeat split; assumption.
Defined.

(** C9, counterexample. For the raw code 2 the resolver writes
    Cascadia_SEA and the filter CASCADIA_SEA: two different labels. *)
Lemma project_labels_differ :
  address_project_name [Int 2] = Ok (Str (py "Cascadia_SEA"))
  /\ sublocation (Int 2) = Str (py "CASCADIA_SEA")
  /\ Str (py "Cascadia_SEA") <> Str (py "CASCADIA_SEA")
  /\ address_project_name [Int 1] = Ok (Str (py "Cascadia_PDX"))
  /\ sublocation (Int 1) = Str (py "CASCADIA_PDX")
  /\ Str (py "Cascadia_PDX") <> Str (py "CASCADIA_PDX").
Proof. repeat split; vm_compute; (reflexivity || discriminate). Qed.

(** ** Scenarios for the further properties *)

Lemma append_order_ids_distinct_witness :
  exists orders' address' log new_ids,
    append_order ex_isalpha ex_now ex_sheet_today ex_house 1 45 ex_address
    = Ok ((orders', address'), log)
    /\ values orders' "OrderID" = Ok ([Str ex_order_id] ++ new_ids)
    /\ NoDup ([Str ex_order_id] ++ new_ids).
Proof.
  destruct (append_order ex_isalpha ex_now ex_sheet_today ex_house 1 45 ex_address)
    as [[[orders' address'] log]|e] eqn:Hrun.
  - destruct (append_order_ids_distinct ex_isalpha ex_now ex_sheet_today ex_house 1 45
                ex_address _ [Str ex_order_id] orders' address' log eq_refl)
      as (new_ids & Hids & Hnd); [vm_compute; reflexivity|apply NoDup_singleton|exact Hrun|].
    exists orders', address', log, new_ids. split; [reflexivity|]. by split.
  - exfalso. vm_compute in Hrun. discriminate.
Defined.

Lemma append_order_stamps_address_witness :
  exists orders' address' log order_id,
    append_order ex_isalpha ex_now ex_sheet_today ex_house 1 45 ex_address
    = Ok ((orders', address'), log)
    /\ (Str order_id ∉ [Str ex_order_id])
    /\ address' = stamped ex_address ex_house 1 (last_quantity 1 45) order_id.
Proof.
  destruct (append_order ex_isalpha ex_now ex_sheet_today ex_house 1 45 ex_address)
    as [[[orders' address'] log]|e] eqn:Hrun.
  - destruct (append_order_stamps_address ex_isalpha ex_now ex_sheet_today ex_house 1 45
                ex_address [Str ex_order_id] orders' address' log)
      as (order_id & Hfresh & Haddress & _);
      [vm_compute; reflexivity|vm_compute; reflexivity|exact Hrun|].
    exists orders', address', log, order_id. split; [reflexivity|]. by split.
  - exfalso. vm_compute in Hrun. discriminate.
Defined.

Lemma append_order_line_count_witness :
  exists orders' address' log,
    append_order ex_isalpha ex_now ex_sheet_today ex_house 1 45 ex_address
    = Ok ((orders', address'), log)
    /\ length (rows orders') = (length (rows ex_sheet_today) + line_count 1 45)%nat
    /\ line_count 1 45 = 3%nat.
Proof.
  destruct (append_order ex_isalpha ex_now ex_sheet_today ex_house 1 45 ex_address)
    as [[[orders' address'] log]|e] eqn:Hrun.
  - exists orders', address', log. split; [reflexivity|]. split; [|reflexivity].
    apply (append_order_line_count ex_isalpha ex_now ex_sheet_today ex_house 1 45
             ex_address _ orders' address' log eq_refl);
      [vm_compute; reflexivity|exact Hrun].
  - exfalso. vm_compute in Hrun. discriminate.
Defined.

Lemma append_order_needs_order_ids_witness :
  append_order ex_isalpha ex_now (DF ["SKU"; "Quantity"] []) ex_house 1 45 ex_address
  = Raise KeyError.
Proof.
  apply (append_order_needs_order_ids ex_isalpha ex_now _ _ _ _ _ ex_order_id);
    vm_compute; reflexivity.
Defined.

Lemma generate_order_number_prefix_witness :
  strftime_ymd ex_now `prefix_of` py "26110412a"
  /\ (strftime_ymd ex_now ++ removelast (format_key ex_house)) `prefix_of` py "26110412a"
  /\ (forall c, last (strftime_ymd ex_now ++ format_key ex_house) = Some c ->
                isalpha ex_isalpha c = false ->
                (strftime_ymd ex_now ++ format_key ex_house) `prefix_of` py "26110412a").
Proof.
  eapply (generate_order_number_prefix ex_isalpha ex_now ex_address ex_sheet_today);
    [reflexivity | reflexivity | vm_compute; reflexivity].
Defined.

Lemma get_most_recent_address_latest_witness :
  exists a log r,
    get_most_recent_address ex_to_datetime64 ex_household_surveys ex_house = Ok (Some a, log)
    /\ rows a = [r]
    /\ name r = name ex_survey_later.
Proof.
  destruct (get_most_recent_address ex_to_datetime64 ex_household_surveys ex_house)
    as [[[a|] log]|e] eqn:Hrun.
  - destruct (get_most_recent_address_latest ex_to_datetime64 _ _ _ _ Hrun)
      as (r0 & t & r & Hr0 & Hsurvey & _ & Ht & Hlatest & Hrows & Hname & _).
    exists a, log, r. split; [reflexivity|]. split; [exact Hrows|].
    rewrite Hname.
    assert (Hlater : later (Some 9) t = false).
    { apply (Hlatest ex_survey_later); [|reflexivity|reflexivity|reflexivity].
      apply list_elem_of_In. simpl. tauto. }
    apply list_elem_of_In in Hr0. simpl in Hr0.
    destruct Hr0 as [<-|[<-|[<-|[<-|[]]]]];
      try (vm_compute in Hsurvey; discriminate); [|reflexivity].
    vm_compute in Ht. injection Ht as <-. vm_compute in Hlater. discriminate.
  - exfalso. vm_compute in Hrun. discriminate.
  - exfalso. vm_compute in Hrun. discriminate.
Defined.

Lemma get_most_recent_address_none_iff_witness :
  exists log,
    get_most_recent_address ex_to_datetime64 ex_household ex_house = Ok (None, log)
    /\ no_survey_address ex_household.
Proof.
  destruct (get_most_recent_address ex_to_datetime64 ex_household ex_house)
    as [[[a|] log]|e] eqn:Hrun.
  - exfalso. vm_compute in Hrun. discriminate.
  - exists log. split; [reflexivity|].
    by apply (get_most_recent_address_none_iff ex_to_datetime64 _ _ _ _ Hrun).
  - exfalso. vm_compute in Hrun. discriminate.
Defined.

Lemma get_household_address_survey_witness :
  exists address log r,
    get_household_address ex_int_of_str ex_to_datetime64 ex_export_cols
      ex_records_moved ex_house = Ok (address, log)
    /\ rows address = [r]
    /\ name r = Flat (KStr (py "1_arm_1")).
Proof.
  destruct (get_household_address ex_int_of_str ex_to_datetime64 ex_export_cols
              ex_records_moved ex_house) as [[address log]|e] eqn:Hrun;
    [|exfalso; vm_compute in Hrun; discriminate].
  destruct (get_most_recent_address ex_to_datetime64 ex_household_moved ex_house)
    as [[[a|] l0]|e] eqn:Hrecent;
    [|exfalso; vm_compute in Hrecent; discriminate..].
  destruct (get_household_address_survey ex_int_of_str ex_to_datetime64 ex_export_cols
              ex_records_moved ex_house ex_household_moved a l0 address log
              eq_refl Hrecent Hrun)
    as (idx & l & e & s & r & _ & _ & Hs & Hr & Hname & _).
  exists address, log, r. split; [reflexivity|]. split; [exact Hr|].
  rewrite Hname. vm_compute in Hrecent. injection Hrecent as <- _.
  by injection Hs as <-.
Defined.

Lemma filter_cascadia_orders_fields_witness :
  exists out log,
    filter_cascadia_orders ex_use_best_address
      (ex_snapshot [ex_pickup_first; ex_pickup_second]) = Ok (out, log)
    /\ Forall (fun r => cell_of r "Notification Pref" = Str (py "email")) (rows out).
Proof.
  destruct (filter_cascadia_orders ex_use_best_address
              (ex_snapshot [ex_pickup_first; ex_pickup_second]))
    as [[out log]|e] eqn:Hrun; [|exfalso; vm_compute in Hrun; discriminate].
  exists out, log. split; [reflexivity|].
  eapply Forall_impl;
    [exact (proj2 (filter_cascadia_orders_fields ex_use_best_address _ _ _ Hrun))|].
  by intros r [Hemail _].
Defined.

Lemma assign_cascadia_location_twice_witness :
  exists once log1 twice log2,
    assign_cascadia_location ex_records = Ok (once, log1)
    /\ assign_cascadia_location once = Ok (twice, log2)
    /\ Forall (fun r => cell_of r "Project Name" = Str (py "CASCADIA_PDX")) (rows twice).
Proof.
  destruct (assign_cascadia_location ex_records) as [[once log1]|e] eqn:Hone;
    [|exfalso; vm_compute in Hone; discriminate].
  destruct (assign_cascadia_location once) as [[twice log2]|e] eqn:Htwo.
  - exists once, log1, twice, log2. split; [reflexivity|]. split; [exact Htwo|].
    exact (proj2 (assign_cascadia_location_twice _ _ _ _ _ Hone Htwo)).
  - exfalso. vm_compute in Hone. injection Hone as <- _.
    vm_compute in Htwo. discriminate.
Defined.

Lemma filter_cascadia_orders_no_first_event_witness :
  filter_cascadia_orders ex_use_best_address ex_no_first_event = Raise IndexError.
Proof.
  apply (filter_cascadia_orders_no_first_event ex_use_best_address ex_no_first_event
           ex_second ex_house (KStr (py "1_arm_1"))).
  - in_columns.
  - in_columns.
  - repeat constructor. intros _. by eexists _, _.
  - vm_compute. apply NoDup_singleton.
  - apply list_elem_of_singleton. reflexivity.
  - vm_compute. reflexivity.
  - reflexivity.
  - intros r ->%list_elem_of_singleton _. discriminate.
Defined.

(** ** Scenarios for the dashboard script *)

Lemma filter_pierce_cutoff_witness :
  exists out,
    filter_pierce ex_data ex_zipcode_county_map = Ok out
    /\ ex_enrollment 1 "98092" "2021-10-01" ∈ rows out
    /\ ex_enrollment 0 "98092" "2021-03-02" ∉ rows out.
Proof.
  destruct (filter_pierce ex_data ex_zipcode_county_map) as [out|e] eqn:Hrun;
    [|exfalso; vm_compute in Hrun; discriminate].
  exists out. split; [reflexivity|]. split.
  - apply (filter_pierce_cutoff ex_data ex_zipcode_county_map [py "98092"; py "98402"]
             out _ 2021 10 1); try (vm_compute; reflexivity); try lia.
    + exact Hrun.
    + apply list_elem_of_In. simpl. tauto.
    + split; [left|reflexivity].
  - intros Hin.
    apply (filter_pierce_cutoff ex_data ex_zipcode_county_map [py "98092"; py "98402"]
             out _ 2021 3 2) in Hin as [_ Hafter];
      try (vm_compute; reflexivity); try lia; [discriminate|exact Hrun|].
    apply list_elem_of_In. simpl. tauto.
Defined.

Lemma filter_pierce_zipcodes_witness :
  exists out,
    filter_pierce ex_data ex_zipcode_county_map = Ok out
    /\ ex_enrollment 2 "98402" "2020-12-24" ∈ rows out
    /\ ex_enrollment 3 "98101" "2021-11-05" ∉ rows out.
Proof.
  destruct (filter_pierce ex_data ex_zipcode_county_map) as [out|e] eqn:Hrun;
    [|exfalso; vm_compute in Hrun; discriminate].
  destruct (filter_pierce_zipcodes ex_data ex_zipcode_county_map [py "98092"; py "98402"]
              out eq_refl Hrun) as [_ Hother].
  exists out. split; [reflexivity|]. split.
  - apply (Hother _ (py "98402")); [|reflexivity|discriminate|].
    + apply list_elem_of_In. simpl. tauto.
    + right. left.
  - intros Hin. apply (Hother _ (py "98101")) in Hin; [|  |reflexivity|discriminate].
    + apply list_elem_of_In in Hin. simpl in Hin. by destruct Hin as [?|[?|[]]].
    + apply list_elem_of_In. simpl. tauto.
Defined.

Lemma filter_pierce_idempotent_witness :
  exists out,
    filter_pierce ex_data ex_zipcode_county_map = Ok out
    /\ filter_pierce out ex_zipcode_county_map = Ok out.
Proof.
  destruct (filter_pierce ex_data ex_zipcode_county_map) as [out|e] eqn:Hrun;
    [|exfalso; vm_compute in Hrun; discriminate].
  exists out. split; [reflexivity|]. exact (filter_pierce_idempotent _ _ _ Hrun).
Defined.

Lemma get_age_bucket_decade_witness : get_age_bucket 34 = py "30-39 years".
Proof. rewrite (get_age_bucket_decade 34) by lia. reflexivity. Defined.

Lemma get_household_address_no_head_record_witness :
  get_household_address ex_int_of_str ex_to_datetime64 ex_export_cols
    ex_records_dangling ex_house = Raise KeyError.
Proof.
  apply (get_household_address_no_head_record ex_int_of_str ex_to_datetime64 ex_export_cols
           ex_records_dangling ex_house ex_household_dangling 3
           [(DEBUG, FoundHeadOfHousehold 3 ex_house)]).
  - vm_compute. reflexivity.
  - vm_compute. reflexivity.
  - intros r ->%list_elem_of_singleton. vm_compute. discriminate.
Defined.

Lemma enrollment_records_of_project_witness :
  exists records,
    enrollment_records_of ex_records = Ok records
    /\ Forall2 (fun r r' => name r' = name r) (rows ex_records) (rows records).
Proof.
  destruct (enrollment_records_of ex_records) as [records|e] eqn:Hrun;
    [|exfalso; vm_compute in Hrun; discriminate].
  exists records. split; [reflexivity|].
  eapply Forall2_impl; [apply (enrollment_records_of_project ex_records records)|].
  - vm_compute. repeat constructor; rewrite ?elem_of_cons, ?elem_of_nil; intros H;
      repeat destruct H as [H|H]; try discriminate; done.
  - exact Hrun.
  - by intros r r' [Hname _].
Defined.
